(** * SpinWick orchestration of mattermost-mattermod: a shallow embedding

    The development follows [server/builds.go] and [server/spinwick.go].
    Go strings are byte strings ([string] of [ascii]); Go [int] values that
    the code only prints or compares are integers in [Z].  Calls to
    collaborators outside the process (the provisioning server, GitHub, the
    record store, Jenkins, the docker registry, timers) take their answers
    from an explicit script, and what the code does to them is recorded in a
    trace of events. *)

From Stdlib Require Import ZArith List String Ascii Bool Lia.
From Stdlib Require Import Decimal DecimalString DecimalPos DecimalZ.
Import ListNotations.
Open Scope string_scope.

(** ** Outcomes and the trace monad *)

(** What a Go call can end in: a normal return, a run-time panic, or, for a
    polling loop run against a finite script, a loop that is still waiting
    when the script is exhausted. *)
Inductive Outcome (A : Type) : Type :=
| Returned (a : A)
| Panicked
| Polling.
Arguments Returned {A} a.
Arguments Panicked {A}.
Arguments Polling {A}.

(** The body of an outgoing HTTP request. *)
Record CreateClusterRequest := mkCreateClusterRequest {
  ccr_Provider : string;
  ccr_Size : string;
  ccr_Zones : list string
}.

Record CreateInstallationRequest := mkCreateInstallationRequest {
  OwnerID : string;
  Version : string;
  DNS : string;
  Size : string;
  Affinity : string
}.

Inductive Payload : Type :=
| NoPayload
| JSONInstallation (r : CreateInstallationRequest)
| JSONCluster (r : CreateClusterRequest)
| RawBytes (s : string).

(** Observable actions, in the order the code performs them.  Only
    [mlog.Error] lines are traced; informational logging is left out. *)
Inductive Event : Type :=
| Request (method url : string) (payload : Payload)
| CommentOnIssue (owner repo : string) (number : Z) (msg : string)
| LogError (msg : string)
| InitializeTestServer (mmURL : string) (number : Z)
| Sleep (seconds : Z)
| SavePullRequest (number : Z) (buildLink : string)
| GetSpinmint (number : Z)
| RemoveSpinmint (instance : string)
| JenkinsWaitForBuild (number : Z)
| GetPullRequest (owner repo : string) (number : Z)
| UpdateChecks (owner repo : string) (number : Z)
| ManifestDigest (image tag : string)
| JenkinsGetJob (name : string)
| JenkinsGetBuild (job : string) (number : Z)
| GetCombinedStatus (owner repo sha : string)
| ListCheckRunsForRef (owner repo sha : string).

Definition M (A : Type) : Type := (list Event * Outcome A)%type.

Definition ret {A} (a : A) : M A := ([], Returned a).

Definition bind {A B} (m : M A) (k : A -> M B) : M B :=
  match m with
  | (t, Returned a) => let (t', o) := k a in ((t ++ t')%list, o)
  | (t, Panicked) => (t, Panicked)
  | (t, Polling) => (t, Polling)
  end.

Definition emit (e : Event) : M unit := ([e], Returned tt).
Definition panic {A} : M A := ([], Panicked).
Definition still_polling {A} : M A := ([], Polling).

Declare Scope go_scope.
Delimit Scope go_scope with go.
Notation "x <- c1 ;; c2" := (bind c1 (fun x => c2))
  (at level 100, c1 at next level, right associativity) : go_scope.
Notation "c1 ;; c2" := (bind c1 (fun _ => c2))
  (at level 100, right associativity) : go_scope.
Open Scope go_scope.

Definition lift {A} (o : Outcome A) : M A := ([], o).

Definition trace {A} (m : M A) : list Event := fst m.
Definition outcome {A} (m : M A) : Outcome A := snd m.

(** ** Strings *)

(** [s[lo:hi]] on a Go string: the bytes from [lo] up to [hi], and a panic
    ([None]) unless [lo <= hi <= len(s)]. *)
Definition go_slice (s : string) (lo hi : nat) : option string :=
  if (lo <=? hi)%nat && (hi <=? String.length s)%nat
  then Some (substring lo (hi - lo) s)
  else None.

Definition is_upper (c : ascii) : bool :=
  (65 <=? nat_of_ascii c)%nat && (nat_of_ascii c <=? 90)%nat.

Definition lower_byte (c : ascii) : ascii :=
  if is_upper c then ascii_of_nat (nat_of_ascii c + 32) else c.

Fixpoint map_bytes (f : ascii -> ascii) (s : string) : string :=
  match s with
  | EmptyString => EmptyString
  | String c r => String (f c) (map_bytes f r)
  end.

Fixpoint isASCII (s : string) : bool :=
  match s with
  | EmptyString => true
  | String c r => (nat_of_ascii c <? 128)%nat && isASCII r
  end.

(** [strings.Contains]. *)
Fixpoint contains (s sub : string) : bool :=
  if prefix sub s then true
  else match s with
       | EmptyString => false
       | String _ r => contains r sub
       end.

(** [%d] of [fmt.Sprintf]. *)
Definition itoa (n : Z) : string := NilZero.string_of_int (Z.to_int n).

(** The JSON reply of the provisioning server, as far as the code reads it:
    the error [Decode] returns and the fields the document sets. *)
Inductive DecodeError : Type :=
| DecodeOk
| DecodeEOF
| DecodeFailed (msg : string).

Record Body := mkBody {
  decode_err : DecodeError;
  body_ID : option string;
  body_State : option string
}.

(** The two fields of [Installation] and of [Cluster] that the code reads. *)
Record Resource := mkResource {
  ID : string;
  State : string
}.

Definition zero_Resource : Resource := mkResource "" "".

(** [json.NewDecoder(body).Decode(&v)]: fields present in the document
    overwrite [v], the others keep their value. *)
Definition Decode (b : Body) (v : Resource) : DecodeError * Resource :=
  (decode_err b,
   mkResource (match body_ID b with Some i => i | None => ID v end)
              (match body_State b with Some s => s | None => State v end)).

(** [err != nil && err != io.EOF]. *)
Definition decode_failed (e : DecodeError) : bool :=
  match e with
  | DecodeFailed _ => true
  | _ => false
  end.

(** The answer of [makeRequest]: an error with a nil response, or a
    response with its status code and body. *)
Inductive HTTPResult : Type :=
| RequestError (msg : string)
| Response (StatusCode : Z) (body : Body).

(** [model.PullRequest], with the fields the orchestration reads. *)
Record PullRequest := mkPullRequest {
  RepoOwner : string;
  RepoName : string;
  Number : Z;
  Sha : string;
  Labels : list string;
  BuildStatus : string;
  BuildConclusion : string;
  BuildLink : string
}.

(** Go error values.  An error made by the code keeps its constructor
    ([errors.New], [errors.Errorf] with its arguments, [errors.Wrap]); an
    error handed back by a collaborator is known by its [Error()] text. *)
Inductive Arg : Type :=
| ArgString (s : string)
| ArgInt (n : Z).

Inductive GoError : Type :=
| New (msg : string)
| Errorf (format : string) (args : list Arg)
| Wrap (cause : GoError) (msg : string)
| Wrapf (cause : GoError) (format : string) (args : list Arg)
| External (text : string).

(** An [error] result: [None] is [nil]. *)
Definition error := option GoError.


(** [strings.Split(s, sep)] for a one-byte separator. *)
Fixpoint split_on (sep : ascii) (s : string) (cur : string) : list string :=
  match s with
  | EmptyString => [cur]
  | String c r =>
      if Ascii.eqb c sep then cur :: split_on sep r ""
      else split_on sep r (cur ++ String c "")
  end.

Definition Split (s : string) (sep : ascii) : list string := split_on sep s "".

(** The digit that a byte stands for in base 10; the letters, which
    [strconv] reads as digits from 10 on, are refused like any other byte. *)
Definition digit_of (c : ascii) : option Z :=
  let n := nat_of_ascii c in
  if (48 <=? n)%nat && (n <=? 57)%nat then Some (Z.of_nat (n - 48)) else None.

(** The two errors of [strconv]. *)
Inductive NumError : Type :=
| ErrSyntax
| ErrRange.

Definition maxUint64 : Z := 18446744073709551615.

(** [maxVal] of [ParseUint] for 32 bits. *)
Definition maxVal32 : Z := 4294967295.

(** The loop of [strconv.ParseUint(s, 10, 32)] over the bytes of [s], on
    the unsigned 64-bit [n]: a byte that is no digit ends it with a syntax
    error; as soon as the number read passes [maxVal] the loop ends with
    [maxVal] and the range error, whatever bytes follow. *)
Fixpoint ParseUint_digits (s : string) (n : Z) : Z * option NumError :=
  match s with
  | EmptyString => (n, None)
  | String c r =>
      match digit_of c with
      | None => (0, Some ErrSyntax)
      | Some d =>
          if n >=? maxUint64 / 10 + 1 then (maxVal32, Some ErrRange)
          else
            let n := (n * 10) mod 2 ^ 64 in
            let n1 := (n + d) mod 2 ^ 64 in
            if (n1 <? n) || (n1 >? maxVal32) then (maxVal32, Some ErrRange)
            else ParseUint_digits r n1
      end
  end%Z.

Definition ParseUint32 (s : string) : Z * option NumError :=
  match s with
  | EmptyString => (0%Z, Some ErrSyntax)
  | _ => ParseUint_digits s 0
  end.

(** [strconv.ParseInt(s, 10, 32)]: the sign is picked off, the rest is read
    by [ParseUint]; a syntax error gives 0, and a number at or past the
    cutoff 2^31 (past it, when negative) gives the nearest bound with the
    range error. *)
Definition ParseInt (s : string) : Z * option NumError :=
  match s with
  | EmptyString => (0, Some ErrSyntax)
  | String c r =>
      let (neg, body) :=
        if Ascii.eqb c "+" then (false, r)
        else if Ascii.eqb c "-" then (true, r)
        else (false, s) in
      match ParseUint32 body with
      | (_, Some ErrSyntax) => (0, Some ErrSyntax)
      | (un, _) =>
          let cutoff := 2147483648 in
          if negb neg && (un >=? cutoff) then (cutoff - 1, Some ErrRange)
          else if neg && (un >? cutoff) then (- cutoff, Some ErrRange)
          else (if neg then - un else un, None)
      end
  end%Z.

(** [jobNumber, _ = strconv.ParseInt(s, 10, 32)]: the error is dropped. *)
Definition ParseInt32 (s : string) : Z := fst (ParseInt s).

(** [parts[len(parts)-k]]: [None] is the index-out-of-range panic. *)
Definition from_end (parts : list string) (k : nat) : option string :=
  if (k <=? List.length parts)%nat && (1 <=? k)%nat
  then nth_error parts (List.length parts - k)
  else None.

(** A configured repository and the lookup by owner and name. *)
Record Repository := mkRepository {
  Owner : string;
  Name : string;
  BuildStatusContext : string;
  JenkinsServer : string
}.

(** Modelled from the spec: [GetRepository] is not among the sources; the
    spec has the waiter "look up the configured status context name for the
    repository", taken as the first configured repository with the owner
    and name of the pull request ([None] is the nil repository). *)
Fixpoint GetRepository (repositories : list Repository) (owner name : string)
  : option Repository :=
  match repositories with
  | [] => None
  | repo :: rest =>
      if (Owner repo =? owner) && (Name repo =? name) then Some repo
      else GetRepository rest owner name
  end.

(** ** builds.go *)

Module Builds.

(** [s.Config], as far as builds.go reads it. *)
Record Server := mkServer {
  Repositories : list Repository
}.

(** [pr.Sha[0:7]]; [None] is the slice-bounds panic. *)
Definition getInstallationVersion (pr : PullRequest) : option string :=
  go_slice (Sha pr) 0 7.

(** One turn of the loop of [waitForImage]: which case of the [select]
    fires, what the store returns for the pull request, and the error of
    the registry lookup ([None] is nil). *)
Record ImagePoll := mkImagePoll {
  image_deadline : bool;
  image_stored : option PullRequest * option string;
  image_digest : option string
}.

Definition image : string := "mattermost/mattermost-enterprise-edition".

Fixpoint waitForImage (s : Server) (polls : list ImagePoll) (pr : PullRequest)
  : M (option PullRequest * error) :=
  match polls with
  | [] => still_polling
  | p :: rest =>
      if image_deadline p
      then ret (Some pr, Some (New "timed out waiting for image to publish"))
      else
        emit (GetPullRequest (RepoOwner pr) (RepoName pr) (Number pr));;
        match image_stored p with
        | (_, Some e) =>
            ret (None, Some (Wrap (External e)
                   "unable to get updated PR from Mattermod database"))
        | (None, None) => panic
        | (Some pr, None) =>
            match getInstallationVersion pr with
            | None => panic
            | Some desiredTag =>
                emit (ManifestDigest image desiredTag);;
                match image_digest p with
                | Some e =>
                    if negb (contains e "status=404")
                    then ret (Some pr, Some (Wrap (External e)
                                "unable to fetch tag from docker registry"))
                    else waitForImage s rest pr
                | None => ret (Some pr, None)
                end
            end
        end
  end.

(** The Jenkins build as [client.GetBuild] returns it. *)
Record JenkinsBuild := mkJenkinsBuild {
  build_Number : Z;
  Building : bool;
  Result : string
}.

(** One turn of the loop of [waitForBuild]: the [select], the store, GitHub
    ([GetUpdateChecks]), and Jenkins ([GetJob], [GetBuild]). *)
Record BuildPoll := mkBuildPoll {
  build_deadline : bool;
  build_stored : option PullRequest * option string;
  build_checks : option PullRequest * option string;
  build_job : option string;
  build_build : JenkinsBuild * option string
}.

Section WaitForBuild.

(** The constant [serverRepoName] is declared outside the sources. *)
Variable serverRepoName : string.

(** The body of the [else] branch for a pull request with a build link:
    the Jenkins job is found from the link and its build decides. [None]
    means that the loop goes on. *)
Definition jenkinsDecision (p : BuildPoll) (pr : PullRequest)
  : M (option (option PullRequest * error)) :=
  let parts := Split (BuildLink pr) "/" in
  if RepoName pr =? serverRepoName then
    match from_end parts 3, from_end parts 6, from_end parts 4 with
    | Some number, Some job, Some subJobName =>
        let jobNumber := ParseInt32 number in
        let jobName := "mp/job/" ++ job ++ "/job/" ++ subJobName in
        emit (JenkinsGetJob jobName);;
        match build_job p with
        | Some e =>
            ret (Some (Some pr, Some (Wrapf (External e)
                   "failed to get Jenkins job %s" [ArgString jobName])))
        | None =>
            emit (JenkinsGetBuild jobName jobNumber);;
            let (build, err) := build_build p in
            match err with
            | Some e =>
                ret (Some (Some pr, Some (Wrapf (External e)
                       "failed to get Jenkins build %d"
                       [ArgInt (build_Number build)])))
            | None =>
                if negb (Building build) && (Result build =? "SUCCESS")
                then ret (Some (Some pr, None))
                else if (Result build =? "FAILURE")
                        || (Result build =? "ABORTED")
                then ret (Some (Some pr, Some (Errorf
                       "build %d failed with status %q"
                       [ArgInt (build_Number build);
                        ArgString (Result build)])))
                else ret None
            end
        end
    | _, _, _ => panic
    end
  else
    ret (Some (Some pr, Some (Errorf "unsupported repository %s"
                                [ArgString (RepoName pr)]))).

(** What one poll decides once the pull request is refreshed. *)
Definition buildDecision (p : BuildPoll) (pr : PullRequest)
  : M (option (option PullRequest * error)) :=
  if RepoName pr =? "mattermost-webapp" then
    if BuildStatus pr =? "in_progress" then ret None
    else if BuildStatus pr =? "completed" then
      if BuildConclusion pr =? "success"
      then ret (Some (Some pr, None))
      else ret (Some (Some pr, Some (New "build failed")))
    else ret (Some (Some pr, Some (Errorf "unknown build status %s"
                                     [ArgString (BuildStatus pr)])))
  else
    if BuildLink pr =? "" then ret None
    else jenkinsDecision p pr.

Fixpoint waitForBuild (s : Server) (polls : list BuildPoll) (pr : PullRequest)
  : M (option PullRequest * error) :=
  match polls with
  | [] => still_polling
  | p :: rest =>
      if build_deadline p
      then ret (Some pr, Some (New "timed out waiting for build to finish"))
      else
        emit (GetPullRequest (RepoOwner pr) (RepoName pr) (Number pr));;
        match build_stored p with
        | (_, Some e) =>
            ret (None, Some (Wrap (External e)
                   "unable to get updated PR from Mattermod database"))
        | (None, None) => panic
        | (Some pr, None) =>
            emit (UpdateChecks (RepoOwner pr) (RepoName pr) (Number pr));;
            match build_checks p with
            | (pr, Some e) =>
                ret (pr, Some (Wrap (External e)
                       "unable to get updated PR from GitHub"))
            | (None, None) => panic
            | (Some pr, None) =>
                d <- buildDecision p pr;;
                match d with
                | Some r => ret r
                | None => waitForBuild s rest pr
                end
            end
        end
  end.

End WaitForBuild.

(** GitHub's combined statuses and check runs; the fields are pointers in
    go-github, [None] being nil. *)
Record RepoStatus := mkRepoStatus {
  Context : option string;
  status_State : option string;
  TargetURL : option string
}.

Record CheckRun := mkCheckRun {
  check_Name : option string;
  check_Status : option string;
  Conclusion : option string;
  HTMLURL : option string
}.

(** [status.GetHTMLURL()]. *)
Definition GetHTMLURL (c : CheckRun) : string :=
  match HTMLURL c with
  | Some u => u
  | None => ""
  end.

(** The first [for] of [checkBuildLink]: the target of the first status
    with the configured context and a non-empty target.  Reading through a
    nil pointer panics. *)
Fixpoint scanStatuses (repo : option Repository) (statuses : list RepoStatus)
  : Outcome (option string) :=
  match statuses with
  | [] => Returned None
  | status :: rest =>
      match Context status, repo with
      | Some c, Some r =>
          if c =? BuildStatusContext r then
            match TargetURL status with
            | Some u => if negb (u =? "") then Returned (Some u)
                        else scanStatuses repo rest
            | None => Panicked
            end
          else scanStatuses repo rest
      | _, _ => Panicked
      end
  end.

(** The second [for]: the page of the first check run with that name. *)
Fixpoint scanCheckRuns (repo : option Repository) (checks : list CheckRun)
  : Outcome (option string) :=
  match checks with
  | [] => Returned None
  | status :: rest =>
      match check_Name status, repo with
      | Some n, Some r =>
          if n =? BuildStatusContext r then Returned (Some (GetHTMLURL status))
          else scanCheckRuns repo rest
      | _, _ => Panicked
      end
  end.

(** One turn of the loop of [checkBuildLink]. *)
Record LinkPoll := mkLinkPoll {
  link_statuses : list RepoStatus * option string;
  link_checks : list CheckRun * option string;
  link_deadline : bool
}.

Fixpoint checkBuildLink_loop (repo : option Repository)
    (polls : list LinkPoll) (pr : PullRequest) : M (string * error) :=
  match polls with
  | [] => still_polling
  | p :: rest =>
      emit (GetCombinedStatus (RepoOwner pr) (RepoName pr) (Sha pr));;
      match link_statuses p with
      | (_, Some e) => ret ("", Some (External e))
      | (statuses, None) =>
          found <- lift (scanStatuses repo statuses);;
          match found with
          | Some u => ret (u, None)
          | None =>
              emit (ListCheckRunsForRef (RepoOwner pr) (RepoName pr) (Sha pr));;
              match link_checks p with
              | (_, Some e) => ret ("", Some (External e))
              | (checks, None) =>
                  found <- lift (scanCheckRuns repo checks);;
                  match found with
                  | Some u => ret (u, None)
                  | None =>
                      if link_deadline p then
                        emit (CommentOnIssue (RepoOwner pr) (RepoName pr)
                                (Number pr)
                                "Timed out waiting for build link. Please check the logs.");;
                        ret ("", Some (New "timed out waiting the build link"))
                      else checkBuildLink_loop repo rest pr
                  end
              end
          end
      end
  end.

Definition checkBuildLink (s : Server) (polls : list LinkPoll)
    (pr : PullRequest) : M (string * error) :=
  checkBuildLink_loop
    (GetRepository (Repositories s) (RepoOwner pr) (RepoName pr)) polls pr.


End Builds.

(** ** spinwick.go *)

Module SpinWick.

Record JenkinsCredentials := mkJenkinsCredentials {
  Username : string;
  ApiToken : string;
  URL : string
}.

(** The global [Config], as far as spinwick.go reads it. *)
Record ServerConfig := mkServerConfig {
  ProvisionerServer : string;
  DNSNameTestServer : string;
  SetupSpinWick : string;
  SetupSpinWickHA : string;
  SetupSpinmintFailedMessage : string;
  Repositories : list Repository;
  JenkinsCredentialsMap : list (string * JenkinsCredentials)
}.

(** The answer of [Srv.Store.Spinmint().Get]: an error, no data, or the
    record with its [InstanceId]. *)
Inductive SpinmintResult : Type :=
| StoreErr (msg : string)
| NoData
| Data (InstanceId : string).

(** One turn of the loop of [waitMattermostInstallation]: the reply to the
    GET, the result of [initializeMattermostTestServer] and the reply to the
    DELETE (each read only if the call is made), and which case of the
    [select] fires. *)
Record InstallationPoll := mkInstallationPoll {
  poll_get : HTTPResult;
  poll_init : error;
  poll_delete : HTTPResult;
  poll_deadline : bool
}.

(** One turn of the loop of [waitK8sCluster]. *)
Record ClusterPoll := mkClusterPoll {
  cluster_get : HTTPResult;
  cluster_deadline : bool
}.

(** What the provisioning server answers while a cluster is requested. *)
Record ClusterScript := mkClusterScript {
  cluster_post : HTTPResult;
  cluster_polls : list ClusterPoll
}.

(** What the collaborators answer during [createSpinWick]. *)
Record CreateScript := mkCreateScript {
  create_post : HTTPResult;
  create_get : HTTPResult;
  create_cluster : ClusterScript;
  create_polls : list InstallationPoll
}.

(** What the collaborators answer during [updateSpinWick]; [update_build]
    is the result of the Jenkins waiter [waitForBuild(client, pr)] of this
    version, which is declared outside the sources. *)
Record UpdateScript := mkUpdateScript {
  update_links : list Builds.LinkPoll;
  update_save : option string;
  update_spinmint : SpinmintResult;
  update_build : option PullRequest * bool;
  update_put : HTTPResult;
  update_polls : list InstallationPoll
}.

Section Orchestrator.

Variable Config : ServerConfig.

(** [unicode.ToLower] mapped over a string that is not pure ASCII; the
    Unicode tables are outside the sources. *)
Variable unicode_ToLower : string -> string.

(** [strings.ToLower]. *)
Definition ToLower (s : string) : string :=
  if isASCII s then map_bytes lower_byte s else unicode_ToLower s.

Definition makePullRequestID (repoName : string) (prNumber : Z) : string :=
  ToLower (repoName ++ "-pr-" ++ itoa prNumber).

Definition commentOnIssue (owner repo : string) (number : Z) (msg : string)
  : M unit :=
  emit (CommentOnIssue owner repo number msg).

Definition makeRequest (method url : string) (payload : Payload)
    (answer : HTTPResult) : M HTTPResult :=
  emit (Request method url payload);;
  ret answer.

(** The body of [initializeMattermostTestServer] talks to the new server
    only; the call is recorded and its result taken from the script. *)
Definition initializeMattermostTestServer (mmURL : string) (prNumber : Z)
    (answer : error) : M error :=
  emit (InitializeTestServer mmURL prNumber);;
  ret answer.

(** [defer resp.Body.Close()] is evaluated after the error is logged, with
    a nil [resp] when the request failed: a nil dereference. *)
Definition destroyMMInstallation (instanceClusterID : string)
    (answer : HTTPResult) : M unit :=
  let url := ProvisionerServer Config ++ "/api/installation/"
             ++ instanceClusterID in
  resp <- makeRequest "DELETE" url NoPayload answer;;
  match resp with
  | RequestError _ =>
      emit (LogError "Error deleting the installation");;
      panic
  | Response _ _ => ret tt
  end.

(** Modelled from the spec: [removeSpinmintInfo] is not among the sources;
    the spec has Destroy "delete the persisted record".  The call is
    recorded; [store_after] below gives its effect on the records. *)
Definition removeSpinmintInfo (instanceClusterID : string) : M unit :=
  emit (RemoveSpinmint instanceClusterID).

Definition destroySpinWick (pr : PullRequest) (instanceClusterID : string)
    (answer : HTTPResult) : M unit :=
  destroyMMInstallation instanceClusterID answer;;
  removeSpinmintInfo instanceClusterID.

Fixpoint waitMattermostInstallation (polls : list InstallationPoll)
    (pr : PullRequest) (installationRequestID : string) (upgrade : bool)
  : M error :=
  match polls with
  | [] => still_polling
  | p :: rest =>
      let url := ProvisionerServer Config ++ "/api/installation/"
                 ++ installationRequestID in
      resp <- makeRequest "GET" url NoPayload (poll_get p);;
      match resp with
      | RequestError e =>
          emit (LogError
            "Error making the post request to create the mm installation");;
          ret (Some (External e))
      | Response _ body =>
          let (err, installationRequest) := Decode body zero_Resource in
          if decode_failed err then
            emit (LogError "Error decoding installation");;
            ret (Some (New "Error decoding installation"))
          else if State installationRequest =? "stable" then
            let mmURL := "https://"
                         ++ makePullRequestID (RepoName pr) (Number pr)
                         ++ "." ++ DNSNameTestServer Config in
            if negb upgrade then
              userErr <- initializeMattermostTestServer mmURL (Number pr)
                           (poll_init p);;
              match userErr with
              | Some _ =>
                  commentOnIssue (RepoOwner pr) (RepoName pr) (Number pr)
                    "Failed to create mattermost installation.";;
                  destroyMMInstallation (ID installationRequest)
                    (poll_delete p);;
                  ret None
              | None =>
                  commentOnIssue (RepoOwner pr) (RepoName pr) (Number pr)
                    ("Mattermost test server created! :tada:"
                     ++ String "010" (String "010" "Access here: ")
                     ++ mmURL
                     ++ String "010" (String "010"
                          "| Account Type | Username | Password |")
                     ++ String "010" "|---|---|---|"
                     ++ String "010" "| Admin | sysadmin | Sys@dmin123 |"
                     ++ String "010" "| User | user-1 | User-1@123 |");;
                  ret None
              end
            else
              commentOnIssue (RepoOwner pr) (RepoName pr) (Number pr)
                ("Mattermost test server updated!"
                 ++ String "010" (String "010" "Access here: ") ++ mmURL);;
              ret None
          else if State installationRequest =? "creation-failed" then
            commentOnIssue (RepoOwner pr) (RepoName pr) (Number pr)
              "Failed to create mattermost installation.";;
            destroyMMInstallation (ID installationRequest) (poll_delete p);;
            ret (Some (New "error creating mattermost installation"))
          else if poll_deadline p then
            destroyMMInstallation (ID installationRequest) (poll_delete p);;
            commentOnIssue (RepoOwner pr) (RepoName pr) (Number pr)
              "Timed out waiting for the mattermost installation. Please check the logs.";;
            ret (Some (New
              "timed out waiting for the mattermost installation complete. requesting the deletion"))
          else waitMattermostInstallation rest pr installationRequestID upgrade
      end
  end.

Fixpoint waitK8sCluster (polls : list ClusterPoll) (pr : PullRequest)
    (clusterRequestID : string) : M error :=
  match polls with
  | [] => still_polling
  | p :: rest =>
      let url := ProvisionerServer Config ++ "/api/cluster/"
                 ++ clusterRequestID in
      resp <- makeRequest "GET" url NoPayload (cluster_get p);;
      match resp with
      | RequestError e =>
          emit (LogError
            "Error making the post request to create the k8s cluster");;
          ret (Some (External e))
      | Response _ body =>
          let (err, clusterRequest) := Decode body zero_Resource in
          (if decode_failed err
           then emit (LogError "Error decoding cluster response")
           else ret tt);;
          if State clusterRequest =? "stable" then
            commentOnIssue (RepoOwner pr) (RepoName pr) (Number pr)
              "Kubernetes cluster created. Now will deploy Mattermost... Hang on!";;
            ret None
          else if State clusterRequest =? "creation-failed" then
            commentOnIssue (RepoOwner pr) (RepoName pr) (Number pr)
              "Failed to create the k8s cluster.";;
            ret (Some (New "error creating k8s cluster"))
          else
            emit (Sleep 20);;
            if cluster_deadline p then
              commentOnIssue (RepoOwner pr) (RepoName pr) (Number pr)
                "Timed out waiting for the kubernetes cluster. Please check the logs.";;
              ret (Some (New
                "timed out waiting for the cluster installation complete"))
            else waitK8sCluster rest pr clusterRequestID
      end
  end.

Definition requestK8sClusterCreation (script : ClusterScript)
    (pr : PullRequest) : M error :=
  let url := ProvisionerServer Config ++ "/api/clusters" in
  commentOnIssue (RepoOwner pr) (RepoName pr) (Number pr)
    "Please wait while a new kubernetes cluster is created for your SpinWick";;
  let clusterRequest := mkCreateClusterRequest "" "SizeAlef1000" [] in
  respReqCluster <- makeRequest "POST" url (JSONCluster clusterRequest)
                      (cluster_post script);;
  match respReqCluster with
  | RequestError e =>
      emit (LogError "Error trying to send the k8s-cluster-creation request");;
      ret (Some (External e))
  | Response _ body =>
      let (err, cluster) := Decode body zero_Resource in
      match err with
      | DecodeFailed e =>
          emit (LogError "Error decoding");;
          ret (Some (External e))
      | _ => waitK8sCluster (cluster_polls script) pr (ID cluster)
      end
  end.

Definition createSpinWick (script : CreateScript) (pr : PullRequest)
    (size : string) : M (string * error) :=
  let prID := makePullRequestID (RepoName pr) (Number pr) in
  match go_slice (Sha pr) 0 7 with
  | None => panic
  | Some version =>
      let installationRequest :=
        mkCreateInstallationRequest prID version
          (prID ++ "." ++ DNSNameTestServer Config) size "multitenant" in
      let url := ProvisionerServer Config ++ "/api/installations" in
      respReqInstallation <- makeRequest "POST" url
                               (JSONInstallation installationRequest)
                               (create_post script);;
      match respReqInstallation with
      | RequestError e =>
          emit (LogError
            "Error making the post request to create the mattermost installation");;
          ret ("", Some (External e))
      | Response _ body =>
          let (err, installation) := Decode body zero_Resource in
          match err with
          | DecodeFailed e =>
              emit (LogError "Error decoding installation response");;
              ret ("", Some (External e))
          | _ =>
              let installationID := ID installation in
              emit (Sleep 3);;
              let url := ProvisionerServer Config ++ "/api/installation/"
                         ++ installationID in
              resp <- makeRequest "GET" url NoPayload (create_get script);;
              match resp with
              | RequestError e =>
                  emit (LogError
                    "Error making the post request to create the mm installation");;
                  ret ("", Some (External e))
              | Response _ body =>
                  let (err, installation) := Decode body installation in
                  if decode_failed err then
                    emit (LogError "Error decoding installation");;
                    ret ("", Some (New "Error decoding installation"))
                  else
                    err <- (if State installation
                               =? "creation-no-compatible-clusters"
                            then requestK8sClusterCreation
                                   (create_cluster script) pr
                            else ret None);;
                    match err with
                    | Some e => ret ("", Some e)
                    | None =>
                        err <- waitMattermostInstallation
                                 (create_polls script) pr installationID
                                 false;;
                        match err with
                        | Some e => ret ("", Some e)
                        | None => ret (installationID, None)
                        end
                    end
              end
          end
      end
  end.

Fixpoint lookupCredentials (m : list (string * JenkinsCredentials))
    (server : string) : option JenkinsCredentials :=
  match m with
  | [] => None
  | (k, c) :: rest => if k =? server then Some c
                      else lookupCredentials rest server
  end.

Definition waitForBuildComplete (answer : option PullRequest * bool)
    (pr : PullRequest) : M error :=
  let notConfigured :=
    emit (LogError
      "Unable to set up spintmint for PR without Jenkins configured for server");;
    commentOnIssue (RepoOwner pr) (RepoName pr) (Number pr)
      (SetupSpinmintFailedMessage Config);;
    ret (Some (New
      "Unable to set up spintmint for PR without Jenkins configured for server"))
  in
  match GetRepository (Repositories Config) (RepoOwner pr) (RepoName pr) with
  | None => notConfigured
  | Some repo =>
      if JenkinsServer repo =? "" then notConfigured
      else
        match lookupCredentials (JenkinsCredentialsMap Config)
                (JenkinsServer repo) with
        | None =>
            emit (LogError
              "No Jenkins credentials for server required for PR");;
            commentOnIssue (RepoOwner pr) (RepoName pr) (Number pr)
              (SetupSpinmintFailedMessage Config);;
            ret (Some (New
              "No Jenkins credentials for server required for PR"))
        | Some credentials =>
            emit (JenkinsWaitForBuild (Number pr));;
            match answer with
            | (None, _) => panic
            | (Some pr, errr) =>
                if negb errr then
                  commentOnIssue (RepoOwner pr) (RepoName pr) (Number pr)
                    (SetupSpinmintFailedMessage Config);;
                  ret (Some (New "error in the build. aborting"))
                else ret None
            end
        end
  end.

(** [checkBuildLink] of spinwick.go: statement for statement the loop of
    builds.go, on the repository found in the global [Config]. *)
Definition checkBuildLink (polls : list Builds.LinkPoll) (pr : PullRequest)
  : M (string * error) :=
  Builds.checkBuildLink_loop
    (GetRepository (Repositories Config) (RepoOwner pr) (RepoName pr))
    polls pr.

Definition dquote : string := String "034" "".
Definition newline : string := String "010" "".

Definition withBuildLink (pr : PullRequest) (link : string) : PullRequest :=
  mkPullRequest (RepoOwner pr) (RepoName pr) (Number pr) (Sha pr) (Labels pr)
    (BuildStatus pr) (BuildConclusion pr) link.

(** The tail of [updateSpinWick], from the upgrade request on. *)
Definition requestUpgrade (script : UpdateScript) (pr : PullRequest)
    (installation : string) : M unit :=
  match go_slice (Sha pr) 0 7 with
  | None => panic
  | Some shortCommit =>
      let payload := "{" ++ newline ++ dquote ++ "version"
                     ++ dquote ++ ": " ++ dquote ++ shortCommit
                     ++ dquote ++ "}" in
      let url := ProvisionerServer Config ++ "/api/installation/"
                 ++ installation ++ "/mattermost" in
      resp <- makeRequest "PUT" url (RawBytes payload) (update_put script);;
      match resp with
      | RequestError _ =>
          emit (LogError
            "Error making the put request to upgrade the mm cluster");;
          commentOnIssue (RepoOwner pr) (RepoName pr) (Number pr)
            "Error during the request to upgrade. Please remove the label and try again.";;
          ret tt
      | Response StatusCode _ =>
          if negb (StatusCode =? 202)%Z then
            emit (LogError "Error request was not accepted");;
            commentOnIssue (RepoOwner pr) (RepoName pr) (Number pr)
              "Error doing the upgrade process. Please remove the label and try again.";;
            ret tt
          else
            err <- waitMattermostInstallation (update_polls script) pr
                     installation true;;
            match err with
            | Some _ =>
                commentOnIssue (RepoOwner pr) (RepoName pr) (Number pr)
                  (SetupSpinmintFailedMessage Config);;
                ret tt
            | None => ret tt
            end
      end
  end.

Definition updateSpinWick (script : UpdateScript) (pr : PullRequest)
  : M unit :=
  let foundLabel :=
    existsb (fun label => (label =? SetupSpinWick Config)
                          || (label =? SetupSpinWickHA Config))
            (Labels pr) in
  if negb foundLabel then ret tt
  else
    emit (Sleep 60);;
    link <- checkBuildLink (update_links script) pr;;
    let (buildLink, err) := link in
    if (match err with Some _ => true | None => false end)
       || (buildLink =? "") then
      commentOnIssue (RepoOwner pr) (RepoName pr) (Number pr)
        (SetupSpinmintFailedMessage Config);;
      ret tt
    else
      let pr := withBuildLink pr buildLink in
      emit (SavePullRequest (Number pr) (BuildLink pr));;
      (match update_save script with
       | Some e => emit (LogError e)
       | None => ret tt
       end);;
      emit (GetSpinmint (Number pr));;
      match update_spinmint script with
      | StoreErr _ =>
          emit (LogError
            "Unable to get the SpinWick information; skipping...");;
          ret tt
      | NoData =>
          emit (LogError
            "No SpinWick for this PR in the database; skipping...");;
          ret tt
      | Data installation =>
          commentOnIssue (RepoOwner pr) (RepoName pr) (Number pr)
            "New commit detected. SpinWick upgrade will occur after the build is successful.";;
          err <- waitForBuildComplete (update_build script) pr;;
          match err with
          | Some _ =>
              emit (LogError "Error waiting for build to complete: %s");;
              ret tt
          | None =>
              emit (Sleep 60);;
              requestUpgrade script pr installation
          end
      end.

(** What [waitForBuildAndSetupSpinWick] does beyond the calls of [Event]:
    the report [LogErrorToMattermost], declared outside the sources and
    recorded with the pull request and the error it formats, and the save
    of the record. *)
Inductive SetupEvent : Type :=
| Did (e : Event)
| LogErrorToMattermost (number : Z) (owner repo : string) (err : GoError)
| StoreSpinmintInfo (instance owner repo : string) (number : Z).

(** What the collaborators answer during [waitForBuildAndSetupSpinWick]. *)
Record SetupScript := mkSetupScript {
  setup_build : option PullRequest * bool;
  setup_spinmint : SpinmintResult;
  setup_create : CreateScript
}.

(** Modelled from the spec: [storeSpinmintInfo] is not among the sources;
    the spec has Create "persist InstallationRecord".  The call is recorded
    with the fields that the caller sets, [CreatedAt] (the clock) apart. *)
Definition storeSpinmintInfo (instance owner repo : string) (number : Z)
  : list SetupEvent :=
  [StoreSpinmintInfo instance owner repo number].

Definition waitForBuildAndSetupSpinWick (script : SetupScript)
    (pr : PullRequest) (size : string) : list SetupEvent * Outcome unit :=
  let build := waitForBuildComplete (setup_build script) pr in
  match outcome build with
  | Panicked => (map Did (trace build), Panicked)
  | Polling => (map Did (trace build), Polling)
  | Returned (Some _) => (map Did (trace build), Returned tt)
  | Returned None =>
      let got := (map Did (trace build)
                  ++ [Did (GetSpinmint (Number pr))])%list in
      match setup_spinmint script with
      | StoreErr _ =>
          ((got ++ [Did (LogError
              "Unable to get the SpinWick information. Will not build the SpinWick")])%list,
           Returned tt)
      | NoData =>
          let create := createSpinWick (setup_create script) pr size in
          let created := (got ++ map Did (trace create))%list in
          match outcome create with
          | Panicked => (created, Panicked)
          | Polling => (created, Polling)
          | Returned (_, Some err) =>
              ((created
                ++ [LogErrorToMattermost (Number pr) (RepoOwner pr)
                      (RepoName pr) err;
                    Did (CommentOnIssue (RepoOwner pr) (RepoName pr)
                           (Number pr) (SetupSpinmintFailedMessage Config))])%list,
               Returned tt)
          | Returned (installationID, None) =>
              ((created
                ++ storeSpinmintInfo installationID (RepoOwner pr)
                     (RepoName pr) (Number pr))%list,
               Returned tt)
          end
      | Data _ => (got, Returned tt)
      end
  end.

End Orchestrator.

(** *** The persisted records *)

Record Spinmint := mkSpinmint {
  InstanceId : string;
  spinmint_Number : Z
}.

(** Modelled from the spec: the record store is not among the sources; the
    spec gives it [delete], after which the record is absent.  Removing an
    instance drops every record of that instance. *)
Definition remove_record (instance : string) (store : list Spinmint)
  : list Spinmint :=
  filter (fun r => negb (InstanceId r =? instance)) store.

(** The records left once the calls of a trace have reached the store. *)
Fixpoint store_after (t : list Event) (store : list Spinmint)
  : list Spinmint :=
  match t with
  | [] => store
  | RemoveSpinmint instance :: rest =>
      store_after rest (remove_record instance store)
  | _ :: rest => store_after rest store
  end.

End SpinWick.

(** * Statements *)

(** ** Vocabulary *)

(** A request that carries a create-installation document. *)
Definition creates_installation (e : Event) : Prop :=
  exists m u r, e = Request m u (JSONInstallation r).

(** What a poll reads: the reply decoded into a fresh [Installation], when
    the GET is answered and the decoding is not taken as failed. *)
Definition observed (p : SpinWick.InstallationPoll) : option Resource :=
  match SpinWick.poll_get p with
  | RequestError _ => None
  | Response _ body =>
      let (err, r) := Decode body zero_Resource in
      if decode_failed err then None else Some r
  end.

(** A poll after which the loop goes on: it reads a state that is neither
    [stable] nor [creation-failed], and the timer fires before the deadline. *)
Definition poll_waits (p : SpinWick.InstallationPoll) : bool :=
  match observed p with
  | Some r => negb (State r =? "stable")
              && negb (State r =? "creation-failed")
              && negb (SpinWick.poll_deadline p)
  | None => false
  end.

(** The GET and the DELETE of an installation. *)
Definition get_installation Config (id : string) : Event :=
  Request "GET" (SpinWick.ProvisionerServer Config ++ "/api/installation/" ++ id)
    NoPayload.

Definition delete_installation Config (id : string) : Event :=
  Request "DELETE"
    (SpinWick.ProvisionerServer Config ++ "/api/installation/" ++ id)
    NoPayload.

(** A request to the provisioning server. *)
Definition is_request (e : Event) : bool :=
  match e with
  | Request _ _ _ => true
  | _ => false
  end.

(** The PUT that asks for the upgrade of [installation] to [version]. *)
Definition upgrade_request Config (installation version : string) : Event :=
  Request "PUT"
    (SpinWick.ProvisionerServer Config ++ "/api/installation/"
     ++ installation ++ "/mattermost")
    (RawBytes ("{" ++ SpinWick.newline ++ SpinWick.dquote ++ "version"
               ++ SpinWick.dquote ++ ": " ++ SpinWick.dquote ++ version
               ++ SpinWick.dquote ++ "}")).

(** A call of the bootstrap. *)
Definition is_init (e : Event) : bool :=
  match e with
  | InitializeTestServer _ _ => true
  | _ => false
  end.

(** How many times a trace calls [initializeMattermostTestServer]. *)
Definition bootstraps (t : list Event) : nat := List.length (filter is_init t).

(** The registry error that stands for "not found". *)
Definition not_found (e : string) : bool := contains e "status=404".

(** A poll after which [waitForImage] goes on: the timer fires, the store
    returns a pull request whose hash can be cut, and the registry answers
    with a not-found error. *)
Definition image_retries (p : Builds.ImagePoll) : bool :=
  negb (Builds.image_deadline p)
  && match Builds.image_stored p with
     | (Some pr, None) =>
         match Builds.getInstallationVersion pr, Builds.image_digest p with
         | Some _, Some e => not_found e
         | _, _ => false
         end
     | _ => false
     end.

(** A manifest-digest lookup. *)
Definition is_lookup (e : Event) : bool :=
  match e with
  | ManifestDigest _ _ => true
  | _ => false
  end.

(** How many times a trace asks the registry. *)
Definition lookups (t : list Event) : nat := List.length (filter is_lookup t).








(** A DELETE sent to the provisioning server, and the two comments that
    tell of an installation given up. *)
Definition is_delete (e : Event) : bool :=
  match e with
  | Request method _ _ => method =? "DELETE"
  | _ => false
  end.

Definition gives_up (e : Event) : bool :=
  match e with
  | CommentOnIssue _ _ _ msg =>
      (msg =? "Failed to create mattermost installation.")
      || (msg =? "Timed out waiting for the mattermost installation. Please check the logs.")
  | _ => false
  end.

(** A request that carries a cluster creation document. *)
Definition requests_cluster (e : Event) : Prop :=
  exists m u r, e = Request m u (JSONCluster r).

(** A comment posted on the pull request. *)
Definition is_comment (e : Event) : bool :=
  match e with
  | CommentOnIssue _ _ _ _ => true
  | _ => false
  end.

(** A segment of a link: a string without [/]. *)
Fixpoint no_slash (s : string) : bool :=
  match s with
  | EmptyString => true
  | String c r => negb (Ascii.eqb c "/") && no_slash r
  end.

(** The value of a string of decimal digits, from an accumulator. *)
Fixpoint eval_uint (d : Decimal.uint) (acc : Z) : Z :=
  match d with
  | Nil => acc
  | D0 l => eval_uint l (10 * acc)
  | D1 l => eval_uint l (10 * acc + 1)
  | D2 l => eval_uint l (10 * acc + 2)
  | D3 l => eval_uint l (10 * acc + 3)
  | D4 l => eval_uint l (10 * acc + 4)
  | D5 l => eval_uint l (10 * acc + 5)
  | D6 l => eval_uint l (10 * acc + 6)
  | D7 l => eval_uint l (10 * acc + 7)
  | D8 l => eval_uint l (10 * acc + 8)
  | D9 l => eval_uint l (10 * acc + 9)
  end.

(** The comment that [checkBuildLink] posts when its deadline passes. *)
Definition timeout_comment (pr : PullRequest) : Event :=
  CommentOnIssue (RepoOwner pr) (RepoName pr) (Number pr)
    "Timed out waiting for build link. Please check the logs.".

(** The nearest number that 32 bits hold. *)
Definition clamp32 (n : Z) : Z :=
  if (n >? 2147483647)%Z then 2147483647%Z
  else if (n <? -2147483648)%Z then (-2147483648)%Z
  else n.

(** What a poll of [waitK8sCluster] reads when the GET is answered: the
    reply decoded into a fresh [Cluster]; a decoding that fails is logged
    and the cluster it left is read all the same. *)
Definition cluster_observed (p : SpinWick.ClusterPoll) : option Resource :=
  match SpinWick.cluster_get p with
  | RequestError _ => None
  | Response _ body => Some (snd (Decode body zero_Resource))
  end.

(** A poll after which the cluster loop goes on. *)
Definition cluster_waits (p : SpinWick.ClusterPoll) : bool :=
  match cluster_observed p with
  | Some r => negb (State r =? "stable")
              && negb (State r =? "creation-failed")
              && negb (SpinWick.cluster_deadline p)
  | None => false
  end.

(** The GET of a cluster, and the number of them in a trace. *)
Definition get_cluster Config (id : string) : Event :=
  Request "GET" (SpinWick.ProvisionerServer Config ++ "/api/cluster/" ++ id)
    NoPayload.

Definition fetches_cluster Config (id : string) (e : Event) : bool :=
  match e with
  | Request method url NoPayload =>
      (method =? "GET")
      && (url =? SpinWick.ProvisionerServer Config ++ "/api/cluster/" ++ id)
  | _ => false
  end.

Definition cluster_fetches Config (id : string) (t : list Event) : nat :=
  List.length (filter (fetches_cluster Config id) t).

(** The comment that ends a cluster wait that succeeded. *)
Definition cluster_created (pr : PullRequest) : Event :=
  CommentOnIssue (RepoOwner pr) (RepoName pr) (Number pr)
    "Kubernetes cluster created. Now will deploy Mattermost... Hang on!".

(** ** Concrete configurations and scripts *)

Definition example_config : SpinWick.ServerConfig :=
  SpinWick.mkServerConfig
    "https://provisioner.example.com" "test.example.com"
    "Setup Cloud Test Server" "Setup HA Cloud Test Server"
    "Failed to set up the test server."
    [mkRepository "mattermost" "mattermost-server"
       "continuous-integration/jenkins/pr-merge" "jenkins-1"]
    [("jenkins-1",
      SpinWick.mkJenkinsCredentials "mattermod" "token"
        "https://build.example.com")].

Definition example_pr : PullRequest :=
  mkPullRequest "mattermost" "mattermost-server" 13245
    "3f1c9a2b7d4e8f60a1b2c3d4e5f60718293a4b5c"
    ["Setup Cloud Test Server"] "" "" "".

(** A reply whose JSON document carries an id and a state, and a reply with
    an empty body. *)
Definition reply (id state : string) : HTTPResult :=
  Response 200 (mkBody DecodeOk (Some id) (Some state)).

Definition empty_reply (code : Z) : HTTPResult :=
  Response code (mkBody DecodeEOF None None).

Definition poll_reading (id state : string) (deadline : bool)
  : SpinWick.InstallationPoll :=
  SpinWick.mkInstallationPoll (reply id state) None (empty_reply 202) deadline.

(** An update whose build link is found at once, whose record names the
    installation [abc123], whose build succeeds and whose upgrade request is
    answered by [put]; the installation is then polled as [polls] says. *)
Definition example_update (put : HTTPResult)
    (polls : list SpinWick.InstallationPoll) : SpinWick.UpdateScript :=
  SpinWick.mkUpdateScript
    [Builds.mkLinkPoll
       ([Builds.mkRepoStatus
           (Some "continuous-integration/jenkins/pr-merge") (Some "pending")
           (Some "https://build.example.com/job/mp/job/mattermost-server/job/PR-13245/7/display/redirect")],
        None)
       ([], None) false]
    None (SpinWick.Data "abc123") (Some example_pr, true) put polls.

(** The request that [createSpinWick] builds for pull request 13245 of
    [Mattermost-Server]. *)
Definition example_request : CreateInstallationRequest :=
  mkCreateInstallationRequest "mattermost-server-pr-13245" "3f1c9a2"
    "mattermost-server-pr-13245.test.example.com" "miniSingleton"
    "multitenant".

(** A create in which the first fetch finds no compatible cluster, the
    cluster becomes stable at its second poll and the installation at its
    second poll. *)
Definition example_create : SpinWick.CreateScript :=
  SpinWick.mkCreateScript
    (reply "abc123" "creation-requested")
    (reply "abc123" "creation-no-compatible-clusters")
    (SpinWick.mkClusterScript
       (reply "c1" "creation-requested")
       [SpinWick.mkClusterPoll (reply "c1" "creation-requested") false;
        SpinWick.mkClusterPoll (reply "c1" "stable") false])
    [poll_reading "abc123" "creation-requested" false;
     poll_reading "abc123" "stable" false].

Definition example_server : Builds.Server :=
  Builds.mkServer
    [mkRepository "mattermost" "mattermost-server"
       "continuous-integration/jenkins/pr-merge" "jenkins-1"].

Definition image_poll (digest : option string) : Builds.ImagePoll :=
  Builds.mkImagePoll false (Some example_pr, None) digest.

Definition registry_404 : string :=
  "http: non-successful response (status=404 body=manifest unknown)".

(** A poll of [waitForBuild] in which both refreshes return [pr], and one
    at which the deadline has passed. *)
Definition build_poll (pr : PullRequest) : Builds.BuildPoll :=
  Builds.mkBuildPoll false (Some pr, None) (Some pr, None) None
    (Builds.mkJenkinsBuild 0 false "", None).

Definition deadline_poll : Builds.BuildPoll :=
  Builds.mkBuildPoll true (None, None) (None, None) None
    (Builds.mkJenkinsBuild 0 false "", None).

Definition with_status (pr : PullRequest) (status conclusion : string)
  : PullRequest :=
  mkPullRequest (RepoOwner pr) (RepoName pr) (Number pr) (Sha pr) (Labels pr)
    status conclusion (BuildLink pr).

Definition jenkins_link : string :=
  "https://build.example.com/job/mp/job/mattermost-server/job/PR-13245/7/display/redirect".

Definition webapp_pr : PullRequest :=
  mkPullRequest "mattermost" "mattermost-webapp" 5512
    "3f1c9a2b7d4e8f60a1b2c3d4e5f60718293a4b5c" [] "completed" "success" "".







(** * Properties *)

(** ** The trace monad *)

Lemma bind_ret {A B} (a : A) (k : A -> M B) : bind (ret a) k = k a.
Proof. unfold bind, ret. destruct (k a); reflexivity. Qed.

Lemma bind_emit {B} (e : Event) (k : unit -> M B) :
  bind (emit e) k = (e :: trace (k tt), outcome (k tt)).
Proof. unfold bind, emit. destruct (k tt); reflexivity. Qed.

Lemma bind_panic {A B} (k : A -> M B) : bind panic k = panic.
Proof. reflexivity. Qed.

Lemma bind_polling {A B} (k : A -> M B) : bind still_polling k = still_polling.
Proof. reflexivity. Qed.

Lemma trace_bind {A B} (m : M A) (k : A -> M B) :
  trace (bind m k)
  = match outcome m with
    | Returned a => (trace m ++ trace (k a))%list
    | _ => trace m
    end.
Proof.
  destruct m as [t [a| |]]; cbn; try reflexivity.
  destruct (k a); reflexivity.
Qed.

Lemma outcome_bind {A B} (m : M A) (k : A -> M B) :
  outcome (bind m k)
  = match outcome m with
    | Returned a => outcome (k a)
    | Panicked => Panicked
    | Polling => Polling
    end.
Proof.
  destruct m as [t [a| |]]; cbn; try reflexivity.
  destruct (k a); reflexivity.
Qed.

Lemma surjective_run {A} (m : M A) : m = (trace m, outcome m).
Proof. destruct m; reflexivity. Qed.

(** ** Strings *)

Lemma length_append (a b : string) :
  String.length (a ++ b) = (String.length a + String.length b)%nat.
Proof. induction a; cbn; [reflexivity | now rewrite IHa]. Qed.

Lemma substring_all (s : string) : substring 0 (String.length s) s = s.
Proof. induction s as [|c s IHs]; cbn; [reflexivity | now rewrite IHs]. Qed.

Lemma substring_prefix_split (n : nat) (s : string) :
  (n <= String.length s)%nat ->
  s = substring 0 n s ++ substring n (String.length s - n) s.
Proof.
  revert s; induction n as [|n IH]; intros s H.
  - rewrite Nat.sub_0_r. clear H.
    assert (E : substring 0 0 s = "") by (destruct s; reflexivity).
    rewrite E. cbn [append]. symmetry. apply substring_all.
  - destruct s as [|c s]; cbn in *; [lia|].
    f_equal. apply IH. lia.
Qed.

Lemma substring_prefix_length (n : nat) (s : string) :
  (n <= String.length s)%nat -> String.length (substring 0 n s) = n.
Proof.
  revert s; induction n as [|n IH]; intros s H.
  - destruct s; reflexivity.
  - destruct s as [|c s]; cbn in *; [lia|]. f_equal. apply IH. lia.
Qed.

Lemma append_inj_length (a b c d : string) :
  String.length a = String.length b -> a ++ c = b ++ d -> a = b.
Proof.
  revert b; induction a as [|x a IH]; intros [|y b] Hl He; cbn in *;
    try discriminate; [reflexivity|].
  injection He as -> He. f_equal. apply IH; [lia | exact He].
Qed.

Lemma go_slice_7 (s : string) :
  go_slice s 0 7
  = if (7 <=? String.length s)%nat then Some (substring 0 7 s) else None.
Proof. unfold go_slice. cbn [Nat.leb andb Nat.sub]. reflexivity. Qed.

Lemma go_slice_7_some (s v : string) :
  go_slice s 0 7 = Some v
  <-> String.length v = 7%nat /\ exists rest, s = v ++ rest.
Proof.
  rewrite go_slice_7. split.
  - destruct (Nat.leb_spec 7 (String.length s)) as [H|H]; [|discriminate].
    intros [= <-]. split.
    + now apply substring_prefix_length.
    + eexists. now apply substring_prefix_split.
  - intros [Hl [rest ->]].
    assert (H : (7 <= String.length (v ++ rest))%nat)
      by (rewrite length_append; lia).
    apply Nat.leb_le in H as H'. rewrite H'. f_equal.
    apply (append_inj_length _ _
             (substring 7 (String.length (v ++ rest) - 7) (v ++ rest)) rest).
    + rewrite substring_prefix_length; [symmetry; exact Hl | exact H].
    + symmetry. now apply substring_prefix_split.
Qed.

Lemma go_slice_7_none (s : string) :
  go_slice s 0 7 = None <-> (String.length s < 7)%nat.
Proof.
  rewrite go_slice_7.
  destruct (Nat.leb_spec 7 (String.length s)); split;
    intros; try discriminate; try lia; reflexivity.
Qed.

Lemma bind_returned {A B} (t : list Event) (a : A) (k : A -> M B) :
  bind (t, Returned a) k = ((t ++ trace (k a))%list, outcome (k a)).
Proof. unfold bind. destruct (k a); reflexivity. Qed.

Lemma bind_makeRequest {B} (method url : string) (payload : Payload)
    (answer : HTTPResult) (k : HTTPResult -> M B) :
  bind (SpinWick.makeRequest method url payload answer) k
  = (Request method url payload :: trace (k answer), outcome (k answer)).
Proof.
  unfold SpinWick.makeRequest, bind, emit, ret. cbn.
  destruct (k answer); reflexivity.
Qed.

(** ** The commit hash and its first seven bytes *)

(** C10.  [getInstallationVersion] returns [v] exactly when [v] is seven
    bytes long and the head commit hash starts with it, so it is defined
    exactly for hashes of at least seven bytes; for a shorter hash the slice
    panics, in [getInstallationVersion], in [createSpinWick] and in the
    upgrade request of [updateSpinWick], and for a longer one the slices of
    the latter two do not. *)
Theorem sha_slice_defined_iff (pr : PullRequest) :
  (forall v, Builds.getInstallationVersion pr = Some v
             <-> String.length v = 7%nat /\ exists rest, Sha pr = v ++ rest)
  /\ (Builds.getInstallationVersion pr = None
      <-> (String.length (Sha pr) < 7)%nat)
  /\ (forall Config lower script size,
        SpinWick.createSpinWick Config lower script pr size = ([], Panicked)
        <-> (String.length (Sha pr) < 7)%nat)
  /\ (forall Config lower script installation,
        SpinWick.requestUpgrade Config lower script pr installation
        = ([], Panicked)
        <-> (String.length (Sha pr) < 7)%nat).
Proof.
  unfold Builds.getInstallationVersion.
  split; [intro v; apply go_slice_7_some|].
  split; [apply go_slice_7_none|].
  split.
  - intros Config lower script size. unfold SpinWick.createSpinWick.
    destruct (go_slice (Sha pr) 0 7) as [v|] eqn:E.
    + rewrite bind_makeRequest. split; [discriminate|].
      intro H. apply go_slice_7_none in H. congruence.
    + apply go_slice_7_none in E. split; [intros _; exact E | reflexivity].
  - intros Config lower script installation. unfold SpinWick.requestUpgrade.
    destruct (go_slice (Sha pr) 0 7) as [v|] eqn:E.
    + rewrite bind_makeRequest. split; [discriminate|].
      intro H. apply go_slice_7_none in H. congruence.
    + apply go_slice_7_none in E. split; [intros _; exact E | reflexivity].
Qed.

(** A forty-digit hash gives its first seven digits; a six-digit one panics. *)
Example getInstallationVersion_full_hash :
  Builds.getInstallationVersion
    (mkPullRequest "mattermost" "mattermost-server" 13245
       "3f1c9a2b7d4e8f60a1b2c3d4e5f60718293a4b5c" [] "" "" "")
  = Some "3f1c9a2".
Proof. reflexivity. Qed.

Example getInstallationVersion_short_hash :
  Builds.getInstallationVersion
    (mkPullRequest "mattermost" "mattermost-server" 13245 "3f1c9a" [] "" "" "")
  = None.
Proof. reflexivity. Qed.

(** ** Properties of every event of a trace *)

Lemma Forall_bind {A B} (P : Event -> Prop) (m : M A) (k : A -> M B) :
  Forall P (trace m) ->
  (forall a, Forall P (trace (k a))) ->
  Forall P (trace (bind m k)).
Proof.
  intros Hm Hk. rewrite trace_bind.
  destruct (outcome m); [apply Forall_app; split; auto | exact Hm | exact Hm].
Qed.

Lemma Forall_emit (P : Event -> Prop) (e : Event) :
  P e -> Forall P (trace (emit e)).
Proof. intro H. cbn. constructor; [exact H | constructor]. Qed.

Lemma Forall_lift {A} (P : Event -> Prop) (o : Outcome A) :
  Forall P (trace (lift o)).
Proof. constructor. Qed.

(** Splits a goal [Forall P (trace m)] along the structure of [m], leaving
    [P e] for every event [e] that [m] emits and the calls it makes. *)
Ltac trace_forall :=
  repeat first
    [ apply Forall_nil
    | apply Forall_lift
    | apply Forall_emit
    | apply Forall_bind; [|intros]
    | match goal with
      | |- Forall _ (trace (match ?x with _ => _ end)) => destruct x eqn:?
      end ].

(** ** The create-installation request *)

Lemma isASCII_append (a b : string) :
  isASCII (a ++ b) = isASCII a && isASCII b.
Proof.
  induction a as [|c a IH]; cbn [append isASCII]; [reflexivity|].
  now rewrite IH, andb_assoc.
Qed.

Lemma map_bytes_append (f : ascii -> ascii) (a b : string) :
  map_bytes f (a ++ b) = map_bytes f a ++ map_bytes f b.
Proof. induction a as [|c a IH]; cbn; [reflexivity | now rewrite IH]. Qed.

Lemma string_of_uint_lower (d : Decimal.uint) :
  isASCII (NilEmpty.string_of_uint d) = true
  /\ map_bytes lower_byte (NilEmpty.string_of_uint d)
     = NilEmpty.string_of_uint d.
Proof.
  induction d as [|d [IA IL]|d [IA IL]|d [IA IL]|d [IA IL]|d [IA IL]
                  |d [IA IL]|d [IA IL]|d [IA IL]|d [IA IL]|d [IA IL]];
    cbn [NilEmpty.string_of_uint isASCII map_bytes];
    [split; reflexivity | ..];
    (split; [rewrite IA; reflexivity | rewrite IL; reflexivity]).
Qed.

Lemma itoa_lower (n : Z) :
  isASCII (itoa n) = true /\ map_bytes lower_byte (itoa n) = itoa n.
Proof.
  unfold itoa, NilZero.string_of_int, NilZero.string_of_uint.
  destruct (Z.to_int n) as [d|d]; destruct d;
    try (split; reflexivity);
    match goal with
    | |- context [NilEmpty.string_of_uint ?d] =>
        destruct (string_of_uint_lower d) as [IA IL]
    end;
    cbn [isASCII map_bytes]; (split; [rewrite IA | rewrite IL]); reflexivity.
Qed.

(** For a repository name in ASCII, [makePullRequestID] lowers the letters
    of the name and appends ["-pr-"] and the number in decimal. *)
Lemma makePullRequestID_ascii lower (repoName : string) (prNumber : Z) :
  isASCII repoName = true ->
  SpinWick.makePullRequestID lower repoName prNumber
  = map_bytes lower_byte repoName ++ "-pr-" ++ itoa prNumber.
Proof.
  intro H. unfold SpinWick.makePullRequestID, SpinWick.ToLower.
  destruct (itoa_lower prNumber) as [IA IL].
  rewrite !isASCII_append, H, IA. cbn [isASCII andb].
  rewrite !map_bytes_append, IL. reflexivity.
Qed.

(** Which events each function of spinwick.go can emit. *)
Section EventsOf.

Variable P : Event -> Prop.
Hypothesis P_request : forall m u, P (Request m u NoPayload).
Hypothesis P_comment : forall o r n msg, P (CommentOnIssue o r n msg).
Hypothesis P_log : forall msg, P (LogError msg).

Lemma destroyMMInstallation_events Config id answer :
  Forall P (trace (SpinWick.destroyMMInstallation Config id answer)).
Proof.
  unfold SpinWick.destroyMMInstallation, SpinWick.makeRequest.
  trace_forall; auto.
Qed.

Lemma waitMattermostInstallation_events Config lower polls pr id upgrade :
  (upgrade = false -> forall u n, P (InitializeTestServer u n)) ->
  Forall P (trace (SpinWick.waitMattermostInstallation
                     Config lower polls pr id upgrade)).
Proof.
  intro P_init.
  induction polls as [|p rest IH]; cbn [SpinWick.waitMattermostInstallation].
  - constructor.
  - unfold SpinWick.makeRequest, SpinWick.commentOnIssue,
      SpinWick.initializeMattermostTestServer.
    trace_forall; auto using destroyMMInstallation_events.
    apply P_init. now destruct upgrade.
Qed.

Hypothesis P_sleep : forall n, P (Sleep n).

Lemma waitK8sCluster_events Config polls pr id :
  Forall P (trace (SpinWick.waitK8sCluster Config polls pr id)).
Proof.
  induction polls as [|p rest IH]; cbn [SpinWick.waitK8sCluster].
  - constructor.
  - unfold SpinWick.makeRequest, SpinWick.commentOnIssue.
    trace_forall; auto.
Qed.

Hypothesis P_cluster : forall m u r, P (Request m u (JSONCluster r)).

Lemma requestK8sClusterCreation_events Config script pr :
  Forall P (trace (SpinWick.requestK8sClusterCreation Config script pr)).
Proof.
  unfold SpinWick.requestK8sClusterCreation, SpinWick.makeRequest,
    SpinWick.commentOnIssue.
  trace_forall; auto using waitK8sCluster_events.
Qed.

End EventsOf.

(** For a pull request whose hash has the seven bytes that the slice
    needs, [createSpinWick] starts with one POST to [/api/installations];
    it is its only create-installation request. *)
Lemma createSpinWick_first_request
    Config lower script (pr : PullRequest) (size : string) :
  (7 <= String.length (Sha pr))%nat ->
  exists r rest,
    trace (SpinWick.createSpinWick Config lower script pr size)
    = Request "POST" (SpinWick.ProvisionerServer Config ++ "/api/installations")
        (JSONInstallation r) :: rest
    /\ Forall (fun e => ~ creates_installation e) rest
    /\ OwnerID r
       = SpinWick.ToLower lower (RepoName pr ++ "-pr-" ++ itoa (Number pr))
    /\ (isASCII (RepoName pr) = true ->
        OwnerID r = map_bytes lower_byte (RepoName pr) ++ "-pr-"
                    ++ itoa (Number pr))
    /\ Version r = substring 0 7 (Sha pr)
    /\ String.length (Version r) = 7%nat
    /\ DNS r = OwnerID r ++ "." ++ SpinWick.DNSNameTestServer Config
    /\ Affinity r = "multitenant"
    /\ Size r = size.
Proof.
  intro H. unfold SpinWick.createSpinWick.
  rewrite go_slice_7. apply Nat.leb_le in H as H'. rewrite H'.
  rewrite bind_makeRequest. cbn [trace fst].
  eexists. eexists. split; [reflexivity|].
  split.
  { assert (Q : forall m u, ~ creates_installation (Request m u NoPayload))
      by (intros m u (? & ? & ? & [=])).
    assert (Qc : forall o r n msg,
               ~ creates_installation (CommentOnIssue o r n msg))
      by (intros o r n msg (? & ? & ? & [=])).
    assert (Ql : forall msg, ~ creates_installation (LogError msg))
      by (intros msg (? & ? & ? & [=])).
    assert (Qs : forall n, ~ creates_installation (Sleep n))
      by (intros n (? & ? & ? & [=])).
    assert (Qk : forall m u r,
               ~ creates_installation (Request m u (JSONCluster r)))
      by (intros m u r (? & ? & ? & [=])).
    assert (Qi : forall u n,
               ~ creates_installation (InitializeTestServer u n))
      by (intros u n (? & ? & ? & [=])).
    unfold SpinWick.makeRequest.
    trace_forall;
      auto using requestK8sClusterCreation_events, waitK8sCluster_events,
                 waitMattermostInstallation_events. }
  cbn [OwnerID Version DNS Affinity Size].
  repeat split.
  - apply makePullRequestID_ascii.
  - now apply substring_prefix_length.
Qed.

(** C8.  Every create-installation request that [createSpinWick] sends is
    a POST to [/api/installations] whose owner id is [ToLower] of
    ["<repoName>-pr-<number>"] (for an ASCII repository name: the name with
    its letters lowered, ["-pr-"], the number in decimal), whose version is
    the first seven bytes of the head commit hash, whose DNS name is the
    owner id, a dot and the configured base domain, and whose affinity is
    ["multitenant"]. *)
Theorem createSpinWick_installation_request
    Config lower script (pr : PullRequest) (size : string) m u r :
  In (Request m u (JSONInstallation r))
     (trace (SpinWick.createSpinWick Config lower script pr size)) ->
  m = "POST"
  /\ u = SpinWick.ProvisionerServer Config ++ "/api/installations"
  /\ OwnerID r
     = SpinWick.ToLower lower (RepoName pr ++ "-pr-" ++ itoa (Number pr))
  /\ (isASCII (RepoName pr) = true ->
      OwnerID r = map_bytes lower_byte (RepoName pr) ++ "-pr-"
                  ++ itoa (Number pr))
  /\ (String.length (Version r) = 7%nat
      /\ exists rest, Sha pr = Version r ++ rest)
  /\ DNS r = OwnerID r ++ "." ++ SpinWick.DNSNameTestServer Config
  /\ Affinity r = "multitenant"
  /\ Size r = size.
Proof.
  intro HI.
  destruct (Nat.le_gt_cases 7 (String.length (Sha pr))) as [H|H].
  - destruct (createSpinWick_first_request Config lower script pr size H)
      as (r0 & rest & T & F & HO & HA & HV & HL & HD & Haf & HS).
    rewrite T in HI. destruct HI as [E|HI].
    + injection E as <- <- <-.
      repeat split; auto.
      exists (substring 7 (String.length (Sha pr) - 7) (Sha pr)).
      rewrite HV. now apply substring_prefix_split.
    + exfalso. rewrite Forall_forall in F. apply (F _ HI).
      now exists m, u, r.
  - exfalso. unfold SpinWick.createSpinWick in HI.
    apply go_slice_7_none in H. rewrite H in HI. exact HI.
Qed.

Lemma createSpinWick_installation_request_witness :
  OwnerID example_request
  = SpinWick.ToLower (fun s => s) ("Mattermost-Server" ++ "-pr-" ++ itoa 13245)
  /\ String.length (Version example_request) = 7%nat
  /\ Affinity example_request = "multitenant".
Proof.
  destruct (createSpinWick_installation_request
              example_config (fun s => s)
              (SpinWick.mkCreateScript (RequestError "connection refused")
                 (RequestError "connection refused")
                 (SpinWick.mkClusterScript (RequestError "connection refused") [])
                 [])
              (mkPullRequest "mattermost" "Mattermost-Server" 13245
                 "3f1c9a2b7d4e8f60a1b2c3d4e5f60718293a4b5c" [] "" "" "")
              "miniSingleton"
              "POST" "https://provisioner.example.com/api/installations"
              example_request)
    as (_ & _ & HO & _ & (HL & _) & _ & HA & _).
  - left. reflexivity.
  - split; [exact HO|]. split; [exact HL | exact HA].
Defined.

(** ** Polling the installation *)

Lemma observed_inv p r :
  observed p = Some r ->
  exists code body err,
    SpinWick.poll_get p = Response code body
    /\ Decode body zero_Resource = (err, r)
    /\ decode_failed err = false.
Proof.
  unfold observed. destruct (SpinWick.poll_get p) as [e|code body];
    [discriminate|].
  destruct (Decode body zero_Resource) as [err r'] eqn:E.
  destruct (decode_failed err) eqn:F; [discriminate|].
  intros [= <-]. exists code, body, err. auto.
Qed.

Lemma waitMattermostInstallation_waits Config lower p rest pr id upgrade :
  poll_waits p = true ->
  SpinWick.waitMattermostInstallation Config lower (p :: rest) pr id upgrade
  = (get_installation Config id
       :: trace (SpinWick.waitMattermostInstallation
                   Config lower rest pr id upgrade),
     outcome (SpinWick.waitMattermostInstallation
                Config lower rest pr id upgrade)).
Proof.
  unfold poll_waits. destruct (observed p) as [r|] eqn:O; [|discriminate].
  destruct (observed_inv _ _ O) as (code & body & err & G & D & F).
  intro H. apply andb_prop in H as [H Hd]. apply andb_prop in H as [Hs Hf].
  apply negb_true_iff in Hs, Hf, Hd.
  cbn [SpinWick.waitMattermostInstallation].
  rewrite bind_makeRequest, G, D, F, Hs, Hf, Hd. reflexivity.
Qed.

Lemma waitMattermostInstallation_waiting_prefix
    Config lower pre polls pr id upgrade :
  Forall (fun q => poll_waits q = true) pre ->
  SpinWick.waitMattermostInstallation Config lower (pre ++ polls)%list
    pr id upgrade
  = ((repeat (get_installation Config id) (List.length pre)
      ++ trace (SpinWick.waitMattermostInstallation
                  Config lower polls pr id upgrade))%list,
     outcome (SpinWick.waitMattermostInstallation
                Config lower polls pr id upgrade)).
Proof.
  induction 1 as [|q pre Hq _ IH].
  - cbn [List.app List.length repeat]. apply surjective_run.
  - cbn [List.app List.length repeat].
    rewrite waitMattermostInstallation_waits by exact Hq.
    rewrite IH. reflexivity.
Qed.

(** The poll that reads [creation-failed]: a comment, the DELETE for the id
    of the reply, and the error, whatever [upgrade] is. *)
Lemma waitMattermostInstallation_failed Config lower p rest pr id upgrade r :
  observed p = Some r ->
  State r = "creation-failed" ->
  SpinWick.waitMattermostInstallation Config lower (p :: rest) pr id upgrade
  = (get_installation Config id
       :: CommentOnIssue (RepoOwner pr) (RepoName pr) (Number pr)
            "Failed to create mattermost installation."
       :: delete_installation Config (ID r)
       :: match SpinWick.poll_delete p with
          | RequestError _ => [LogError "Error deleting the installation"]
          | Response _ _ => []
          end,
     match SpinWick.poll_delete p with
     | RequestError _ => Panicked
     | Response _ _ =>
         Returned (Some (New "error creating mattermost installation"))
     end).
Proof.
  intros O S.
  destruct (observed_inv _ _ O) as (code & body & err & G & D & F).
  cbn [SpinWick.waitMattermostInstallation].
  rewrite bind_makeRequest, G, D, F, S.
  destruct (SpinWick.poll_delete p); reflexivity.
Qed.

(** The poll that reads a state other than [stable] and [creation-failed]
    when the deadline has passed: the DELETE for the id of the reply, a
    comment, and the timeout error, whatever [upgrade] is. *)
Lemma waitMattermostInstallation_expired Config lower p rest pr id upgrade r :
  observed p = Some r ->
  (State r =? "stable") = false ->
  (State r =? "creation-failed") = false ->
  SpinWick.poll_deadline p = true ->
  SpinWick.waitMattermostInstallation Config lower (p :: rest) pr id upgrade
  = (get_installation Config id
       :: delete_installation Config (ID r)
       :: match SpinWick.poll_delete p with
          | RequestError _ => [LogError "Error deleting the installation"]
          | Response _ _ =>
              [CommentOnIssue (RepoOwner pr) (RepoName pr) (Number pr)
                 "Timed out waiting for the mattermost installation. Please check the logs."]
          end,
     match SpinWick.poll_delete p with
     | RequestError _ => Panicked
     | Response _ _ =>
         Returned (Some (New
           "timed out waiting for the mattermost installation complete. requesting the deletion"))
     end).
Proof.
  intros O Hs Hf Hd.
  destruct (observed_inv _ _ O) as (code & body & err & G & D & F).
  cbn [SpinWick.waitMattermostInstallation].
  rewrite bind_makeRequest, G, D, F, Hs, Hf, Hd.
  destruct (SpinWick.poll_delete p); reflexivity.
Qed.

(** C1, as stated, fails: an upgrade that reads [creation-failed], and an
    upgrade that reaches the deadline, each send the DELETE for the
    installation. *)
Lemma upgrade_failure_sends_delete :
  In (Request "DELETE" "https://provisioner.example.com/api/installation/abc123"
        NoPayload)
     (trace (SpinWick.updateSpinWick example_config (fun s => s)
               (example_update (empty_reply 202)
                  [poll_reading "abc123" "creation-failed" false])
               example_pr))
  /\ In (Request "DELETE"
           "https://provisioner.example.com/api/installation/abc123" NoPayload)
        (trace (SpinWick.updateSpinWick example_config (fun s => s)
                  (example_update (empty_reply 202)
                     [poll_reading "abc123" "creating" false;
                      poll_reading "abc123" "creating" true])
                  example_pr)).
Proof.
  split; vm_compute; repeat (try (left; reflexivity); right).
Qed.

(** C1, amended.  In an upgrade as in a fresh create: after polls that only
    waited, a poll that reads [creation-failed], or that reads a state other
    than [stable] once the deadline has passed, sends the DELETE for the
    installation id of its reply; when that request is answered the run
    returns an error. *)
Theorem waitMattermostInstallation_failure_deletes
    Config lower pre p rest (pr : PullRequest) (id : string) (upgrade : bool)
    (r : Resource) :
  Forall (fun q => poll_waits q = true) pre ->
  observed p = Some r ->
  State r = "creation-failed"
  \/ ((State r =? "stable") = false /\ SpinWick.poll_deadline p = true) ->
  In (delete_installation Config (ID r))
     (trace (SpinWick.waitMattermostInstallation
               Config lower (pre ++ p :: rest)%list pr id upgrade))
  /\ (forall code body,
        SpinWick.poll_delete p = Response code body ->
        exists err,
          outcome (SpinWick.waitMattermostInstallation
                     Config lower (pre ++ p :: rest)%list pr id upgrade)
          = Returned (Some err)).
Proof.
  intros Hpre O H.
  rewrite (waitMattermostInstallation_waiting_prefix _ _ _ _ _ _ _ Hpre).
  cbn [trace outcome fst snd].
  assert (F : State r = "creation-failed"
              \/ ((State r =? "stable") = false
                  /\ (State r =? "creation-failed") = false
                  /\ SpinWick.poll_deadline p = true)).
  { destruct H as [H|[Hs Hd]]; [now left|].
    destruct (State r =? "creation-failed") eqn:E; [|now right].
    left. now apply String.eqb_eq. }
  clear H. destruct F as [S|(Hs & Hf & Hd)].
  - rewrite (waitMattermostInstallation_failed _ _ _ _ _ _ _ _ O S).
    cbn [trace outcome fst snd]. split.
    + apply in_or_app. right. cbn. auto.
    + intros code body E. rewrite E. eauto.
  - rewrite (waitMattermostInstallation_expired _ _ _ _ _ _ _ _ O Hs Hf Hd).
    cbn [trace outcome fst snd]. split.
    + apply in_or_app. right. cbn. auto.
    + intros code body E. rewrite E. eauto.
Qed.

Lemma waitMattermostInstallation_failure_deletes_witness :
  In (delete_installation example_config "abc123")
     (trace (SpinWick.waitMattermostInstallation example_config (fun s => s)
               [poll_reading "abc123" "creating" false;
                poll_reading "abc123" "creation-failed" false]
               example_pr "abc123" true)).
Proof.
  apply (waitMattermostInstallation_failure_deletes
           example_config (fun s => s)
           [poll_reading "abc123" "creating" false]
           (poll_reading "abc123" "creation-failed" false) []
           example_pr "abc123" true (mkResource "abc123" "creation-failed")).
  - repeat constructor.
  - reflexivity.
  - left. reflexivity.
Defined.

(** The id that is deleted is the one of the reply, not the one polled: a
    reply with an empty body decodes to an installation with no id. *)
Remark deadline_deletes_reply_id :
  trace (SpinWick.waitMattermostInstallation example_config (fun s => s)
           [SpinWick.mkInstallationPoll (empty_reply 200) None
              (empty_reply 202) true]
           example_pr "abc123" false)
  = [Request "GET" "https://provisioner.example.com/api/installation/abc123"
       NoPayload;
     Request "DELETE" "https://provisioner.example.com/api/installation/"
       NoPayload;
     CommentOnIssue "mattermost" "mattermost-server" 13245
       "Timed out waiting for the mattermost installation. Please check the logs."].
Proof. reflexivity. Qed.

(** ** Replies that cannot be decoded *)

(** In [waitMattermostInstallation] a reply whose decoding fails ends the
    run at once: the error is logged and returned, the later polls are not
    made and no DELETE is sent. *)
Lemma waitMattermostInstallation_decode_failure
    Config lower p rest (pr : PullRequest) (id : string) (upgrade : bool)
    code body :
  SpinWick.poll_get p = Response code body ->
  decode_failed (decode_err body) = true ->
  SpinWick.waitMattermostInstallation Config lower (p :: rest) pr id upgrade
  = ([get_installation Config id; LogError "Error decoding installation"],
     Returned (Some (New "Error decoding installation"))).
Proof.
  intros G F. cbn [SpinWick.waitMattermostInstallation].
  rewrite bind_makeRequest, G. unfold Decode. rewrite F. reflexivity.
Qed.

(** In [waitK8sCluster] the same failure is logged and the loop goes on
    with the state that the reply left in the cluster. *)
Lemma waitK8sCluster_decode_failure
    Config p rest (pr : PullRequest) (id : string) code body :
  SpinWick.cluster_get p = Response code body ->
  decode_failed (decode_err body) = true ->
  body_State body = None ->
  SpinWick.cluster_deadline p = false ->
  SpinWick.waitK8sCluster Config (p :: rest) pr id
  = (Request "GET" (SpinWick.ProvisionerServer Config ++ "/api/cluster/" ++ id)
       NoPayload
       :: LogError "Error decoding cluster response"
       :: Sleep 20
       :: trace (SpinWick.waitK8sCluster Config rest pr id),
     outcome (SpinWick.waitK8sCluster Config rest pr id)).
Proof.
  intros G F S D. cbn [SpinWick.waitK8sCluster].
  rewrite bind_makeRequest, G. unfold Decode. rewrite F, S, D.
  cbn -[SpinWick.waitK8sCluster append].
  destruct (SpinWick.waitK8sCluster Config rest pr id); reflexivity.
Qed.

(** C2, at the failing input.  The first reply to the GET of the cluster is
    not JSON, the second reports [stable]: [waitK8sCluster] logs the decode
    error, sleeps, polls again, and returns nil. *)
Theorem waitK8sCluster_polls_after_decode_error :
  SpinWick.waitK8sCluster example_config
    [SpinWick.mkClusterPoll
       (Response 502
          (mkBody (DecodeFailed
                     "invalid character '<' looking for beginning of value")
             None None))
       false;
     SpinWick.mkClusterPoll (reply "c1" "stable") false]
    example_pr "c1"
  = ([Request "GET" "https://provisioner.example.com/api/cluster/c1" NoPayload;
      LogError "Error decoding cluster response";
      Sleep 20;
      Request "GET" "https://provisioner.example.com/api/cluster/c1" NoPayload;
      CommentOnIssue "mattermost" "mattermost-server" 13245
        "Kubernetes cluster created. Now will deploy Mattermost... Hang on!"],
     Returned None).
Proof. reflexivity. Qed.

(** ** Destroy *)

(** When the DELETE is answered, whatever the status code, [destroySpinWick]
    removes the record and returns. *)
Lemma destroySpinWick_answered Config (pr : PullRequest) (id : string)
    code body (store : list SpinWick.Spinmint) :
  SpinWick.destroySpinWick Config pr id (Response code body)
  = ([delete_installation Config id; RemoveSpinmint id], Returned tt)
  /\ Forall (fun r => SpinWick.InstanceId r <> id)
       (SpinWick.store_after
          (trace (SpinWick.destroySpinWick Config pr id (Response code body)))
          store).
Proof.
  split; [reflexivity|].
  cbn. unfold SpinWick.remove_record. apply Forall_forall.
  intros r H. apply filter_In in H as [_ H].
  apply negb_true_iff in H. now apply String.eqb_neq.
Qed.

(** A second call with the same id, again answered, leaves the same
    records. *)
Lemma destroySpinWick_twice Config (pr : PullRequest) (id : string)
    code body code' body' (store : list SpinWick.Spinmint) :
  let first := SpinWick.store_after
                 (trace (SpinWick.destroySpinWick Config pr id
                           (Response code body))) store in
  SpinWick.destroySpinWick Config pr id (Response code' body')
  = ([delete_installation Config id; RemoveSpinmint id], Returned tt)
  /\ SpinWick.store_after
       (trace (SpinWick.destroySpinWick Config pr id (Response code' body')))
       first
     = first.
Proof.
  split; [reflexivity|].
  cbn. unfold SpinWick.remove_record.
  induction store as [|r store IH]; cbn; [reflexivity|].
  destruct (SpinWick.InstanceId r =? id) eqn:E; cbn; [exact IH|].
  rewrite E. cbn. f_equal. exact IH.
Qed.

(** C4, at the failing input.  When the DELETE request itself fails,
    [destroyMMInstallation] logs the error and then reads [resp.Body] of the
    nil response: [destroySpinWick] panics, and the record is not removed. *)
Theorem destroySpinWick_failed_request_panics
    Config (pr : PullRequest) (id msg : string)
    (store : list SpinWick.Spinmint) :
  SpinWick.destroySpinWick Config pr id (RequestError msg)
  = ([delete_installation Config id;
      LogError "Error deleting the installation"],
     Panicked)
  /\ SpinWick.store_after
       (trace (SpinWick.destroySpinWick Config pr id (RequestError msg)))
       store
     = store.
Proof. split; reflexivity. Qed.

(** ** The upgrade request *)

Lemma checkBuildLink_loop_no_request repo polls pr :
  Forall (fun e => is_request e = false)
    (trace (Builds.checkBuildLink_loop repo polls pr)).
Proof.
  induction polls as [|p rest IH]; cbn [Builds.checkBuildLink_loop].
  - constructor.
  - trace_forall; auto.
Qed.

Lemma waitForBuildComplete_no_request Config answer pr :
  Forall (fun e => is_request e = false)
    (trace (SpinWick.waitForBuildComplete Config answer pr)).
Proof.
  unfold SpinWick.waitForBuildComplete, SpinWick.commentOnIssue.
  trace_forall; auto.
Qed.

(** [updateSpinWick] either ends without any request to the provisioning
    server, or runs [requestUpgrade] for the installation of the record,
    after events that are no such requests. *)
Lemma updateSpinWick_cases Config lower script (pr : PullRequest) :
  Forall (fun e => is_request e = false)
    (trace (SpinWick.updateSpinWick Config lower script pr))
  \/ exists pre link installation,
       Forall (fun e => is_request e = false) pre
       /\ SpinWick.update_spinmint script = SpinWick.Data installation
       /\ SpinWick.updateSpinWick Config lower script pr
          = ((pre ++ trace (SpinWick.requestUpgrade Config lower script
                              (SpinWick.withBuildLink pr link) installation))%list,
             outcome (SpinWick.requestUpgrade Config lower script
                        (SpinWick.withBuildLink pr link) installation)).
Proof.
  unfold SpinWick.updateSpinWick.
  destruct (negb _) eqn:L; [left; constructor|].
  rewrite bind_emit.
  pose proof (checkBuildLink_loop_no_request
                (GetRepository (SpinWick.Repositories Config)
                   (RepoOwner pr) (RepoName pr))
                (SpinWick.update_links script) pr) as HL.
  unfold SpinWick.checkBuildLink.
  destruct (Builds.checkBuildLink_loop _ _ pr) as [tl [[link err]| |]];
    cbn [trace fst] in HL;
    [| left; cbn; constructor; [reflexivity | exact HL]
     | left; cbn; constructor; [reflexivity | exact HL]].
  rewrite bind_returned.
  destruct (_ || _) eqn:B.
  { left. cbn. constructor; [reflexivity|].
    apply Forall_app. split; [exact HL | repeat constructor]. }
  rewrite bind_emit.
  set (pr' := SpinWick.withBuildLink pr link).
  assert (HS : exists ts,
             Forall (fun e => is_request e = false) ts
             /\ match SpinWick.update_save script with
                | Some e => emit (LogError e)
                | None => ret tt
                end = (ts, Returned tt)).
  { destruct (SpinWick.update_save script);
      eexists; (split; [|reflexivity]); repeat constructor. }
  destruct HS as (ts & Hts & ->).
  rewrite bind_returned, bind_emit.
  destruct (SpinWick.update_spinmint script) as [e| |installation] eqn:S.
  - left. cbn. constructor; [reflexivity|].
    apply Forall_app. split; [exact HL|].
    constructor; [reflexivity|]. apply Forall_app. split; [exact Hts|].
    repeat constructor.
  - left. cbn. constructor; [reflexivity|].
    apply Forall_app. split; [exact HL|].
    constructor; [reflexivity|]. apply Forall_app. split; [exact Hts|].
    repeat constructor.
  - unfold SpinWick.commentOnIssue at 1. rewrite bind_emit.
    pose proof (waitForBuildComplete_no_request Config
                  (SpinWick.update_build script) pr') as HB.
    destruct (SpinWick.waitForBuildComplete Config _ pr') as [tb [[e|]| |]];
      cbn [trace fst] in HB.
    + left. cbn. constructor; [reflexivity|].
      apply Forall_app. split; [exact HL|].
      constructor; [reflexivity|]. apply Forall_app. split; [exact Hts|].
      constructor; [reflexivity|]. constructor; [reflexivity|].
      apply Forall_app. split; [exact HB | repeat constructor].
    + right. rewrite bind_returned, bind_emit.
      exists (Sleep 60 :: tl ++ SavePullRequest (Number pr') (BuildLink pr')
                :: ts ++ GetSpinmint (Number pr')
                :: CommentOnIssue (RepoOwner pr') (RepoName pr') (Number pr')
                     "New commit detected. SpinWick upgrade will occur after the build is successful."
                :: tb ++ [Sleep 60])%list, link, installation.
      split; [|split; [reflexivity|]].
      * constructor; [reflexivity|].
        apply Forall_app. split; [exact HL|].
        constructor; [reflexivity|]. apply Forall_app. split; [exact Hts|].
        constructor; [reflexivity|]. constructor; [reflexivity|].
        apply Forall_app. split; [exact HB | repeat constructor].
      * cbn [trace outcome fst snd]. f_equal.
        cbn [List.app]. f_equal. rewrite <- !app_assoc. cbn [List.app].
        f_equal. f_equal. rewrite <- !app_assoc. cbn [List.app].
        f_equal. f_equal. f_equal. rewrite <- !app_assoc. reflexivity.
    + left. cbn. constructor; [reflexivity|].
      apply Forall_app. split; [exact HL|].
      constructor; [reflexivity|]. apply Forall_app. split; [exact Hts|].
      constructor; [reflexivity|]. constructor; [reflexivity|]. exact HB.
    + left. cbn. constructor; [reflexivity|].
      apply Forall_app. split; [exact HL|].
      constructor; [reflexivity|]. apply Forall_app. split; [exact Hts|].
      constructor; [reflexivity|]. constructor; [reflexivity|]. exact HB.
Qed.

Lemma not_request_In (t : list Event) (e : Event) :
  Forall (fun e => is_request e = false) t ->
  In e t -> is_request e = true -> False.
Proof.
  intros F I R. rewrite Forall_forall in F. apply F in I. congruence.
Qed.

(** C9.  When [updateSpinWick] sends its upgrade request and the request is
    answered: with status 202 the installation is polled next, by
    [waitMattermostInstallation] with [upgrade] set; with any other status
    the run ends with the log line and the comment on the pull request,
    and no request to the provisioning server other than the PUT is made,
    so the installation is not polled. *)
Theorem updateSpinWick_upgrade_response
    Config lower script (pr : PullRequest) code body url payload :
  SpinWick.update_put script = Response code body ->
  In (Request "PUT" url payload)
     (trace (SpinWick.updateSpinWick Config lower script pr)) ->
  exists pre link installation version,
    Forall (fun e => is_request e = false) pre
    /\ SpinWick.update_spinmint script = SpinWick.Data installation
    /\ Builds.getInstallationVersion pr = Some version
    /\ (code = 202%Z ->
        exists post,
          trace (SpinWick.updateSpinWick Config lower script pr)
          = (pre ++ upgrade_request Config installation version
               :: trace (SpinWick.waitMattermostInstallation Config lower
                           (SpinWick.update_polls script)
                           (SpinWick.withBuildLink pr link) installation true)
               ++ post)%list
          /\ Forall (fun e => is_request e = false) post)
    /\ (code <> 202%Z ->
        SpinWick.updateSpinWick Config lower script pr
        = ((pre ++ [upgrade_request Config installation version;
                    LogError "Error request was not accepted";
                    CommentOnIssue (RepoOwner pr) (RepoName pr) (Number pr)
                      "Error doing the upgrade process. Please remove the label and try again."])%list,
           Returned tt)).
Proof.
  intros HP HI.
  destruct (updateSpinWick_cases Config lower script pr)
    as [F|(pre & link & installation & F & S & E)].
  { exfalso. eapply not_request_In; eauto. }
  rewrite E in HI |- *. cbn [trace fst] in HI |- *. clear E.
  unfold SpinWick.requestUpgrade in *.
  change (Sha (SpinWick.withBuildLink pr link)) with (Sha pr) in *.
  destruct (go_slice (Sha pr) 0 7) as [version|] eqn:V.
  2:{ exfalso. cbn in HI. rewrite app_nil_r in HI.
      eapply not_request_In; eauto. }
  clear HI. exists pre, link, installation, version.
  split; [exact F|]. split; [exact S|]. split; [exact V|].
  rewrite bind_makeRequest, HP. split.
  - intros ->. cbn [Z.eqb Pos.eqb negb].
    destruct (SpinWick.waitMattermostInstallation Config lower
                (SpinWick.update_polls script)
                (SpinWick.withBuildLink pr link) installation true)
      as [tw [[e|]| |]]; cbn.
    + eexists. split; [reflexivity | repeat constructor].
    + exists []. split; [reflexivity | constructor].
    + exists []. split; [now rewrite app_nil_r | constructor].
    + exists []. split; [now rewrite app_nil_r | constructor].
  - intro N. apply Z.eqb_neq in N. rewrite N. reflexivity.
Qed.

Lemma updateSpinWick_upgrade_response_witness :
  exists pre installation version,
    Forall (fun e => is_request e = false) pre
    /\ SpinWick.update_spinmint
         (example_update (empty_reply 500)
            [poll_reading "abc123" "stable" false])
       = SpinWick.Data installation
    /\ Builds.getInstallationVersion example_pr = Some version
    /\ SpinWick.updateSpinWick example_config (fun s => s)
         (example_update (empty_reply 500)
            [poll_reading "abc123" "stable" false])
         example_pr
       = ((pre ++ [upgrade_request example_config installation version;
                   LogError "Error request was not accepted";
                   CommentOnIssue "mattermost" "mattermost-server" 13245
                     "Error doing the upgrade process. Please remove the label and try again."])%list,
          Returned tt).
Proof.
  destruct (updateSpinWick_upgrade_response example_config (fun s => s)
              (example_update (empty_reply 500)
                 [poll_reading "abc123" "stable" false])
              example_pr 500%Z (mkBody DecodeEOF None None)
              "https://provisioner.example.com/api/installation/abc123/mattermost"
              (RawBytes ("{" ++ SpinWick.newline ++ SpinWick.dquote
                         ++ "version" ++ SpinWick.dquote ++ ": "
                         ++ SpinWick.dquote ++ "3f1c9a2" ++ SpinWick.dquote
                         ++ "}")))
    as (pre & link & installation & version & F & S & V & _ & N).
  - reflexivity.
  - vm_compute. repeat (try (left; reflexivity); right).
  - exists pre, installation, version.
    repeat split; try assumption. apply N. discriminate.
Defined.

(** ** Cluster creation and the bootstrap *)

Lemma bootstraps_app (a b : list Event) :
  bootstraps (a ++ b) = (bootstraps a + bootstraps b)%nat.
Proof. unfold bootstraps. now rewrite filter_app, length_app. Qed.

Lemma bootstraps_none (t : list Event) :
  Forall (fun e => is_init e = false) t -> bootstraps t = 0%nat.
Proof.
  unfold bootstraps. induction 1 as [|e t He _ IH]; cbn; [reflexivity|].
  now rewrite He.
Qed.

Lemma requestK8sClusterCreation_no_bootstrap Config script pr :
  Forall (fun e => is_init e = false)
    (trace (SpinWick.requestK8sClusterCreation Config script pr)).
Proof. apply requestK8sClusterCreation_events; reflexivity. Qed.

Lemma upgrade_polling_no_bootstrap Config lower polls pr id :
  Forall (fun e => is_init e = false)
    (trace (SpinWick.waitMattermostInstallation Config lower polls pr id true)).
Proof.
  apply waitMattermostInstallation_events; try reflexivity. discriminate.
Qed.

Lemma updateSpinWick_no_bootstrap Config lower script pr :
  Forall (fun e => is_init e = false)
    (trace (SpinWick.updateSpinWick Config lower script pr)).
Proof.
  assert (L : forall repo polls,
             Forall (fun e => is_init e = false)
               (trace (Builds.checkBuildLink_loop repo polls pr))).
  { intros repo polls.
    induction polls as [|p rest IH]; cbn [Builds.checkBuildLink_loop].
    - constructor.
    - trace_forall; auto. }
  unfold SpinWick.updateSpinWick, SpinWick.checkBuildLink,
    SpinWick.commentOnIssue.
  trace_forall; auto.
  - unfold SpinWick.waitForBuildComplete, SpinWick.commentOnIssue.
    trace_forall; auto.
  - unfold SpinWick.requestUpgrade, SpinWick.makeRequest,
      SpinWick.commentOnIssue.
    trace_forall; auto using upgrade_polling_no_bootstrap.
Qed.

(** The poll that reads [stable] in a fresh create calls the bootstrap
    once and ends the loop. *)
Lemma waitMattermostInstallation_stable_bootstraps
    Config lower p rest (pr : PullRequest) (id : string) (r : Resource) :
  observed p = Some r ->
  State r = "stable" ->
  bootstraps (trace (SpinWick.waitMattermostInstallation
                       Config lower (p :: rest) pr id false)) = 1%nat
  /\ outcome (SpinWick.waitMattermostInstallation
                Config lower (p :: rest) pr id false) <> Polling.
Proof.
  intros O S.
  destruct (observed_inv _ _ O) as (code & body & err & G & D & F).
  cbn [SpinWick.waitMattermostInstallation].
  rewrite bind_makeRequest, G, D, F, S.
  destruct (SpinWick.poll_init p) as [e|];
    destruct (SpinWick.poll_delete p); cbn; split; congruence.
Qed.

Lemma bootstraps_repeat_get Config id n :
  bootstraps (repeat (get_installation Config id) n) = 0%nat.
Proof. induction n; [reflexivity | exact IHn]. Qed.

(** A run of [waitK8sCluster] that returns nil has fetched the cluster and
    read [stable] at one of its polls, and ends with the comment. *)
Lemma waitK8sCluster_nil Config polls (pr : PullRequest) (id : string) :
  outcome (SpinWick.waitK8sCluster Config polls pr id) = Returned None ->
  (exists p c b,
     In p polls /\ SpinWick.cluster_get p = Response c b
     /\ State (snd (Decode b zero_Resource)) = "stable")
  /\ In (get_cluster Config id)
        (trace (SpinWick.waitK8sCluster Config polls pr id))
  /\ exists t,
       trace (SpinWick.waitK8sCluster Config polls pr id)
       = (t ++ [cluster_created pr])%list.
Proof.
  induction polls as [|p rest IH]; cbn [SpinWick.waitK8sCluster];
    [discriminate|].
  rewrite bind_makeRequest. fold (get_cluster Config id).
  cbn [trace outcome fst snd].
  destruct (SpinWick.cluster_get p) as [e|c b] eqn:G; [discriminate|].
  destruct (Decode b zero_Resource) as [err r] eqn:D.
  assert (L : exists logs,
             (if decode_failed err
              then emit (LogError "Error decoding cluster response")
              else ret tt) = (logs, Returned tt)).
  { destruct (decode_failed err); eexists; reflexivity. }
  destruct L as (logs & ->). rewrite bind_returned.
  cbn [trace outcome fst snd].
  unfold SpinWick.commentOnIssue.
  destruct (State r =? "stable") eqn:S.
  - intros _. split; [|split].
    + exists p, c, b. split; [now left|]. split; [exact G|].
      rewrite D. now apply String.eqb_eq.
    + now left.
    + exists (get_cluster Config id :: logs). reflexivity.
  - destruct (State r =? "creation-failed"); [discriminate|].
    rewrite bind_emit. cbn [trace outcome fst snd].
    destruct (SpinWick.cluster_deadline p); [discriminate|].
    intro H. destruct (IH H) as ((q & c' & b' & I & G' & S') & _ & (t & T)).
    split; [|split].
    + exists q, c', b'. split; [now right | now split].
    + now left.
    + exists (get_cluster Config id :: logs ++ Sleep 20 :: t)%list.
      cbn [List.app]. f_equal. rewrite <- app_assoc. f_equal.
      cbn [List.app]. f_equal. exact T.
Qed.

Lemma fetches_get_cluster Config (id : string) :
  fetches_cluster Config id (get_cluster Config id) = true.
Proof. cbn. apply String.eqb_refl. Qed.

(** A poll that waits: one fetch, and the loop goes on. *)
Lemma waitK8sCluster_waits Config p rest (pr : PullRequest) (id : string) :
  cluster_waits p = true ->
  cluster_fetches Config id
    (trace (SpinWick.waitK8sCluster Config (p :: rest) pr id))
  = S (cluster_fetches Config id
         (trace (SpinWick.waitK8sCluster Config rest pr id)))
  /\ outcome (SpinWick.waitK8sCluster Config (p :: rest) pr id)
     = outcome (SpinWick.waitK8sCluster Config rest pr id).
Proof.
  unfold cluster_waits, cluster_observed. intro H.
  cbn [SpinWick.waitK8sCluster]. rewrite bind_makeRequest.
  fold (get_cluster Config id).
  destruct (SpinWick.cluster_get p) as [e|c b]; [discriminate|].
  destruct (Decode b zero_Resource) as [err r]. cbn [snd] in H.
  apply andb_prop in H as [H Hd]. apply andb_prop in H as [Hs Hf].
  apply negb_true_iff in Hs, Hf, Hd.
  unfold cluster_fetches.
  destruct (decode_failed err);
    rewrite ?bind_emit, ?bind_ret, Hs, Hf, ?bind_emit, Hd;
    cbn [trace outcome fst snd filter fetches_cluster];
    rewrite (fetches_get_cluster Config id); cbn [List.length];
    split; reflexivity.
Qed.

Lemma waitK8sCluster_waiting_prefix
    Config pre polls (pr : PullRequest) (id : string) :
  Forall (fun q => cluster_waits q = true) pre ->
  cluster_fetches Config id
    (trace (SpinWick.waitK8sCluster Config (pre ++ polls)%list pr id))
  = (List.length pre
     + cluster_fetches Config id
         (trace (SpinWick.waitK8sCluster Config polls pr id)))%nat
  /\ outcome (SpinWick.waitK8sCluster Config (pre ++ polls)%list pr id)
     = outcome (SpinWick.waitK8sCluster Config polls pr id).
Proof.
  induction 1 as [|q pre Hq _ [IHf IHo]]; [split; reflexivity|].
  cbn [List.app List.length].
  destruct (waitK8sCluster_waits Config q (pre ++ polls)%list pr id Hq)
    as [F O].
  rewrite F, O, IHf, IHo. split; reflexivity.
Qed.

(** The poll that reads [stable]: one fetch, the comment, and nil. *)
Lemma waitK8sCluster_stable Config p rest (pr : PullRequest) (id : string) r :
  cluster_observed p = Some r ->
  State r = "stable" ->
  cluster_fetches Config id
    (trace (SpinWick.waitK8sCluster Config (p :: rest) pr id)) = 1%nat
  /\ outcome (SpinWick.waitK8sCluster Config (p :: rest) pr id)
     = Returned None.
Proof.
  unfold cluster_observed. intros O S.
  cbn [SpinWick.waitK8sCluster]. rewrite bind_makeRequest.
  fold (get_cluster Config id).
  destruct (SpinWick.cluster_get p) as [e|c b]; [discriminate|].
  destruct (Decode b zero_Resource) as [err r']. cbn [snd] in O.
  injection O as ->. unfold cluster_fetches, SpinWick.commentOnIssue.
  destruct (decode_failed err);
    rewrite ?bind_emit, ?bind_ret, S;
    cbn [String.eqb Ascii.eqb Bool.eqb trace outcome fst snd filter
         fetches_cluster];
    rewrite (fetches_get_cluster Config id); split; reflexivity.
Qed.

(** C7.  In a fresh create whose first fetch after the POST reports
    [creation-no-compatible-clusters], the trace is: the POST, the pause, the
    fetch, then the whole of [requestK8sClusterCreation], which sends the
    cluster request, and only then, and only if that returned nil, the
    polls of the installation.  The cluster is awaited: the cluster run
    returns nil only after it has fetched the cluster that the reply to
    the request named and read [stable] at one of its polls, and it then
    ends with the comment that the cluster is created; when the cluster
    polls wait and then read [stable], the cluster is fetched once per
    poll up to that one and the run returns nil.  If the polls of the
    installation wait and then read [stable], the bootstrap is called once
    in the whole run.  [updateSpinWick] never calls it. *)
Theorem createSpinWick_cluster_before_polling
    Config lower script (pr : PullRequest) (size : string)
    c1 b1 e1 created c2 b2 e2 fetched :
  (7 <= String.length (Sha pr))%nat ->
  SpinWick.create_post script = Response c1 b1 ->
  Decode b1 zero_Resource = (e1, created) ->
  decode_failed e1 = false ->
  SpinWick.create_get script = Response c2 b2 ->
  Decode b2 created = (e2, fetched) ->
  decode_failed e2 = false ->
  State fetched = "creation-no-compatible-clusters" ->
  let id := ID created in
  let cluster :=
    SpinWick.requestK8sClusterCreation Config
      (SpinWick.create_cluster script) pr in
  let polling :=
    SpinWick.waitMattermostInstallation Config lower
      (SpinWick.create_polls script) pr id false in
  (exists post,
     trace (SpinWick.createSpinWick Config lower script pr size)
     = (post :: Sleep 3 :: get_installation Config id
          :: trace cluster
          ++ match outcome cluster with
             | Returned None => trace polling
             | _ => []
             end)%list)
  /\ In (Request "POST" (SpinWick.ProvisionerServer Config ++ "/api/clusters")
           (JSONCluster (mkCreateClusterRequest "" "SizeAlef1000" [])))
        (trace cluster)
  /\ (outcome cluster = Returned None ->
      exists cc cb p c b,
        SpinWick.cluster_post (SpinWick.create_cluster script)
        = Response cc cb
        /\ In p (SpinWick.cluster_polls (SpinWick.create_cluster script))
        /\ SpinWick.cluster_get p = Response c b
        /\ State (snd (Decode b zero_Resource)) = "stable"
        /\ In (get_cluster Config (ID (snd (Decode cb zero_Resource))))
              (trace cluster)
        /\ exists t, trace cluster = (t ++ [cluster_created pr])%list)
  /\ (forall cc cb cpre cp crest cr,
        SpinWick.cluster_post (SpinWick.create_cluster script)
        = Response cc cb ->
        decode_failed (fst (Decode cb zero_Resource)) = false ->
        SpinWick.cluster_polls (SpinWick.create_cluster script)
        = (cpre ++ cp :: crest)%list ->
        Forall (fun q => cluster_waits q = true) cpre ->
        cluster_observed cp = Some cr ->
        State cr = "stable" ->
        outcome cluster = Returned None
        /\ cluster_fetches Config (ID (snd (Decode cb zero_Resource)))
             (trace cluster)
           = S (List.length cpre))
  /\ (forall pre p rest r,
        outcome cluster = Returned None ->
        SpinWick.create_polls script = (pre ++ p :: rest)%list ->
        Forall (fun q => poll_waits q = true) pre ->
        observed p = Some r ->
        State r = "stable" ->
        bootstraps (trace (SpinWick.createSpinWick Config lower script pr size))
        = 1%nat)
  /\ (forall update_script update_pr,
        bootstraps (trace (SpinWick.updateSpinWick Config lower
                             update_script update_pr)) = 0%nat).
Proof.
  intros H HP D1 F1 HG D2 F2 S id cluster polling.
  set (continue := fun err : error =>
         match err with
         | Some e => ret ("", Some e)
         | None =>
             err <- polling;;
             match err with
             | Some e => ret ("", Some e)
             | None => ret (id, None)
             end
         end).
  assert (E : exists post,
             is_init post = false
             /\ SpinWick.createSpinWick Config lower script pr size
                = (post :: Sleep 3 :: get_installation Config id
                     :: trace (bind cluster continue),
                   outcome (bind cluster continue))).
  { unfold SpinWick.createSpinWick.
    rewrite go_slice_7. apply Nat.leb_le in H as H'. rewrite H'.
    rewrite bind_makeRequest, HP, D1.
    destruct e1; try discriminate F1;
      rewrite bind_emit, bind_makeRequest, HG, D2, F2, S, String.eqb_refl;
      eexists; (split; [|reflexivity]); reflexivity. }
  destruct E as (post & Hpost & E).
  assert (T : trace (SpinWick.createSpinWick Config lower script pr size)
              = (post :: Sleep 3 :: get_installation Config id
                   :: trace cluster
                   ++ match outcome cluster with
                      | Returned None => trace polling
                      | _ => []
                      end)%list).
  { rewrite E. cbn [trace fst]. do 3 f_equal. rewrite trace_bind.
    destruct (outcome cluster) as [[e|]| |]; subst continue;
      cbn [trace ret fst]; rewrite ?app_nil_r; try reflexivity.
    rewrite trace_bind.
    destruct (outcome polling) as [[e|]| |]; cbn [trace ret fst];
      rewrite ?app_nil_r; reflexivity. }
  split; [exists post; exact T|].
  split.
  { subst cluster. unfold SpinWick.requestK8sClusterCreation.
    unfold SpinWick.commentOnIssue. rewrite bind_emit, bind_makeRequest.
    cbn [trace fst]. right. left. reflexivity. }
  split.
  { subst cluster. unfold SpinWick.requestK8sClusterCreation.
    unfold SpinWick.commentOnIssue. rewrite bind_emit, bind_makeRequest.
    cbn [trace outcome fst snd].
    destruct (SpinWick.cluster_post (SpinWick.create_cluster script))
      as [e|cc cb]; [discriminate|].
    destruct (Decode cb zero_Resource) as [ce cl] eqn:Dc. cbn [snd].
    destruct ce; try discriminate; intro R;
      destruct (waitK8sCluster_nil Config _ pr (ID cl) R)
        as ((q & c & b & I & G & Sq) & Ig & (t & Tc));
      exists cc, cb, q, c, b;
      (split; [reflexivity|]); (split; [exact I|]); (split; [exact G|]);
      (split; [exact Sq|]);
      rewrite Dc; cbn [snd];
      (split; [right; right; exact Ig|]);
      exists (CommentOnIssue (RepoOwner pr) (RepoName pr) (Number pr)
                "Please wait while a new kubernetes cluster is created for your SpinWick"
              :: Request "POST"
                   (SpinWick.ProvisionerServer Config ++ "/api/clusters")
                   (JSONCluster (mkCreateClusterRequest "" "SizeAlef1000" []))
              :: t);
      cbn [List.app]; do 2 f_equal; exact Tc. }
  split.
  { intros cc cb cpre cp crest cr Pc Fc Pl Hw Oc Sc.
    subst cluster. unfold SpinWick.requestK8sClusterCreation.
    unfold SpinWick.commentOnIssue. rewrite bind_emit, bind_makeRequest.
    rewrite Pc. cbn [trace outcome fst snd].
    destruct (Decode cb zero_Resource) as [ce cl] eqn:Dc. cbn [fst snd] in *.
    destruct (waitK8sCluster_waiting_prefix Config cpre (cp :: crest) pr
                (ID cl) Hw) as [Fw Ow].
    destruct (waitK8sCluster_stable Config cp crest pr (ID cl) cr Oc Sc)
      as [Fs Os].
    unfold cluster_fetches in *.
    destruct ce; try discriminate Fc; rewrite Pl;
      (split; [exact (eq_trans Ow Os)|]);
      cbn [filter fetches_cluster String.eqb Ascii.eqb Bool.eqb andb];
      refine (eq_trans Fw _); rewrite Fs; lia. }
  split.
  - intros pre p rest r C Hpolls Hpre O St.
    rewrite T, C.
    change (post :: Sleep 3 :: get_installation Config id
              :: trace cluster ++ trace polling)%list
      with ([post; Sleep 3; get_installation Config id]
              ++ trace cluster ++ trace polling)%list.
    rewrite !bootstraps_app.
    rewrite (bootstraps_none (trace cluster))
      by apply requestK8sClusterCreation_no_bootstrap.
    subst polling. rewrite Hpolls.
    rewrite (waitMattermostInstallation_waiting_prefix _ _ _ _ _ _ _ Hpre).
    cbn [trace fst]. rewrite bootstraps_app, bootstraps_repeat_get.
    destruct (waitMattermostInstallation_stable_bootstraps
                Config lower p rest pr id r O St) as [-> _].
    unfold bootstraps. cbn [filter is_init]. rewrite Hpost. reflexivity.
  - intros update_script update_pr. apply bootstraps_none.
    apply updateSpinWick_no_bootstrap.
Qed.

Lemma createSpinWick_cluster_before_polling_witness :
  bootstraps (trace (SpinWick.createSpinWick example_config (fun s => s)
                       example_create example_pr "miniSingleton"))
  = 1%nat.
Proof.
  destruct (createSpinWick_cluster_before_polling
              example_config (fun s => s) example_create example_pr
              "miniSingleton"
              200%Z (mkBody DecodeOk (Some "abc123") (Some "creation-requested"))
              DecodeOk (mkResource "abc123" "creation-requested")
              200%Z (mkBody DecodeOk (Some "abc123")
                       (Some "creation-no-compatible-clusters"))
              DecodeOk
              (mkResource "abc123" "creation-no-compatible-clusters"))
    as (_ & _ & _ & _ & B & _).
  - cbn. lia.
  - reflexivity.
  - reflexivity.
  - reflexivity.
  - reflexivity.
  - reflexivity.
  - reflexivity.
  - reflexivity.
  - apply (B [poll_reading "abc123" "creation-requested" false]
             (poll_reading "abc123" "stable" false) []
             (mkResource "abc123" "stable")).
    + reflexivity.
    + reflexivity.
    + repeat constructor.
    + reflexivity.
    + reflexivity.
Defined.

(** The same run, event by event. *)
Example createSpinWick_cluster_run :
  map is_request
    (trace (SpinWick.createSpinWick example_config (fun s => s)
              example_create example_pr "miniSingleton"))
  = [true; false; true; false; true; true; false; true; false; true; true;
     false; false]
  /\ outcome (SpinWick.createSpinWick example_config (fun s => s)
                example_create example_pr "miniSingleton")
     = Returned ("abc123", None).
Proof. split; reflexivity. Qed.

(** ** Waiting for the image *)

Lemma lookups_app (a b : list Event) :
  lookups (a ++ b) = (lookups a + lookups b)%nat.
Proof. unfold lookups. now rewrite filter_app, length_app. Qed.

Lemma waitForImage_retries s p rest pr :
  image_retries p = true ->
  exists pr' tag,
    Builds.image_stored p = (Some pr', None)
    /\ Builds.getInstallationVersion pr' = Some tag
    /\ Builds.waitForImage s (p :: rest) pr
       = (GetPullRequest (RepoOwner pr) (RepoName pr) (Number pr)
            :: ManifestDigest Builds.image tag
            :: trace (Builds.waitForImage s rest pr'),
          outcome (Builds.waitForImage s rest pr')).
Proof.
  unfold image_retries. intro H. apply andb_prop in H as [Hd H].
  apply negb_true_iff in Hd.
  destruct (Builds.image_stored p) as [[pr'|] [e|]] eqn:St; try discriminate.
  destruct (Builds.getInstallationVersion pr') as [tag|] eqn:V;
    [|discriminate].
  destruct (Builds.image_digest p) as [e|] eqn:Dg; [|discriminate].
  exists pr', tag. split; [reflexivity|]. split; [exact V|].
  cbn [Builds.waitForImage]. rewrite Hd, bind_emit, St, V, bind_emit, Dg.
  unfold not_found in H. rewrite H. reflexivity.
Qed.

Lemma waitForImage_retrying_prefix s pre polls pr :
  Forall (fun q => image_retries q = true) pre ->
  exists t pr1,
    Builds.waitForImage s (pre ++ polls)%list pr
    = ((t ++ trace (Builds.waitForImage s polls pr1))%list,
       outcome (Builds.waitForImage s polls pr1))
    /\ lookups t = List.length pre.
Proof.
  intro H. revert pr. induction H as [|q pre Hq _ IH]; intro pr.
  - exists [], pr. split; [apply surjective_run | reflexivity].
  - destruct (waitForImage_retries s q (pre ++ polls)%list pr Hq)
      as (pr' & tag & _ & _ & E).
    destruct (IH pr') as (t & pr1 & E' & L).
    exists (GetPullRequest (RepoOwner pr) (RepoName pr) (Number pr)
              :: ManifestDigest Builds.image tag :: t), pr1.
    split.
    + cbn [List.app]. rewrite E, E'. reflexivity.
    + cbn. unfold lookups in L. now rewrite L.
Qed.

(** The only errors that [waitForImage] returns. *)
Lemma waitForImage_errors s polls pr r err :
  outcome (Builds.waitForImage s polls pr) = Returned (r, Some err) ->
  err = New "timed out waiting for image to publish"
  \/ (exists e, err = Wrap (External e)
                        "unable to get updated PR from Mattermod database")
  \/ (exists e, err = Wrap (External e)
                        "unable to fetch tag from docker registry"
                /\ not_found e = false
                /\ In (Some e) (map Builds.image_digest polls)).
Proof.
  revert pr. induction polls as [|p rest IH]; intro pr;
    cbn [Builds.waitForImage].
  - discriminate.
  - destruct (Builds.image_deadline p).
    { intros [= <- <-]. now left. }
    rewrite bind_emit. cbn [outcome snd].
    destruct (Builds.image_stored p) as [[pr'|] [e|]].
    + intros [= <- <-]. right. left. eauto.
    + destruct (Builds.getInstallationVersion pr') as [tag|];
        [|discriminate].
      rewrite bind_emit. cbn [outcome snd].
      destruct (Builds.image_digest p) as [e|] eqn:Dg; [|discriminate].
      destruct (contains e "status=404") eqn:C; cbn [negb].
      * intro H. apply IH in H as [H|[H|(e' & H1 & H2 & H3)]].
        -- now left.
        -- right. now left.
        -- right. right. exists e'. repeat split; auto. now right.
      * intros [= <- <-]. right. right. exists e.
        repeat split; auto. left. now rewrite Dg.
    + intros [= <- <-]. right. left. eauto.
    + discriminate.
Qed.

(** C6.  After any number of polls that ended in a not-found error
    (an error whose text contains ["status=404"]), the next lookup decides:
    no error returns success, with the pull request just read; an error
    that is not a not-found returns at once, wrapped; a not-found goes on
    with the remaining polls.  In each case the registry has been asked
    once per poll so far.  No run returns a not-found lookup error: the
    errors returned are the timeout, a store error, or a lookup error that
    is not a not-found. *)
Theorem waitForImage_lookup_sequence
    s pre p rest (pr pr' : PullRequest) (tag : string) :
  Forall (fun q => image_retries q = true) pre ->
  Builds.image_deadline p = false ->
  Builds.image_stored p = (Some pr', None) ->
  Builds.getInstallationVersion pr' = Some tag ->
  (Builds.image_digest p = None ->
     outcome (Builds.waitForImage s (pre ++ p :: rest)%list pr)
     = Returned (Some pr', None)
     /\ lookups (trace (Builds.waitForImage s (pre ++ p :: rest)%list pr))
        = S (List.length pre))
  /\ (forall e,
        Builds.image_digest p = Some e -> not_found e = false ->
        outcome (Builds.waitForImage s (pre ++ p :: rest)%list pr)
        = Returned (Some pr',
                    Some (Wrap (External e)
                            "unable to fetch tag from docker registry"))
        /\ lookups (trace (Builds.waitForImage s (pre ++ p :: rest)%list pr))
           = S (List.length pre))
  /\ (forall e,
        Builds.image_digest p = Some e -> not_found e = true ->
        exists t,
          Builds.waitForImage s (pre ++ p :: rest)%list pr
          = ((t ++ trace (Builds.waitForImage s rest pr'))%list,
             outcome (Builds.waitForImage s rest pr'))
          /\ lookups t = S (List.length pre))
  /\ (forall polls pr0 r err,
        outcome (Builds.waitForImage s polls pr0) = Returned (r, Some err) ->
        err = New "timed out waiting for image to publish"
        \/ (exists e, err = Wrap (External e)
                              "unable to get updated PR from Mattermod database")
        \/ (exists e, err = Wrap (External e)
                              "unable to fetch tag from docker registry"
                      /\ not_found e = false
                      /\ In (Some e) (map Builds.image_digest polls))).
Proof.
  intros Hpre Hd St V.
  destruct (waitForImage_retrying_prefix s pre (p :: rest) pr Hpre)
    as (t & pr1 & E & L).
  assert (Step : Builds.waitForImage s (p :: rest) pr1
                 = (GetPullRequest (RepoOwner pr1) (RepoName pr1) (Number pr1)
                      :: ManifestDigest Builds.image tag
                      :: trace (match Builds.image_digest p with
                                | Some e =>
                                    if negb (contains e "status=404")
                                    then ret (Some pr', Some (Wrap (External e)
                                           "unable to fetch tag from docker registry"))
                                    else Builds.waitForImage s rest pr'
                                | None => ret (Some pr', None)
                                end),
                    outcome (match Builds.image_digest p with
                             | Some e =>
                                 if negb (contains e "status=404")
                                 then ret (Some pr', Some (Wrap (External e)
                                        "unable to fetch tag from docker registry"))
                                 else Builds.waitForImage s rest pr'
                             | None => ret (Some pr', None)
                             end))).
  { cbn [Builds.waitForImage]. rewrite Hd, bind_emit, St, V, bind_emit.
    reflexivity. }
  rewrite E, Step. cbn [trace outcome fst snd]. clear E Step.
  split; [|split; [|split]].
  - intros ->. split; [reflexivity|].
    rewrite lookups_app, L. cbn. lia.
  - intros e -> N. unfold not_found in N. rewrite N. split; [reflexivity|].
    rewrite lookups_app, L. cbn. lia.
  - intros e -> N. unfold not_found in N. rewrite N. cbn [negb].
    exists (t ++ [GetPullRequest (RepoOwner pr1) (RepoName pr1) (Number pr1);
                  ManifestDigest Builds.image tag])%list.
    split.
    + rewrite <- app_assoc. reflexivity.
    + rewrite lookups_app, L. cbn. lia.
  - intros polls pr0 r err. apply waitForImage_errors.
Qed.

(** Three not-found answers, then the tag is there: success at the fourth
    lookup. *)
Lemma waitForImage_lookup_sequence_witness :
  outcome (Builds.waitForImage example_server
             [image_poll (Some registry_404); image_poll (Some registry_404);
              image_poll (Some registry_404); image_poll None]
             example_pr)
  = Returned (Some example_pr, None)
  /\ lookups (trace (Builds.waitForImage example_server
                       [image_poll (Some registry_404);
                        image_poll (Some registry_404);
                        image_poll (Some registry_404); image_poll None]
                       example_pr))
     = 4%nat.
Proof.
  apply (waitForImage_lookup_sequence example_server
           [image_poll (Some registry_404); image_poll (Some registry_404);
            image_poll (Some registry_404)]
           (image_poll None) [] example_pr example_pr "3f1c9a2").
  - repeat constructor.
  - reflexivity.
  - reflexivity.
  - reflexivity.
  - reflexivity.
Defined.

(** ** Waiting for the build *)

(** C5, as stated, fails: for [mattermost-server] a poll that reads status
    [completed] with conclusion [success] does not return success (without
    a build link the loop goes on, here until the deadline); a poll that
    reads an unknown status does not return failure (with a build link the
    Jenkins build decides, here for success); and a Jenkins result that the
    code does not know keeps the loop going. *)
Lemma waitForBuild_status_unread_for_server :
  Builds.waitForBuild "mattermost-server" example_server
    [build_poll (with_status example_pr "completed" "success"); deadline_poll]
    example_pr
  = ([GetPullRequest "mattermost" "mattermost-server" 13245;
      UpdateChecks "mattermost" "mattermost-server" 13245],
     Returned (Some (with_status example_pr "completed" "success"),
               Some (New "timed out waiting for build to finish")))
  /\ Builds.waitForBuild "mattermost-server" example_server
       [Builds.mkBuildPoll false (Some example_pr, None)
          (Some (SpinWick.withBuildLink
                   (with_status example_pr "no_such_status" "")
                   jenkins_link), None)
          None (Builds.mkJenkinsBuild 7 false "SUCCESS", None)]
       example_pr
     = ([GetPullRequest "mattermost" "mattermost-server" 13245;
         UpdateChecks "mattermost" "mattermost-server" 13245;
         JenkinsGetJob "mp/job/mattermost-server/job/PR-13245";
         JenkinsGetBuild "mp/job/mattermost-server/job/PR-13245" 7],
        Returned (Some (SpinWick.withBuildLink
                          (with_status example_pr "no_such_status" "")
                          jenkins_link),
                  None))
  /\ outcome (Builds.waitForBuild "mattermost-server" example_server
                [Builds.mkBuildPoll false (Some example_pr, None)
                   (Some (SpinWick.withBuildLink example_pr jenkins_link),
                    None)
                   None (Builds.mkJenkinsBuild 7 false "UNSTABLE", None);
                 deadline_poll]
                example_pr)
     = Returned (Some (SpinWick.withBuildLink example_pr jenkins_link),
                 Some (New "timed out waiting for build to finish")).
Proof. repeat split; reflexivity. Qed.

(** C5, amended.  At a poll whose timer fires and whose two refreshes
    succeed, the refreshed pull request decides as follows.  For
    [mattermost-webapp]: status [completed] with conclusion [success]
    returns success, [completed] with another conclusion returns the error
    "build failed", a status other than [in_progress] and [completed]
    returns the error "unknown build status", each without a further poll,
    and [in_progress] goes on with the next poll.  For any other repository
    the status and the conclusion are not read.  Without a build link the
    loop goes on.  With a build link, a repository that is not the server
    repository gets the error "unsupported repository" and Jenkins is not
    asked; for the server repository, whose link has the job, the
    sub-job and the number as its sixth, fourth and third segments from
    the end, Jenkins is asked for the job and then for the build: a lookup
    that fails returns its error, a build that is not building with result
    [SUCCESS] returns success, a result [FAILURE] or [ABORTED] returns the
    error "build ... failed", and any other build goes on with the next
    poll. *)
Theorem waitForBuild_status_decision
    serverRepoName s p rest (pr pr1 pr2 : PullRequest) :
  Builds.build_deadline p = false ->
  Builds.build_stored p = (Some pr1, None) ->
  Builds.build_checks p = (Some pr2, None) ->
  let read := [GetPullRequest (RepoOwner pr) (RepoName pr) (Number pr);
               UpdateChecks (RepoOwner pr1) (RepoName pr1) (Number pr1)] in
  let next := Builds.waitForBuild serverRepoName s rest pr2 in
  let run := Builds.waitForBuild serverRepoName s (p :: rest) pr in
  (RepoName pr2 = "mattermost-webapp" ->
     (BuildStatus pr2 = "completed" -> BuildConclusion pr2 = "success" ->
        Builds.waitForBuild serverRepoName s (p :: rest) pr
        = (read, Returned (Some pr2, None)))
     /\ (BuildStatus pr2 = "completed" -> BuildConclusion pr2 <> "success" ->
           Builds.waitForBuild serverRepoName s (p :: rest) pr
           = (read, Returned (Some pr2, Some (New "build failed"))))
     /\ (BuildStatus pr2 <> "in_progress" -> BuildStatus pr2 <> "completed" ->
           Builds.waitForBuild serverRepoName s (p :: rest) pr
           = (read, Returned (Some pr2,
                       Some (Errorf "unknown build status %s"
                               [ArgString (BuildStatus pr2)]))))
     /\ (BuildStatus pr2 = "in_progress" ->
           Builds.waitForBuild serverRepoName s (p :: rest) pr
           = ((read ++ trace next)%list, outcome next)))
  /\ (RepoName pr2 <> "mattermost-webapp" -> BuildLink pr2 = "" ->
        Builds.waitForBuild serverRepoName s (p :: rest) pr
        = ((read ++ trace next)%list, outcome next))
  /\ (RepoName pr2 <> "mattermost-webapp" -> BuildLink pr2 <> "" ->
      RepoName pr2 <> serverRepoName ->
        run = (read,
               Returned (Some pr2,
                         Some (Errorf "unsupported repository %s"
                                 [ArgString (RepoName pr2)]))))
  /\ (RepoName pr2 <> "mattermost-webapp" -> BuildLink pr2 <> "" ->
      RepoName pr2 = serverRepoName ->
      forall number job sub,
        from_end (Split (BuildLink pr2) "/") 3 = Some number ->
        from_end (Split (BuildLink pr2) "/") 6 = Some job ->
        from_end (Split (BuildLink pr2) "/") 4 = Some sub ->
        let jobName := "mp/job/" ++ job ++ "/job/" ++ sub in
        let asked := (read ++ [JenkinsGetJob jobName])%list in
        let built :=
          (asked ++ [JenkinsGetBuild jobName (ParseInt32 number)])%list in
        (forall e,
           Builds.build_job p = Some e ->
           run = (asked,
                  Returned (Some pr2,
                            Some (Wrapf (External e)
                                    "failed to get Jenkins job %s"
                                    [ArgString jobName]))))
        /\ (Builds.build_job p = None ->
            forall build,
              (forall e,
                 Builds.build_build p = (build, Some e) ->
                 run = (built,
                        Returned (Some pr2,
                                  Some (Wrapf (External e)
                                          "failed to get Jenkins build %d"
                                          [ArgInt (Builds.build_Number
                                                     build)]))))
              /\ (Builds.build_build p = (build, None) ->
                  (Builds.Building build = false ->
                   Builds.Result build = "SUCCESS" ->
                     run = (built, Returned (Some pr2, None)))
                  /\ (Builds.Result build = "FAILURE"
                      \/ Builds.Result build = "ABORTED" ->
                        run = (built,
                               Returned (Some pr2,
                                         Some (Errorf
                                                 "build %d failed with status %q"
                                                 [ArgInt (Builds.build_Number
                                                            build);
                                                  ArgString (Builds.Result
                                                               build)]))))
                  /\ (Builds.Building build = true
                      \/ Builds.Result build <> "SUCCESS" ->
                      Builds.Result build <> "FAILURE" ->
                      Builds.Result build <> "ABORTED" ->
                        run = ((built ++ trace next)%list, outcome next))))).
Proof.
  intros Hd St Ck read next run.
  assert (E : Builds.waitForBuild serverRepoName s (p :: rest) pr
              = bind (read, Returned tt)
                  (fun _ =>
                     d <- Builds.buildDecision serverRepoName p pr2;;
                     match d with
                     | Some r => ret r
                     | None => next
                     end)).
  { cbn [Builds.waitForBuild]. rewrite Hd, bind_emit, St, bind_emit, Ck.
    rewrite bind_returned. reflexivity. }
  subst run. rewrite E. clear E. unfold Builds.buildDecision.
  split; [|split; [|split]].
  - intro W. apply String.eqb_eq in W. rewrite W.
    split; [|split; [|split]].
    + intros -> ->. reflexivity.
    + intros -> N. apply String.eqb_neq in N. rewrite N. reflexivity.
    + intros N1 N2. apply String.eqb_neq in N1, N2. rewrite N1, N2.
      reflexivity.
    + intros ->. cbn [String.eqb Ascii.eqb Bool.eqb]. rewrite bind_ret.
      rewrite bind_returned. reflexivity.
  - intros N ->. apply String.eqb_neq in N. rewrite N.
    cbn [String.eqb]. rewrite bind_ret, bind_returned. reflexivity.
  - intros N L U. apply String.eqb_neq in N, L, U. rewrite N, L.
    unfold Builds.jenkinsDecision. rewrite U. reflexivity.
  - intros N L U number job sub P3 P6 P4.
    apply String.eqb_neq in N, L. apply String.eqb_eq in U. rewrite N, L.
    unfold Builds.jenkinsDecision. rewrite U, P3, P6, P4.
    cbv zeta. rewrite bind_emit.
    split.
    + intros e J. rewrite J. reflexivity.
    + intros J build. rewrite J, bind_emit. split.
      * intros e B. rewrite B. reflexivity.
      * intro B. rewrite B. split; [|split].
        -- intros Bd R. rewrite Bd, R. reflexivity.
        -- intros R.
           assert (NS : negb (Builds.Building build)
                        && (Builds.Result build =? "SUCCESS") = false).
           { destruct R as [R|R]; rewrite R; apply andb_false_r. }
           rewrite NS.
           assert (FA : (Builds.Result build =? "FAILURE")
                        || (Builds.Result build =? "ABORTED") = true).
           { destruct R as [R|R]; rewrite R; reflexivity. }
           rewrite FA. reflexivity.
        -- intros R NF NA.
           assert (NS : negb (Builds.Building build)
                        && (Builds.Result build =? "SUCCESS") = false).
           { destruct R as [R|R].
             - rewrite R. reflexivity.
             - apply String.eqb_neq in R. rewrite R. apply andb_false_r. }
           rewrite NS.
           apply String.eqb_neq in NF, NA. rewrite NF, NA.
           cbn [orb trace outcome fst snd ret].
           rewrite !bind_returned.
           cbn [trace outcome fst snd List.app].
           rewrite <- !app_assoc. reflexivity.
Qed.

Lemma waitForBuild_status_decision_witness :
  Builds.waitForBuild "mattermost-server" example_server
    [build_poll webapp_pr] webapp_pr
  = ([GetPullRequest "mattermost" "mattermost-webapp" 5512;
      UpdateChecks "mattermost" "mattermost-webapp" 5512],
     Returned (Some webapp_pr, None)).
Proof.
  apply (waitForBuild_status_decision "mattermost-server" example_server
           (build_poll webapp_pr) [] webapp_pr webapp_pr webapp_pr).
  - reflexivity.
  - reflexivity.
  - reflexivity.
  - reflexivity.
  - reflexivity.
  - reflexivity.
Defined.

(** ** The configured status context *)









(** * Further properties of the code *)

(** ** The installation loop *)

Lemma waitMattermostInstallation_decides
    Config lower p rest rest' (pr : PullRequest) (id : string) (upgrade : bool) :
  poll_waits p = false ->
  SpinWick.waitMattermostInstallation Config lower (p :: rest) pr id upgrade
  = SpinWick.waitMattermostInstallation Config lower (p :: rest') pr id upgrade
  /\ outcome (SpinWick.waitMattermostInstallation
                Config lower (p :: rest) pr id upgrade) <> Polling.
Proof.
  unfold poll_waits, observed. intro H.
  cbn [SpinWick.waitMattermostInstallation]. rewrite !bind_makeRequest.
  destruct (SpinWick.poll_get p) as [e|code body].
  { split; [reflexivity | discriminate]. }
  destruct (Decode body zero_Resource) as [err r].
  destruct (decode_failed err).
  { split; [reflexivity | discriminate]. }
  destruct (State r =? "stable").
  { split; [reflexivity|].
    destruct upgrade; [discriminate|].
    destruct (SpinWick.poll_init p); [|discriminate].
    destruct (SpinWick.poll_delete p); discriminate. }
  destruct (State r =? "creation-failed").
  { split; [reflexivity|]. destruct (SpinWick.poll_delete p); discriminate. }
  destruct (SpinWick.poll_deadline p); [|discriminate H].
  split; [reflexivity|]. destruct (SpinWick.poll_delete p); discriminate.
Qed.

(** X1.  The loop of [waitMattermostInstallation] stops at the first poll
    that does not only wait (a failed fetch, a reply that cannot be decoded,
    [stable], [creation-failed], or the deadline): what the script holds
    after that poll is never consulted, and the run has ended. *)
Theorem waitMattermostInstallation_stops_at_first_decision
    Config lower pre p rest rest' (pr : PullRequest) (id : string)
    (upgrade : bool) :
  Forall (fun q => poll_waits q = true) pre ->
  poll_waits p = false ->
  SpinWick.waitMattermostInstallation Config lower (pre ++ p :: rest)%list
    pr id upgrade
  = SpinWick.waitMattermostInstallation Config lower (pre ++ p :: rest')%list
      pr id upgrade
  /\ outcome (SpinWick.waitMattermostInstallation Config lower
                (pre ++ p :: rest)%list pr id upgrade) <> Polling.
Proof.
  intros Hpre Hp.
  rewrite !(waitMattermostInstallation_waiting_prefix _ _ _ _ _ _ _ Hpre).
  destruct (waitMattermostInstallation_decides Config lower p rest rest'
              pr id upgrade Hp) as [E N].
  split; [now rewrite E | exact N].
Qed.

Lemma waitMattermostInstallation_stops_at_first_decision_witness :
  SpinWick.waitMattermostInstallation example_config (fun s => s)
    ([poll_reading "abc123" "creating" false]
       ++ poll_reading "abc123" "stable" false
       :: [poll_reading "abc123" "creation-failed" false])%list
    example_pr "abc123" true
  = SpinWick.waitMattermostInstallation example_config (fun s => s)
      ([poll_reading "abc123" "creating" false]
         ++ poll_reading "abc123" "stable" false :: [])%list
      example_pr "abc123" true.
Proof.
  apply (waitMattermostInstallation_stops_at_first_decision
           example_config (fun s => s)
           [poll_reading "abc123" "creating" false]
           (poll_reading "abc123" "stable" false)
           [poll_reading "abc123" "creation-failed" false] []
           example_pr "abc123" true).
  - repeat constructor.
  - reflexivity.
Defined.

(** X2.  When the fetch itself fails, or its reply cannot be decoded, the
    run returns an error and has done nothing but fetch and log: no DELETE
    is sent and no comment is posted. *)
Theorem waitMattermostInstallation_failed_fetch_no_compensation
    Config lower pre p rest (pr : PullRequest) (id : string) (upgrade : bool) :
  Forall (fun q => poll_waits q = true) pre ->
  observed p = None ->
  Forall (fun e => e = get_installation Config id \/ exists m, e = LogError m)
    (trace (SpinWick.waitMattermostInstallation Config lower
              (pre ++ p :: rest)%list pr id upgrade))
  /\ exists err,
       outcome (SpinWick.waitMattermostInstallation Config lower
                  (pre ++ p :: rest)%list pr id upgrade)
       = Returned (Some err).
Proof.
  intros Hpre O.
  rewrite (waitMattermostInstallation_waiting_prefix _ _ _ _ _ _ _ Hpre).
  cbn [trace outcome fst snd].
  assert (R : Forall (fun e => e = get_installation Config id
                               \/ exists m, e = LogError m)
                (repeat (get_installation Config id) (List.length pre))).
  { induction (List.length pre); cbn; constructor; auto. }
  unfold observed in O.
  cbn [SpinWick.waitMattermostInstallation]. rewrite bind_makeRequest.
  destruct (SpinWick.poll_get p) as [e|code body].
  - cbn. split; [|eauto].
    apply Forall_app. split; [exact R|].
    constructor; [now left|]. constructor; [right; eauto | constructor].
  - destruct (Decode body zero_Resource) as [err r].
    destruct (decode_failed err); [|discriminate].
    cbn. split; [|eauto].
    apply Forall_app. split; [exact R|].
    constructor; [now left|]. constructor; [right; eauto | constructor].
Qed.

Lemma waitMattermostInstallation_failed_fetch_no_compensation_witness :
  exists err,
    outcome (SpinWick.waitMattermostInstallation example_config (fun s => s)
               ([poll_reading "abc123" "creating" false]
                  ++ SpinWick.mkInstallationPoll
                       (RequestError "connection refused") None
                       (empty_reply 202) false :: [])%list
               example_pr "abc123" false)
    = Returned (Some err).
Proof.
  apply (waitMattermostInstallation_failed_fetch_no_compensation
           example_config (fun s => s)
           [poll_reading "abc123" "creating" false]
           (SpinWick.mkInstallationPoll (RequestError "connection refused")
              None (empty_reply 202) false)
           [] example_pr "abc123" false).
  - repeat constructor.
  - reflexivity.
Defined.

(** ** Creating the installation *)





(** X4.  What [createSpinWick] returns: with an error the id is empty; with
    no error the id is the one that the reply to the POST carried, whatever
    the later replies say. *)
Theorem createSpinWick_result
    Config lower script (pr : PullRequest) (size id : string) (err : error) :
  outcome (SpinWick.createSpinWick Config lower script pr size)
  = Returned (id, err) ->
  match err with
  | Some _ => id = ""
  | None =>
      exists code body,
        SpinWick.create_post script = Response code body
        /\ id = ID (snd (Decode body zero_Resource))
  end.
Proof.
  unfold SpinWick.createSpinWick.
  destruct (go_slice (Sha pr) 0 7) as [version|]; [|discriminate].
  rewrite bind_makeRequest. cbn [outcome snd].
  destruct (SpinWick.create_post script) as [e|c1 b1].
  { cbn. intros [= <- <-]. reflexivity. }
  destruct (Decode b1 zero_Resource) as [e1 created] eqn:D1.
  destruct e1 as [| |m];
    try (cbn; intros [= <- <-]; reflexivity);
    rewrite bind_emit, bind_makeRequest; cbn [outcome snd];
    (destruct (SpinWick.create_get script) as [e|c2 b2];
     [cbn; intros [= <- <-]; reflexivity|]);
    destruct (Decode b2 created) as [e2 fetched];
    (destruct (decode_failed e2); [cbn; intros [= <- <-]; reflexivity|]);
    rewrite outcome_bind;
    (destruct (outcome (if State fetched =? "creation-no-compatible-clusters"
                        then SpinWick.requestK8sClusterCreation Config
                               (SpinWick.create_cluster script) pr
                        else ret None)) as [[e|]| |];
     try discriminate;
     [cbn; intros [= <- <-]; reflexivity|]);
    rewrite outcome_bind;
    (destruct (outcome (SpinWick.waitMattermostInstallation Config lower
                          (SpinWick.create_polls script) pr (ID created)
                          false)) as [[e|]| |];
     try discriminate;
     [cbn; intros [= <- <-]; reflexivity|]);
    cbn [outcome ret snd]; intros [= <- <-]; exists c1, b1; rewrite D1;
    split; reflexivity.
Qed.

Lemma createSpinWick_result_witness :
  exists code body,
    SpinWick.create_post example_create = Response code body
    /\ "abc123" = ID (snd (Decode body zero_Resource)).
Proof.
  apply (createSpinWick_result example_config (fun s => s) example_create
           example_pr "miniSingleton" "abc123" None).
  reflexivity.
Defined.

(** X5.  [createSpinWick] asks for a cluster only when the POST and the
    first fetch were answered and the installation, as decoded after the
    fetch, is in state [creation-no-compatible-clusters]. *)
Theorem createSpinWick_cluster_only_when_needed
    Config lower script (pr : PullRequest) (size : string) (e : Event) :
  In e (trace (SpinWick.createSpinWick Config lower script pr size)) ->
  requests_cluster e ->
  exists c1 b1 c2 b2,
    SpinWick.create_post script = Response c1 b1
    /\ SpinWick.create_get script = Response c2 b2
    /\ State (snd (Decode b2 (snd (Decode b1 zero_Resource))))
       = "creation-no-compatible-clusters".
Proof.
  intros HI HC.
  assert (Q : forall t : list Event,
             Forall (fun e => ~ requests_cluster e) t -> In e t -> False).
  { intros t F I. rewrite Forall_forall in F. exact (F e I HC). }
  assert (Qr : forall m u, ~ requests_cluster (Request m u NoPayload))
    by (intros m u (? & ? & ? & [=])).
  assert (Qc : forall o r n msg, ~ requests_cluster (CommentOnIssue o r n msg))
    by (intros o r n msg (? & ? & ? & [=])).
  assert (Ql : forall msg, ~ requests_cluster (LogError msg))
    by (intros msg (? & ? & ? & [=])).
  assert (Qi : forall u n, ~ requests_cluster (InitializeTestServer u n))
    by (intros u n (? & ? & ? & [=])).
  assert (Qs : forall n, ~ requests_cluster (Sleep n))
    by (intros n (? & ? & ? & [=])).
  assert (Qp : forall m u r,
             ~ requests_cluster (Request m u (JSONInstallation r)))
    by (intros m u r (? & ? & ? & [=])).
  assert (Qe : ~ requests_cluster e -> False) by auto.
  unfold SpinWick.createSpinWick in HI.
  destruct (go_slice (Sha pr) 0 7) as [version|]; [|destruct HI].
  rewrite bind_makeRequest in HI. cbn [trace fst] in HI.
  destruct HI as [<-|HI]; [exfalso; eapply Qp; eauto|].
  destruct (SpinWick.create_post script) as [e0|c1 b1] eqn:HP.
  { exfalso. revert HI. apply Q. trace_forall; auto. }
  destruct (Decode b1 zero_Resource) as [e1 created] eqn:D1.
  destruct e1 as [| |m];
    try (exfalso; revert HI; apply Q; trace_forall; now auto);
    rewrite bind_emit, bind_makeRequest in HI; cbn [trace fst] in HI;
    (destruct HI as [<-|[<-|HI]];
     [exfalso; eapply Qs; eauto | exfalso; eapply Qr; eauto |]);
    (destruct (SpinWick.create_get script) as [e0|c2 b2] eqn:HG;
     [exfalso; revert HI; apply Q; trace_forall; now auto|]);
    destruct (Decode b2 created) as [e2 fetched] eqn:D2;
    (destruct (decode_failed e2);
     [exfalso; revert HI; apply Q; trace_forall; now auto|]);
    (destruct (State fetched =? "creation-no-compatible-clusters") eqn:S;
     [apply String.eqb_eq in S; exists c1, b1, c2, b2;
      rewrite D1; cbn [snd]; rewrite D2; cbn [snd]; auto|]);
    exfalso; revert HI; apply Q;
    trace_forall; auto using waitMattermostInstallation_events.
Qed.

Lemma createSpinWick_cluster_only_when_needed_witness :
  exists c1 b1 c2 b2,
    SpinWick.create_post example_create = Response c1 b1
    /\ SpinWick.create_get example_create = Response c2 b2
    /\ State (snd (Decode b2 (snd (Decode b1 zero_Resource))))
       = "creation-no-compatible-clusters".
Proof.
  apply (createSpinWick_cluster_only_when_needed
           example_config (fun s => s) example_create example_pr
           "miniSingleton"
           (Request "POST" "https://provisioner.example.com/api/clusters"
              (JSONCluster (mkCreateClusterRequest "" "SizeAlef1000" [])))).
  - vm_compute. repeat (try (left; reflexivity); right).
  - unfold requests_cluster. eauto.
Defined.

(** ** Requests to the provisioning server *)

(** The requests of the installation loop: the GET of the installation
    polled, and DELETEs. *)
Lemma waitMattermostInstallation_requests
    Config lower polls (pr : PullRequest) (id : string) (upgrade : bool) :
  Forall (fun e => is_request e = true ->
                   e = get_installation Config id
                   \/ exists x, e = delete_installation Config x)
    (trace (SpinWick.waitMattermostInstallation
              Config lower polls pr id upgrade)).
Proof.
  induction polls as [|p rest IH]; cbn [SpinWick.waitMattermostInstallation].
  - constructor.
  - unfold SpinWick.makeRequest, SpinWick.commentOnIssue,
      SpinWick.initializeMattermostTestServer,
      SpinWick.destroyMMInstallation, SpinWick.makeRequest.
    trace_forall; auto; try discriminate;
      intros _; unfold get_installation, delete_installation; eauto.
Qed.

(** X6.  Asking for a cluster sends one POST to [/api/clusters], for the
    size [SizeAlef1000], and then only GETs of the cluster that the reply
    named: whatever the cluster does, failure and deadline included, no
    DELETE and no other request is sent. *)
Theorem requestK8sClusterCreation_requests
    Config script (pr : PullRequest) :
  Forall (fun e =>
            is_request e = true ->
            e = Request "POST"
                  (SpinWick.ProvisionerServer Config ++ "/api/clusters")
                  (JSONCluster (mkCreateClusterRequest "" "SizeAlef1000" []))
            \/ exists code body,
                 SpinWick.cluster_post script = Response code body
                 /\ e = Request "GET"
                          (SpinWick.ProvisionerServer Config ++ "/api/cluster/"
                           ++ ID (snd (Decode body zero_Resource)))
                          NoPayload)
    (trace (SpinWick.requestK8sClusterCreation Config script pr)).
Proof.
  assert (W : forall polls id,
             Forall (fun e =>
                       is_request e = true ->
                       e = Request "GET"
                             (SpinWick.ProvisionerServer Config
                              ++ "/api/cluster/" ++ id) NoPayload)
               (trace (SpinWick.waitK8sCluster Config polls pr id))).
  { intros polls id.
    induction polls as [|p rest IH]; cbn [SpinWick.waitK8sCluster].
    - constructor.
    - unfold SpinWick.makeRequest, SpinWick.commentOnIssue.
      trace_forall; auto; discriminate. }
  unfold SpinWick.requestK8sClusterCreation, SpinWick.commentOnIssue.
  rewrite bind_emit. cbn [trace fst].
  constructor; [discriminate|].
  rewrite bind_makeRequest. cbn [trace fst].
  constructor; [now left|].
  destruct (SpinWick.cluster_post script) as [e|code body].
  { trace_forall; discriminate. }
  destruct (Decode body zero_Resource) as [err cluster] eqn:D.
  destruct err; try (trace_forall; discriminate);
    eapply Forall_impl; [|apply W| |apply W];
    intros e H R; right; exists code, body; rewrite D;
    (split; [reflexivity | now apply H]).
Qed.

(** ** Before the upgrade request *)

(** X7.  [waitForBuildComplete] returns nil only when the repository is
    configured with a Jenkins server that has credentials and the Jenkins
    waiter reports success for a pull request; then it has posted no
    comment.  When it returns an error it has posted exactly one comment,
    the configured failure message. *)
Theorem waitForBuildComplete_result
    Config answer (pr : PullRequest) (err : error) :
  outcome (SpinWick.waitForBuildComplete Config answer pr) = Returned err ->
  match err with
  | None =>
      (exists repo credentials pr',
         GetRepository (SpinWick.Repositories Config) (RepoOwner pr)
           (RepoName pr) = Some repo
         /\ JenkinsServer repo <> ""
         /\ SpinWick.lookupCredentials (SpinWick.JenkinsCredentialsMap Config)
              (JenkinsServer repo) = Some credentials
         /\ answer = (Some pr', true))
      /\ filter is_comment
           (trace (SpinWick.waitForBuildComplete Config answer pr)) = []
  | Some _ =>
      exists o r n,
        filter is_comment
          (trace (SpinWick.waitForBuildComplete Config answer pr))
        = [CommentOnIssue o r n (SpinWick.SetupSpinmintFailedMessage Config)]
  end.
Proof.
  unfold SpinWick.waitForBuildComplete, SpinWick.commentOnIssue.
  destruct (GetRepository (SpinWick.Repositories Config) (RepoOwner pr)
              (RepoName pr)) as [repo|].
  2:{ cbn. intros [= <-]. cbn. eauto. }
  destruct (JenkinsServer repo =? "") eqn:J.
  { cbn. intros [= <-]. cbn. eauto. }
  destruct (SpinWick.lookupCredentials (SpinWick.JenkinsCredentialsMap Config)
              (JenkinsServer repo)) as [credentials|] eqn:C.
  2:{ cbn. intros [= <-]. cbn. eauto. }
  rewrite bind_emit. cbn [outcome snd trace fst].
  destruct answer as [[pr'|] errr]; [|discriminate].
  destruct errr; cbn.
  - intros [= <-]. split; [|reflexivity].
    exists repo, credentials, pr'. repeat split; auto.
    now apply String.eqb_neq.
  - intros [= <-]. cbn. eauto.
Qed.

Lemma waitForBuildComplete_result_witness :
  exists o r n,
    filter is_comment
      (trace (SpinWick.waitForBuildComplete example_config
                (Some example_pr, false) example_pr))
    = [CommentOnIssue o r n
         (SpinWick.SetupSpinmintFailedMessage example_config)].
Proof.
  apply (waitForBuildComplete_result example_config (Some example_pr, false)
           example_pr (Some (New "error in the build. aborting"))).
  reflexivity.
Defined.

(** [waitForBuildComplete] returns nil only when the Jenkins waiter
    reported success for a pull request. *)
Lemma waitForBuildComplete_nil Config answer (pr : PullRequest) :
  outcome (SpinWick.waitForBuildComplete Config answer pr) = Returned None ->
  exists pr', answer = (Some pr', true).
Proof.
  unfold SpinWick.waitForBuildComplete, SpinWick.commentOnIssue.
  destruct (GetRepository (SpinWick.Repositories Config) (RepoOwner pr)
              (RepoName pr)) as [repo|]; [|discriminate].
  destruct (JenkinsServer repo =? ""); [discriminate|].
  destruct (SpinWick.lookupCredentials (SpinWick.JenkinsCredentialsMap Config)
              (JenkinsServer repo)); [|discriminate].
  rewrite bind_emit. cbn [outcome snd].
  destruct answer as [[pr'|] errr]; [|discriminate].
  destruct errr; [|discriminate]. eauto.
Qed.

(** [updateSpinWick] up to its upgrade request, with what had to hold to
    get there. *)
Lemma updateSpinWick_reaches_upgrade Config lower script (pr : PullRequest) :
  Forall (fun e => is_request e = false)
    (trace (SpinWick.updateSpinWick Config lower script pr))
  \/ exists pre link installation pr',
       Forall (fun e => is_request e = false) pre
       /\ existsb (fun label => (label =? SpinWick.SetupSpinWick Config)
                                || (label =? SpinWick.SetupSpinWickHA Config))
            (Labels pr) = true
       /\ outcome (SpinWick.checkBuildLink Config
                     (SpinWick.update_links script) pr)
          = Returned (link, None)
       /\ link <> ""
       /\ SpinWick.update_spinmint script = SpinWick.Data installation
       /\ SpinWick.update_build script = (Some pr', true)
       /\ SpinWick.updateSpinWick Config lower script pr
          = ((pre ++ trace (SpinWick.requestUpgrade Config lower script
                              (SpinWick.withBuildLink pr link) installation))%list,
             outcome (SpinWick.requestUpgrade Config lower script
                        (SpinWick.withBuildLink pr link) installation)).
Proof.
  unfold SpinWick.updateSpinWick.
  destruct (existsb _ (Labels pr)) eqn:L; cbn [negb]; [|left; constructor].
  rewrite bind_emit.
  pose proof (checkBuildLink_loop_no_request
                (GetRepository (SpinWick.Repositories Config)
                   (RepoOwner pr) (RepoName pr))
                (SpinWick.update_links script) pr) as HL.
  unfold SpinWick.checkBuildLink.
  destruct (Builds.checkBuildLink_loop _ _ pr) as [tl [[link err]| |]];
    cbn [trace fst] in HL;
    [| left; cbn; constructor; [reflexivity | exact HL]
     | left; cbn; constructor; [reflexivity | exact HL]].
  rewrite bind_returned.
  destruct (_ || _) eqn:B.
  { left. cbn. constructor; [reflexivity|].
    apply Forall_app. split; [exact HL | repeat constructor]. }
  apply orb_false_elim in B as [Be Bl].
  destruct err as [e|]; [discriminate Be|]. apply String.eqb_neq in Bl.
  rewrite bind_emit.
  set (pr1 := SpinWick.withBuildLink pr link).
  assert (HS : exists ts,
             Forall (fun e => is_request e = false) ts
             /\ match SpinWick.update_save script with
                | Some e => emit (LogError e)
                | None => ret tt
                end = (ts, Returned tt)).
  { destruct (SpinWick.update_save script);
      eexists; (split; [|reflexivity]); repeat constructor. }
  destruct HS as (ts & Hts & ->).
  rewrite bind_returned, bind_emit.
  destruct (SpinWick.update_spinmint script) as [e| |installation] eqn:S.
  - left. cbn. constructor; [reflexivity|].
    apply Forall_app. split; [exact HL|].
    constructor; [reflexivity|]. apply Forall_app. split; [exact Hts|].
    repeat constructor.
  - left. cbn. constructor; [reflexivity|].
    apply Forall_app. split; [exact HL|].
    constructor; [reflexivity|]. apply Forall_app. split; [exact Hts|].
    repeat constructor.
  - unfold SpinWick.commentOnIssue at 1. rewrite bind_emit.
    pose proof (waitForBuildComplete_no_request Config
                  (SpinWick.update_build script) pr1) as HB.
    pose proof (waitForBuildComplete_nil Config
                  (SpinWick.update_build script) pr1) as HR.
    destruct (SpinWick.waitForBuildComplete Config _ pr1) as [tb [[e|]| |]];
      cbn [trace outcome fst snd] in HB, HR.
    + left. cbn. constructor; [reflexivity|].
      apply Forall_app. split; [exact HL|].
      constructor; [reflexivity|]. apply Forall_app. split; [exact Hts|].
      constructor; [reflexivity|]. constructor; [reflexivity|].
      apply Forall_app. split; [exact HB | repeat constructor].
    + right. rewrite bind_returned, bind_emit.
      destruct (HR eq_refl) as (pr' & A).
      exists (Sleep 60 :: tl ++ SavePullRequest (Number pr1) (BuildLink pr1)
                :: ts ++ GetSpinmint (Number pr1)
                :: CommentOnIssue (RepoOwner pr1) (RepoName pr1) (Number pr1)
                     "New commit detected. SpinWick upgrade will occur after the build is successful."
                :: tb ++ [Sleep 60])%list, link, installation, pr'.
      split; [|repeat split; auto].
      * constructor; [reflexivity|].
        apply Forall_app. split; [exact HL|].
        constructor; [reflexivity|]. apply Forall_app. split; [exact Hts|].
        constructor; [reflexivity|]. constructor; [reflexivity|].
        apply Forall_app. split; [exact HB | repeat constructor].
      * cbn [trace outcome fst snd]. f_equal.
        cbn [List.app]. f_equal. rewrite <- !app_assoc. cbn [List.app].
        f_equal. f_equal. rewrite <- !app_assoc. cbn [List.app].
        f_equal. f_equal. f_equal. rewrite <- !app_assoc. reflexivity.
    + left. cbn. constructor; [reflexivity|].
      apply Forall_app. split; [exact HL|].
      constructor; [reflexivity|]. apply Forall_app. split; [exact Hts|].
      constructor; [reflexivity|]. constructor; [reflexivity|]. exact HB.
    + left. cbn. constructor; [reflexivity|].
      apply Forall_app. split; [exact HL|].
      constructor; [reflexivity|]. apply Forall_app. split; [exact Hts|].
      constructor; [reflexivity|]. constructor; [reflexivity|]. exact HB.
Qed.

(** X8.  [updateSpinWick] sends a request to the provisioning server only
    when the pull request carries one of the two SpinWick labels, a
    non-empty build link was found, the store holds a record for the pull
    request, the Jenkins waiter reported success and the hash has the seven
    bytes of the version.  Every request it sends is then the upgrade PUT
    for the recorded installation, a GET of that installation, or a
    DELETE; it never sends a POST. *)
Theorem updateSpinWick_requests
    Config lower script (pr : PullRequest) (e : Event) :
  In e (trace (SpinWick.updateSpinWick Config lower script pr)) ->
  is_request e = true ->
  exists link installation version pr',
    existsb (fun label => (label =? SpinWick.SetupSpinWick Config)
                          || (label =? SpinWick.SetupSpinWickHA Config))
      (Labels pr) = true
    /\ outcome (SpinWick.checkBuildLink Config
                  (SpinWick.update_links script) pr)
       = Returned (link, None)
    /\ link <> ""
    /\ SpinWick.update_spinmint script = SpinWick.Data installation
    /\ SpinWick.update_build script = (Some pr', true)
    /\ Builds.getInstallationVersion pr = Some version
    /\ (e = upgrade_request Config installation version
        \/ e = get_installation Config installation
        \/ exists x, e = delete_installation Config x).
Proof.
  intros HI HR.
  destruct (updateSpinWick_reaches_upgrade Config lower script pr)
    as [F|(pre & link & installation & pr' & F & L & K & N & S & B & E)].
  { exfalso. eapply not_request_In; eauto. }
  rewrite E in HI. cbn [trace fst] in HI.
  apply in_app_or in HI as [HI|HI];
    [exfalso; eapply not_request_In; eauto|].
  unfold SpinWick.requestUpgrade in HI.
  change (Sha (SpinWick.withBuildLink pr link)) with (Sha pr) in HI.
  destruct (go_slice (Sha pr) 0 7) as [version|] eqn:V; [|destruct HI].
  exists link, installation, version, pr'.
  repeat (split; [assumption|]).
  rewrite bind_makeRequest in HI. cbn [trace fst] in HI.
  destruct HI as [<-|HI]; [now left|].
  right.
  destruct (SpinWick.update_put script) as [m|code body].
  { exfalso. cbn in HI. destruct HI as [<-|[<-|[]]]; discriminate. }
  destruct (negb (code =? 202)%Z).
  { exfalso. cbn in HI. destruct HI as [<-|[<-|[]]]; discriminate. }
  rewrite trace_bind in HI.
  pose proof (waitMattermostInstallation_requests Config lower
                (SpinWick.update_polls script)
                (SpinWick.withBuildLink pr link) installation true) as W.
  rewrite Forall_forall in W.
  destruct (outcome (SpinWick.waitMattermostInstallation Config lower
                       (SpinWick.update_polls script)
                       (SpinWick.withBuildLink pr link) installation true))
    as [[err|]| |].
  - apply in_app_or in HI as [HI|HI]; [now apply W|].
    exfalso. cbn in HI. destruct HI as [<-|[]]. discriminate.
  - apply in_app_or in HI as [HI|HI]; [now apply W | destruct HI].
  - now apply W.
  - now apply W.
Qed.

Lemma updateSpinWick_requests_witness :
  exists link installation version pr',
    existsb (fun label => (label =? SpinWick.SetupSpinWick example_config)
                          || (label =? SpinWick.SetupSpinWickHA example_config))
      (Labels example_pr) = true
    /\ outcome (SpinWick.checkBuildLink example_config
                  (SpinWick.update_links
                     (example_update (empty_reply 202)
                        [poll_reading "abc123" "stable" false]))
                  example_pr)
       = Returned (link, None)
    /\ link <> ""
    /\ SpinWick.update_spinmint
         (example_update (empty_reply 202)
            [poll_reading "abc123" "stable" false])
       = SpinWick.Data installation
    /\ SpinWick.update_build
         (example_update (empty_reply 202)
            [poll_reading "abc123" "stable" false])
       = (Some pr', true)
    /\ Builds.getInstallationVersion example_pr = Some version
    /\ (get_installation example_config "abc123"
        = upgrade_request example_config installation version
        \/ get_installation example_config "abc123"
           = get_installation example_config installation
        \/ exists x,
             get_installation example_config "abc123"
             = delete_installation example_config x).
Proof.
  apply (updateSpinWick_requests example_config (fun s => s)
           (example_update (empty_reply 202)
              [poll_reading "abc123" "stable" false])
           example_pr (get_installation example_config "abc123")).
  - vm_compute. repeat (try (left; reflexivity); right).
  - reflexivity.
Defined.

(** ** The image waiter *)

(** X9.  Every lookup of [waitForImage] asks the registry for the image
    [mattermost/mattermost-enterprise-edition] at a tag that is the first
    seven bytes of the hash of a pull request that the store returned in
    that run: the tag follows the stored pull request, not the one the
    waiter was started with. *)
Theorem waitForImage_lookup_tags s polls (pr : PullRequest) (e : Event) :
  In e (trace (Builds.waitForImage s polls pr)) ->
  is_lookup e = true ->
  exists p stored tag,
    In p polls
    /\ Builds.image_stored p = (Some stored, None)
    /\ Builds.getInstallationVersion stored = Some tag
    /\ e = ManifestDigest "mattermost/mattermost-enterprise-edition" tag.
Proof.
  revert pr. induction polls as [|p rest IH]; intros pr HI HL.
  - destruct HI.
  - cbn [Builds.waitForImage] in HI.
    destruct (Builds.image_deadline p); [destruct HI|].
    rewrite bind_emit in HI. cbn [trace fst] in HI.
    destruct HI as [<-|HI]; [discriminate|].
    destruct (Builds.image_stored p) as [[stored|] [err|]] eqn:St;
      try destruct HI.
    destruct (Builds.getInstallationVersion stored) as [tag|] eqn:V;
      [|destruct HI].
    rewrite bind_emit in HI. cbn [trace fst] in HI.
    destruct HI as [<-|HI].
    + exists p, stored, tag. repeat split; auto. now left.
    + destruct (Builds.image_digest p) as [msg|]; [|destruct HI].
      destruct (negb (contains msg "status=404")); [destruct HI|].
      destruct (IH stored HI HL) as (q & st & tg & Hq & H1 & H2 & H3).
      exists q, st, tg. repeat split; auto. now right.
Qed.

Lemma waitForImage_lookup_tags_witness :
  exists p stored tag,
    In p [image_poll (Some registry_404); image_poll None]
    /\ Builds.image_stored p = (Some stored, None)
    /\ Builds.getInstallationVersion stored = Some tag
    /\ ManifestDigest "mattermost/mattermost-enterprise-edition" "3f1c9a2"
       = ManifestDigest "mattermost/mattermost-enterprise-edition" tag.
Proof.
  apply (waitForImage_lookup_tags example_server
           [image_poll (Some registry_404); image_poll None]
           (mkPullRequest "mattermost" "mattermost-server" 13245
              "0000000aaaaaaaaaaaaaaaaaaaaaaaaaaaaaaaaa" [] "" "" "")).
  - vm_compute. repeat (try (left; reflexivity); right).
  - reflexivity.
Defined.

(** X10.  After polls that ended in a not-found answer, a poll at which the
    store returns a pull request whose hash has fewer than seven bytes
    makes [waitForImage] panic, before the registry is asked again. *)
Theorem waitForImage_short_hash_panics
    s pre p rest (pr stored : PullRequest) :
  Forall (fun q => image_retries q = true) pre ->
  Builds.image_deadline p = false ->
  Builds.image_stored p = (Some stored, None) ->
  (String.length (Sha stored) < 7)%nat ->
  outcome (Builds.waitForImage s (pre ++ p :: rest)%list pr) = Panicked
  /\ lookups (trace (Builds.waitForImage s (pre ++ p :: rest)%list pr))
     = List.length pre.
Proof.
  intros Hpre Hd St Hs.
  destruct (waitForImage_retrying_prefix s pre (p :: rest) pr Hpre)
    as (t & pr1 & E & L).
  rewrite E. cbn [trace outcome fst snd].
  cbn [Builds.waitForImage]. rewrite Hd, bind_emit, St.
  unfold Builds.getInstallationVersion.
  apply go_slice_7_none in Hs. rewrite Hs.
  cbn. split; [reflexivity|].
  rewrite lookups_app, L. cbn. lia.
Qed.

Lemma waitForImage_short_hash_panics_witness :
  outcome (Builds.waitForImage example_server
             ([image_poll (Some registry_404)]
                ++ Builds.mkImagePoll false
                     (Some (mkPullRequest "mattermost" "mattermost-server"
                              13245 "3f1c9a" [] "" "" ""), None)
                     None :: [])%list
             example_pr)
  = Panicked.
Proof.
  apply (waitForImage_short_hash_panics example_server
           [image_poll (Some registry_404)]
           (Builds.mkImagePoll false
              (Some (mkPullRequest "mattermost" "mattermost-server"
                       13245 "3f1c9a" [] "" "" ""), None)
              None)
           [] example_pr
           (mkPullRequest "mattermost" "mattermost-server" 13245 "3f1c9a"
              [] "" "" "")).
  - repeat constructor.
  - reflexivity.
  - reflexivity.
  - cbn. lia.
Defined.

(** ** The build waiter *)

Lemma buildDecision_success serverRepoName p (pr : PullRequest) r :
  outcome (Builds.buildDecision serverRepoName p pr)
  = Returned (Some (r, None)) ->
  r = Some pr
  /\ ((RepoName pr = "mattermost-webapp"
       /\ BuildStatus pr = "completed" /\ BuildConclusion pr = "success")
      \/ (RepoName pr <> "mattermost-webapp"
          /\ RepoName pr = serverRepoName
          /\ BuildLink pr <> ""
          /\ Builds.build_job p = None
          /\ exists b,
               Builds.build_build p = (b, None)
               /\ Builds.Building b = false
               /\ Builds.Result b = "SUCCESS")).
Proof.
  unfold Builds.buildDecision.
  destruct (RepoName pr =? "mattermost-webapp") eqn:W.
  - apply String.eqb_eq in W.
    destruct (BuildStatus pr =? "in_progress"); [discriminate|].
    destruct (BuildStatus pr =? "completed") eqn:S; [|discriminate].
    destruct (BuildConclusion pr =? "success") eqn:C; [|discriminate].
    apply String.eqb_eq in S, C. intros [= <-]. auto.
  - apply String.eqb_neq in W.
    destruct (BuildLink pr =? "") eqn:L; [discriminate|].
    apply String.eqb_neq in L.
    unfold Builds.jenkinsDecision.
    destruct (RepoName pr =? serverRepoName) eqn:N; [|discriminate].
    apply String.eqb_eq in N.
    destruct (from_end (Split (BuildLink pr) "/") 3); [|discriminate].
    destruct (from_end (Split (BuildLink pr) "/") 6); [|discriminate].
    destruct (from_end (Split (BuildLink pr) "/") 4); [|discriminate].
    rewrite outcome_bind. cbn [outcome emit snd].
    destruct (Builds.build_job p) as [e|] eqn:J; [discriminate|].
    rewrite outcome_bind. cbn [outcome emit snd].
    destruct (Builds.build_build p) as [b [e|]] eqn:B; [discriminate|].
    destruct (negb (Builds.Building b) && (Builds.Result b =? "SUCCESS"))
      eqn:K.
    + apply andb_prop in K as [K1 K2]. apply negb_true_iff in K1.
      apply String.eqb_eq in K2. intros [= <-].
      split; [reflexivity|]. right. repeat split; auto. exists b. auto.
    + destruct ((Builds.Result b =? "FAILURE")
                || (Builds.Result b =? "ABORTED")); discriminate.
Qed.

(** X11.  [waitForBuild] returns without an error only at a poll whose
    refreshed pull request it also returns, and only for one of two
    reasons: the repository is [mattermost-webapp] and the status is
    [completed] with conclusion [success]; or the repository is the server
    repository, the pull request has a build link, and Jenkins answered
    with a build that is not building and whose result is [SUCCESS].  For
    any other repository it never returns success. *)
Theorem waitForBuild_success_sound
    serverRepoName s polls (pr : PullRequest) r :
  outcome (Builds.waitForBuild serverRepoName s polls pr)
  = Returned (r, None) ->
  exists p refreshed,
    In p polls
    /\ Builds.build_deadline p = false
    /\ Builds.build_checks p = (Some refreshed, None)
    /\ r = Some refreshed
    /\ ((RepoName refreshed = "mattermost-webapp"
         /\ BuildStatus refreshed = "completed"
         /\ BuildConclusion refreshed = "success")
        \/ (RepoName refreshed <> "mattermost-webapp"
            /\ RepoName refreshed = serverRepoName
            /\ BuildLink refreshed <> ""
            /\ Builds.build_job p = None
            /\ exists b,
                 Builds.build_build p = (b, None)
                 /\ Builds.Building b = false
                 /\ Builds.Result b = "SUCCESS")).
Proof.
  revert pr. induction polls as [|p rest IH]; intros pr;
    cbn [Builds.waitForBuild]; [discriminate|].
  destruct (Builds.build_deadline p) eqn:Hd; [discriminate|].
  rewrite bind_emit. cbn [outcome snd].
  destruct (Builds.build_stored p) as [[pr1|] [e|]]; try discriminate.
  rewrite bind_emit. cbn [outcome snd].
  destruct (Builds.build_checks p) as [[pr2|] [e|]] eqn:Ck; try discriminate.
  rewrite outcome_bind.
  destruct (outcome (Builds.buildDecision serverRepoName p pr2))
    as [[[r' e']|]| |] eqn:D; try discriminate.
  - cbn. intros [= <- ->].
    destruct (buildDecision_success _ _ _ _ D) as [-> H].
    exists p, pr2. split; [now left|]. auto.
  - intro H. destruct (IH pr2 H) as (q & rf & Hq & H1 & H2 & H3 & H4).
    exists q, rf. split; [now right|]. auto.
Qed.

Lemma waitForBuild_success_sound_witness :
  exists p refreshed,
    In p [build_poll (with_status webapp_pr "in_progress" "");
          build_poll webapp_pr]
    /\ Builds.build_deadline p = false
    /\ Builds.build_checks p = (Some refreshed, None)
    /\ Some webapp_pr = Some refreshed
    /\ ((RepoName refreshed = "mattermost-webapp"
         /\ BuildStatus refreshed = "completed"
         /\ BuildConclusion refreshed = "success")
        \/ (RepoName refreshed <> "mattermost-webapp"
            /\ RepoName refreshed = "mattermost-server"
            /\ BuildLink refreshed <> ""
            /\ Builds.build_job p = None
            /\ exists b,
                 Builds.build_build p = (b, None)
                 /\ Builds.Building b = false
                 /\ Builds.Result b = "SUCCESS")).
Proof.
  apply (waitForBuild_success_sound "mattermost-server" example_server
           [build_poll (with_status webapp_pr "in_progress" "");
            build_poll webapp_pr]
           webapp_pr (Some webapp_pr)).
  reflexivity.
Defined.

(** *** The Jenkins job of a build link *)

Lemma split_on_app (x y cur : string) :
  split_on "/" (x ++ String "/" y) cur
  = (split_on "/" x cur ++ split_on "/" y "")%list.
Proof.
  revert cur. induction x as [|c x IH]; intro cur; cbn [append split_on].
  - rewrite Ascii.eqb_refl. reflexivity.
  - destruct (Ascii.eqb c "/"); cbn [List.app]; now rewrite IH.
Qed.

Lemma split_on_no_slash (x cur : string) :
  no_slash x = true -> split_on "/" x cur = [cur ++ x].
Proof.
  revert cur. induction x as [|c x IH]; intros cur H; cbn [split_on].
  - f_equal. induction cur; cbn; [reflexivity | now f_equal].
  - cbn [no_slash] in H. apply andb_prop in H as [Hc Hx].
    apply negb_true_iff in Hc. rewrite Hc, IH by exact Hx.
    f_equal. induction cur; cbn; [reflexivity | now f_equal].
Qed.

Lemma Split_segment (x seg : string) :
  no_slash seg = true ->
  Split (x ++ String "/" seg) "/" = (Split x "/" ++ [seg])%list.
Proof.
  intro H. unfold Split. rewrite split_on_app.
  now rewrite (split_on_no_slash seg "" H).
Qed.

Lemma from_end_app (l tail : list string) (k : nat) :
  (1 <= k <= List.length tail)%nat ->
  from_end (l ++ tail) k = nth_error tail (List.length tail - k).
Proof.
  intro H. unfold from_end. rewrite length_app.
  replace ((k <=? List.length l + List.length tail)%nat) with true
    by (symmetry; apply Nat.leb_le; lia).
  replace ((1 <=? k)%nat) with true by (symmetry; apply Nat.leb_le; lia).
  cbn [andb]. rewrite nth_error_app2 by lia. f_equal. lia.
Qed.

Lemma In_trace_bind {A B} (e : Event) (m : M A) (k : A -> M B) :
  In e (trace m) -> In e (trace (bind m k)).
Proof.
  intro H. rewrite trace_bind.
  destruct (outcome m); auto. apply in_or_app. now left.
Qed.

(** The segments of a link that ends in six segments without [/]. *)
Lemma link_segments (link base job x sub number y z : string) :
  link = base ++ "/" ++ job ++ "/" ++ x ++ "/" ++ sub ++ "/" ++ number
         ++ "/" ++ y ++ "/" ++ z ->
  no_slash job = true -> no_slash x = true -> no_slash sub = true ->
  no_slash number = true -> no_slash y = true -> no_slash z = true ->
  Split link "/" = (Split base "/" ++ [job; x; sub; number; y; z])%list.
Proof.
  intros L Hj Hx Hs Hn Hy Hz.
  rewrite L. cbn [append].
  replace (base ++ String "/" (job ++ String "/" (x ++ String "/"
             (sub ++ String "/" (number ++ String "/"
                (y ++ String "/" z))))))
    with ((((((base ++ String "/" job) ++ String "/" x) ++ String "/" sub)
             ++ String "/" number) ++ String "/" y) ++ String "/" z).
  - rewrite !Split_segment by assumption.
    rewrite <- !app_assoc. reflexivity.
  - assert (A : forall a b c, (a ++ b) ++ c = a ++ (b ++ c))
      by (intros a b c; induction a; cbn; [reflexivity | now f_equal]).
    rewrite !A. reflexivity.
Qed.

(** What a poll for the server repository asks of Jenkins, from the
    segments of the link. *)
Lemma waitForBuild_asks_jenkins
    serverRepoName s p rest (pr pr1 pr2 : PullRequest)
    (segments : list string) (job x sub number y z : string) :
  Builds.build_deadline p = false ->
  Builds.build_stored p = (Some pr1, None) ->
  Builds.build_checks p = (Some pr2, None) ->
  RepoName pr2 <> "mattermost-webapp" ->
  RepoName pr2 = serverRepoName ->
  Split (BuildLink pr2) "/"
  = (segments ++ [job; x; sub; number; y; z])%list ->
  In (JenkinsGetJob ("mp/job/" ++ job ++ "/job/" ++ sub))
     (trace (Builds.waitForBuild serverRepoName s (p :: rest) pr))
  /\ (Builds.build_job p = None ->
      In (JenkinsGetBuild ("mp/job/" ++ job ++ "/job/" ++ sub)
            (ParseInt32 number))
         (trace (Builds.waitForBuild serverRepoName s (p :: rest) pr))).
Proof.
  intros Hd St Ck W N P.
  assert (NE : (BuildLink pr2 =? "") = false).
  { apply String.eqb_neq. intro E. rewrite E in P.
    apply (f_equal (@List.length string)) in P.
    rewrite length_app in P. cbn in P. lia. }
  cbn [Builds.waitForBuild]. rewrite Hd, bind_emit, St, bind_emit, Ck.
  unfold Builds.buildDecision, Builds.jenkinsDecision.
  apply String.eqb_neq in W. rewrite W, NE, P.
  apply String.eqb_eq in N. rewrite N.
  rewrite !from_end_app by (cbn; lia).
  cbn [List.length Nat.sub nth_error].
  cbn [trace fst].
  split.
  - right. right. apply In_trace_bind. rewrite bind_emit. now left.
  - intro J. right. right. apply In_trace_bind. rewrite bind_emit, J.
    right. rewrite bind_emit. now left.
Qed.

(** X12.  For the server repository, and a build link that ends in the six
    segments [<job>/<x>/<sub>/<number>/<y>/<z>], a poll of [waitForBuild]
    asks Jenkins for the job [mp/job/<job>/job/<sub>] and, when Jenkins
    knows the job, for its build [<number>], read as a 32-bit decimal. *)
Theorem waitForBuild_jenkins_job
    serverRepoName s p rest (pr pr1 pr2 : PullRequest)
    (base job x sub number y z : string) :
  Builds.build_deadline p = false ->
  Builds.build_stored p = (Some pr1, None) ->
  Builds.build_checks p = (Some pr2, None) ->
  RepoName pr2 <> "mattermost-webapp" ->
  RepoName pr2 = serverRepoName ->
  BuildLink pr2
  = base ++ "/" ++ job ++ "/" ++ x ++ "/" ++ sub ++ "/" ++ number
    ++ "/" ++ y ++ "/" ++ z ->
  no_slash job = true -> no_slash x = true -> no_slash sub = true ->
  no_slash number = true -> no_slash y = true -> no_slash z = true ->
  In (JenkinsGetJob ("mp/job/" ++ job ++ "/job/" ++ sub))
     (trace (Builds.waitForBuild serverRepoName s (p :: rest) pr))
  /\ (Builds.build_job p = None ->
      In (JenkinsGetBuild ("mp/job/" ++ job ++ "/job/" ++ sub)
            (ParseInt32 number))
         (trace (Builds.waitForBuild serverRepoName s (p :: rest) pr))).
Proof.
  intros Hd St Ck W N L Hj Hx Hs Hn Hy Hz.
  apply (waitForBuild_asks_jenkins serverRepoName s p rest pr pr1 pr2
           (Split base "/") job x sub number y z Hd St Ck W N).
  now apply (link_segments _ base).
Qed.

Lemma waitForBuild_jenkins_job_witness :
  In (JenkinsGetBuild "mp/job/mattermost-server/job/PR-13245" 7)
     (trace (Builds.waitForBuild "mattermost-server" example_server
               (Builds.mkBuildPoll false (Some example_pr, None)
                  (Some (SpinWick.withBuildLink example_pr jenkins_link), None)
                  None (Builds.mkJenkinsBuild 7 true "", None) :: [])
               example_pr)).
Proof.
  apply (waitForBuild_jenkins_job "mattermost-server" example_server
           (Builds.mkBuildPoll false (Some example_pr, None)
              (Some (SpinWick.withBuildLink example_pr jenkins_link), None)
              None (Builds.mkJenkinsBuild 7 true "", None))
           [] example_pr example_pr
           (SpinWick.withBuildLink example_pr jenkins_link)
           "https://build.example.com/job/mp/job" "mattermost-server" "job"
           "PR-13245" "7" "display" "redirect");
    reflexivity || discriminate.
Defined.

(** X13.  For the server repository, a build link with fewer than six
    segments makes the poll panic (the index is out of range) before
    Jenkins is asked. *)
Theorem waitForBuild_short_link_panics
    serverRepoName s p rest (pr pr1 pr2 : PullRequest) :
  Builds.build_deadline p = false ->
  Builds.build_stored p = (Some pr1, None) ->
  Builds.build_checks p = (Some pr2, None) ->
  RepoName pr2 <> "mattermost-webapp" ->
  RepoName pr2 = serverRepoName ->
  BuildLink pr2 <> "" ->
  (List.length (Split (BuildLink pr2) "/") < 6)%nat ->
  Builds.waitForBuild serverRepoName s (p :: rest) pr
  = ([GetPullRequest (RepoOwner pr) (RepoName pr) (Number pr);
      UpdateChecks (RepoOwner pr1) (RepoName pr1) (Number pr1)],
     Panicked).
Proof.
  intros Hd St Ck W N L H.
  cbn [Builds.waitForBuild]. rewrite Hd, bind_emit, St, bind_emit, Ck.
  unfold Builds.buildDecision, Builds.jenkinsDecision.
  apply String.eqb_neq in W, L. rewrite W, L.
  apply String.eqb_eq in N. rewrite N.
  assert (E : from_end (Split (BuildLink pr2) "/") 6 = None).
  { unfold from_end.
    replace ((6 <=? List.length (Split (BuildLink pr2) "/"))%nat) with false
      by (symmetry; apply Nat.leb_gt; exact H).
    reflexivity. }
  rewrite E.
  destruct (from_end (Split (BuildLink pr2) "/") 3); reflexivity.
Qed.

Lemma waitForBuild_short_link_panics_witness :
  outcome (Builds.waitForBuild "mattermost-server" example_server
             (Builds.mkBuildPoll false (Some example_pr, None)
                (Some (SpinWick.withBuildLink example_pr
                         "https://build.example.com/7"), None)
                None (Builds.mkJenkinsBuild 7 false "SUCCESS", None) :: [])
             example_pr)
  = Panicked.
Proof.
  rewrite (waitForBuild_short_link_panics "mattermost-server" example_server
             (Builds.mkBuildPoll false (Some example_pr, None)
                (Some (SpinWick.withBuildLink example_pr
                         "https://build.example.com/7"), None)
                None (Builds.mkJenkinsBuild 7 false "SUCCESS", None))
             [] example_pr example_pr
             (SpinWick.withBuildLink example_pr "https://build.example.com/7")).
  - reflexivity.
  - reflexivity.
  - reflexivity.
  - reflexivity.
  - discriminate.
  - reflexivity.
  - discriminate.
  - cbn. lia.
Defined.

(** *** The build number *)

Lemma eval_uint_ge (d : Decimal.uint) (acc : Z) :
  (0 <= acc -> acc <= eval_uint d acc)%Z.
Proof.
  revert acc. induction d; intros acc H; cbn [eval_uint]; [lia | ..];
    (etransitivity; [|apply IHd; lia]); lia.
Qed.

Lemma ParseUint_digits_step (c : ascii) (r : string) (n k : Z) :
  digit_of c = Some k ->
  (0 <= k <= 9)%Z ->
  (0 <= n <= maxVal32)%Z ->
  ParseUint_digits (String c r) n
  = if (10 * n + k >? maxVal32)%Z then (maxVal32, Some ErrRange)
    else ParseUint_digits r (10 * n + k)%Z.
Proof.
  unfold maxVal32. intros E K N. cbn [ParseUint_digits]. rewrite E.
  unfold maxUint64, maxVal32.
  change (18446744073709551615 / 10 + 1)%Z with 1844674407370955162%Z.
  change (2 ^ 64)%Z with 18446744073709551616%Z.
  destruct (Z.geb_spec n 1844674407370955162); [lia|].
  rewrite (Z.mod_small (n * 10)) by lia.
  rewrite (Z.mod_small (n * 10 + k)) by lia.
  replace (n * 10 + k)%Z with (10 * n + k)%Z by lia.
  destruct (Z.ltb_spec (10 * n + k) (n * 10)); [lia|].
  reflexivity.
Qed.

(** The digits that [%d] prints are read back by the loop of [ParseUint],
    up to [maxVal]. *)
Lemma ParseUint_digits_string_of_uint (d : Decimal.uint) (n : Z) :
  (0 <= n <= maxVal32)%Z ->
  ParseUint_digits (NilEmpty.string_of_uint d) n
  = if (eval_uint d n <=? maxVal32)%Z then (eval_uint d n, None)
    else (maxVal32, Some ErrRange).
Proof.
  assert (S : forall d' c k m,
             (forall n', (0 <= n' <= maxVal32)%Z ->
                ParseUint_digits (NilEmpty.string_of_uint d') n'
                = if (eval_uint d' n' <=? maxVal32)%Z
                  then (eval_uint d' n', None)
                  else (maxVal32, Some ErrRange)) ->
             digit_of c = Some k -> (0 <= k <= 9)%Z ->
             (0 <= m <= maxVal32)%Z ->
             ParseUint_digits (String c (NilEmpty.string_of_uint d')) m
             = if (eval_uint d' (10 * m + k) <=? maxVal32)%Z
               then (eval_uint d' (10 * m + k), None)
               else (maxVal32, Some ErrRange)).
  { intros d' c k m IH E K M.
    rewrite (ParseUint_digits_step c _ m k E K M).
    pose proof (eval_uint_ge d' (10 * m + k)) as G.
    destruct (Z.gtb_spec (10 * m + k) maxVal32) as [Hgt|Hle].
    - destruct (Z.leb_spec (eval_uint d' (10 * m + k)) maxVal32);
        [lia | reflexivity].
    - apply IH. lia. }
  revert n.
  induction d; intros n N; cbn [NilEmpty.string_of_uint eval_uint].
  - destruct (Z.leb_spec n maxVal32); [reflexivity | lia].
  - replace (10 * n)%Z with (10 * n + 0)%Z by lia.
    apply (S d "0"%char 0%Z n IHd eq_refl); lia.
  - apply (S d "1"%char 1%Z n IHd eq_refl); lia.
  - apply (S d "2"%char 2%Z n IHd eq_refl); lia.
  - apply (S d "3"%char 3%Z n IHd eq_refl); lia.
  - apply (S d "4"%char 4%Z n IHd eq_refl); lia.
  - apply (S d "5"%char 5%Z n IHd eq_refl); lia.
  - apply (S d "6"%char 6%Z n IHd eq_refl); lia.
  - apply (S d "7"%char 7%Z n IHd eq_refl); lia.
  - apply (S d "8"%char 8%Z n IHd eq_refl); lia.
  - apply (S d "9"%char 9%Z n IHd eq_refl); lia.
Qed.

Lemma eval_uint_acc (d : Decimal.uint) (acc : positive) :
  eval_uint d (Z.pos acc) = Z.pos (Pos.of_uint_acc d acc).
Proof.
  revert acc. induction d; intro acc; cbn [eval_uint Pos.of_uint_acc];
    [reflexivity | ..];
    match goal with
    | |- eval_uint _ ?a = Z.pos (Pos.of_uint_acc _ ?b) =>
        replace a with (Z.pos b) by lia; apply IHd
    end.
Qed.

Lemma eval_uint_of_uint (d : Decimal.uint) :
  eval_uint d 0 = Z.of_uint d.
Proof.
  unfold Z.of_uint.
  induction d; cbn [eval_uint Pos.of_uint]; try reflexivity;
    try exact IHd;
    match goal with
    | |- eval_uint _ ?a = _ =>
        change a with (Z.pos (Z.to_pos a)); rewrite eval_uint_acc; reflexivity
    end.
Qed.

Lemma to_uint_not_Nil (p : positive) : Pos.to_uint p <> Nil.
Proof.
  intro E. pose proof (DecimalPos.Unsigned.of_to p) as OT.
  rewrite E in OT. discriminate OT.
Qed.

(** What [ParseUint] returns for the digits of a positive number. *)
Lemma ParseUint32_to_uint (p : positive) :
  ParseUint32 (NilEmpty.string_of_uint (Pos.to_uint p))
  = if (Z.pos p <=? maxVal32)%Z then (Z.pos p, None)
    else (maxVal32, Some ErrRange).
Proof.
  pose proof (ParseUint_digits_string_of_uint (Pos.to_uint p) 0) as PD.
  rewrite eval_uint_of_uint in PD. unfold Z.of_uint in PD.
  rewrite DecimalPos.Unsigned.of_to in PD. cbn [Z.of_N] in PD.
  pose proof (to_uint_not_Nil p) as N.
  unfold ParseUint32.
  destruct (Pos.to_uint p); [congruence | ..];
    cbn [NilEmpty.string_of_uint] in *; apply PD; unfold maxVal32; lia.
Qed.

(** Settles a goal made of comparisons of integers. *)
Ltac by_comparisons :=
  repeat match goal with
         | |- context [Z.geb ?a ?b] => destruct (Z.geb_spec a b)
         | |- context [Z.gtb ?a ?b] => destruct (Z.gtb_spec a b)
         | |- context [Z.ltb ?a ?b] => destruct (Z.ltb_spec a b)
         | |- context [Z.leb ?a ?b] => destruct (Z.leb_spec a b)
         end;
  cbn [fst snd negb andb]; lia.

(** The number that [%d] prints is read back by [ParseInt], brought to the
    nearest bound when 32 bits do not hold it. *)
Lemma ParseInt32_of_itoa (n : Z) : ParseInt32 (itoa n) = clamp32 n.
Proof.
  unfold itoa, NilZero.string_of_int, NilZero.string_of_uint.
  destruct n as [|p|p]; cbn [Z.to_int]; [reflexivity | |].
  - pose proof (ParseUint32_to_uint p) as PU.
    pose proof (to_uint_not_Nil p) as N.
    unfold ParseInt32, ParseInt, clamp32.
    destruct (Pos.to_uint p); [congruence | ..];
      cbn [NilEmpty.string_of_uint] in *;
      cbn [Ascii.eqb Bool.eqb andb]; rewrite PU; unfold maxVal32;
      destruct (Z.leb_spec (Z.pos p) 4294967295); cbn [fst snd negb andb];
      by_comparisons.
  - pose proof (ParseUint32_to_uint p) as PU.
    pose proof (to_uint_not_Nil p) as N.
    unfold ParseInt32, ParseInt, clamp32.
    cbn [Ascii.eqb Bool.eqb andb].
    destruct (Pos.to_uint p); [congruence | ..];
      cbn [NilEmpty.string_of_uint] in *;
      rewrite PU; unfold maxVal32;
      destruct (Z.leb_spec (Z.pos p) 4294967295); cbn [fst snd negb andb];
      by_comparisons.
Qed.

Lemma no_slash_string_of_uint (d : Decimal.uint) :
  no_slash (NilEmpty.string_of_uint d) = true.
Proof. induction d; cbn [NilEmpty.string_of_uint no_slash]; auto. Qed.

Lemma no_slash_itoa (n : Z) : no_slash (itoa n) = true.
Proof.
  unfold itoa, NilZero.string_of_int, NilZero.string_of_uint.
  destruct (Z.to_int n) as [d|d]; destruct d;
    cbn [NilEmpty.string_of_uint no_slash Ascii.eqb Bool.eqb negb andb];
    auto using no_slash_string_of_uint.
Qed.

(** The parser at its edges: a byte that is no digit gives 0, unless the
    digits before it have already left the 32 bits. *)
Example ParseInt32_edges :
  ParseInt32 "7" = 7%Z
  /\ ParseInt32 "-5" = (-5)%Z
  /\ ParseInt32 "" = 0%Z
  /\ ParseInt32 "+" = 0%Z
  /\ ParseInt32 "12x" = 0%Z
  /\ ParseInt32 "2147483648" = 2147483647%Z
  /\ ParseInt32 "-2147483649" = (-2147483648)%Z
  /\ ParseInt32 "99999999999x" = 2147483647%Z
  /\ ParseInt32 "-99999999999x" = (-2147483648)%Z.
Proof. repeat split; reflexivity. Qed.

(** X14.  For the server repository, and a build link whose six last
    segments are [<job>/<x>/<sub>/<n>/<y>/<z>] with [<n>] a number printed
    in decimal, a poll of [waitForBuild] that finds the job asks Jenkins
    for the build of that number, brought to the nearest bound when 32
    bits do not hold it. *)
Theorem waitForBuild_build_number
    serverRepoName s p rest (pr pr1 pr2 : PullRequest)
    (base job x sub y z : string) (n : Z) :
  Builds.build_deadline p = false ->
  Builds.build_stored p = (Some pr1, None) ->
  Builds.build_checks p = (Some pr2, None) ->
  RepoName pr2 <> "mattermost-webapp" ->
  RepoName pr2 = serverRepoName ->
  BuildLink pr2
  = base ++ "/" ++ job ++ "/" ++ x ++ "/" ++ sub ++ "/" ++ itoa n
    ++ "/" ++ y ++ "/" ++ z ->
  no_slash job = true -> no_slash x = true -> no_slash sub = true ->
  no_slash y = true -> no_slash z = true ->
  Builds.build_job p = None ->
  In (JenkinsGetBuild ("mp/job/" ++ job ++ "/job/" ++ sub) (clamp32 n))
     (trace (Builds.waitForBuild serverRepoName s (p :: rest) pr)).
Proof.
  intros Hd St Ck W N L Hj Hx Hs Hy Hz J.
  rewrite <- ParseInt32_of_itoa.
  apply (waitForBuild_asks_jenkins serverRepoName s p rest pr pr1 pr2
           (Split base "/") job x sub (itoa n) y z Hd St Ck W N);
    [|exact J].
  apply (link_segments _ base); auto using no_slash_itoa.
Qed.

Lemma waitForBuild_build_number_witness :
  In (JenkinsGetBuild "mp/job/mattermost-server/job/PR-13245"
        (clamp32 4294967303))
     (trace (Builds.waitForBuild "mattermost-server" example_server
               (Builds.mkBuildPoll false (Some example_pr, None)
                  (Some (SpinWick.withBuildLink example_pr
                           "https://build.example.com/job/mp/job/mattermost-server/job/PR-13245/4294967303/display/redirect"),
                   None)
                  None (Builds.mkJenkinsBuild 7 true "", None) :: [])
               example_pr)).
Proof.
  apply (waitForBuild_build_number "mattermost-server" example_server
           (Builds.mkBuildPoll false (Some example_pr, None)
              (Some (SpinWick.withBuildLink example_pr
                       "https://build.example.com/job/mp/job/mattermost-server/job/PR-13245/4294967303/display/redirect"),
               None)
              None (Builds.mkJenkinsBuild 7 true "", None))
           [] example_pr example_pr
           (SpinWick.withBuildLink example_pr
              "https://build.example.com/job/mp/job/mattermost-server/job/PR-13245/4294967303/display/redirect")
           "https://build.example.com/job/mp/job" "mattermost-server" "job"
           "PR-13245" "display" "redirect" 4294967303);
    reflexivity || discriminate.
Defined.

(** ** The build link *)

Lemma scanStatuses_found repo statuses u :
  Builds.scanStatuses repo statuses = Returned (Some u) ->
  exists r st, repo = Some r /\ In st statuses
    /\ Builds.Context st = Some (BuildStatusContext r)
    /\ Builds.TargetURL st = Some u /\ u <> "".
Proof.
  induction statuses as [|st rest IH]; cbn [Builds.scanStatuses];
    [discriminate|].
  intro H.
  assert (K : Builds.scanStatuses repo rest = Returned (Some u) ->
              exists r st', repo = Some r /\ In st' (st :: rest)
                /\ Builds.Context st' = Some (BuildStatusContext r)
                /\ Builds.TargetURL st' = Some u /\ u <> "").
  { intro R. destruct (IH R) as (r & st' & A & B & C).
    exists r, st'. split; [exact A|]. split; [now right | exact C]. }
  destruct (Builds.Context st) as [c|] eqn:C; [|discriminate].
  destruct repo as [r|]; [|discriminate].
  destruct (c =? BuildStatusContext r) eqn:E; [|exact (K H)].
  destruct (Builds.TargetURL st) as [v|] eqn:T; [|discriminate].
  destruct (v =? "") eqn:V; cbn [negb] in H; [exact (K H)|].
  injection H as ->. apply String.eqb_eq in E. subst c.
  exists r, st. split; [reflexivity|]. split; [now left|].
  split; [exact C|]. split; [exact T|]. now apply String.eqb_neq.
Qed.

Lemma scanCheckRuns_found repo checks u :
  Builds.scanCheckRuns repo checks = Returned (Some u) ->
  exists r c, repo = Some r /\ In c checks
    /\ Builds.check_Name c = Some (BuildStatusContext r)
    /\ u = Builds.GetHTMLURL c.
Proof.
  induction checks as [|c rest IH]; cbn [Builds.scanCheckRuns];
    [discriminate|].
  intro H.
  destruct (Builds.check_Name c) as [n|] eqn:C; [|discriminate].
  destruct repo as [r|]; [|discriminate].
  destruct (n =? BuildStatusContext r) eqn:E.
  - injection H as <-. apply String.eqb_eq in E. subst n.
    exists r, c. split; [reflexivity|]. split; [now left|]. now split.
  - destruct (IH H) as (r' & c' & A & B & D).
    exists r', c'. split; [exact A|]. split; [now right | exact D].
Qed.

(** X15.  A link that [checkBuildLink] returns without error was read in
    one of the polls: it is the non-empty target of a status that carries
    the configured context, or the page of a check run with that name
    (which may be empty).  The loop of builds.go and of spinwick.go. *)
Theorem checkBuildLink_link_sound repo polls (pr : PullRequest) link :
  outcome (Builds.checkBuildLink_loop repo polls pr) = Returned (link, None) ->
  exists r p, repo = Some r /\ In p polls
    /\ snd (Builds.link_statuses p) = None
    /\ ((exists st, In st (fst (Builds.link_statuses p))
           /\ Builds.Context st = Some (BuildStatusContext r)
           /\ Builds.TargetURL st = Some link /\ link <> "")
        \/ (snd (Builds.link_checks p) = None
            /\ exists c, In c (fst (Builds.link_checks p))
                 /\ Builds.check_Name c = Some (BuildStatusContext r)
                 /\ link = Builds.GetHTMLURL c)).
Proof.
  induction polls as [|p rest IH]; cbn [Builds.checkBuildLink_loop];
    [discriminate|].
  rewrite bind_emit. cbn [outcome snd].
  destruct (Builds.link_statuses p) as [statuses [e|]] eqn:Ls;
    [discriminate|].
  destruct (Builds.scanStatuses repo statuses) as [[u|]| |] eqn:S;
    try discriminate.
  - cbn. intro H. injection H as ->.
    destruct (scanStatuses_found _ _ _ S) as (r & st & A & B & C).
    exists r, p. split; [exact A|]. split; [now left|].
    rewrite Ls. split; [reflexivity|]. left. exists st. now split.
  - change (lift (Returned (@None string))) with (ret (@None string)).
    rewrite bind_ret, bind_emit. cbn [snd].
    destruct (Builds.link_checks p) as [checks [e|]] eqn:Lc;
      [discriminate|].
    destruct (Builds.scanCheckRuns repo checks) as [[u|]| |] eqn:Sc;
      try discriminate.
    + cbn. intro H. injection H as ->.
      destruct (scanCheckRuns_found _ _ _ Sc) as (r & c & A & B & C).
      exists r, p. split; [exact A|]. split; [now left|].
      rewrite Ls, Lc. split; [reflexivity|]. right.
      split; [reflexivity|]. exists c. now split.
    + change (lift (Returned (@None string))) with (ret (@None string)).
      rewrite bind_ret.
      destruct (Builds.link_deadline p); [discriminate|].
      intro H. destruct (IH H) as (r & q & A & B & C).
      exists r, q. split; [exact A|]. split; [now right | exact C].
Qed.

Lemma checkBuildLink_link_sound_witness :
  exists r p,
    GetRepository (Builds.Repositories example_server)
      (RepoOwner example_pr) (RepoName example_pr) = Some r
    /\ In p (SpinWick.update_links (example_update (empty_reply 202) []))
    /\ snd (Builds.link_statuses p) = None
    /\ ((exists st, In st (fst (Builds.link_statuses p))
           /\ Builds.Context st = Some (BuildStatusContext r)
           /\ Builds.TargetURL st = Some jenkins_link
           /\ jenkins_link <> "")
        \/ (snd (Builds.link_checks p) = None
            /\ exists c, In c (fst (Builds.link_checks p))
                 /\ Builds.check_Name c = Some (BuildStatusContext r)
                 /\ jenkins_link = Builds.GetHTMLURL c)).
Proof.
  apply (checkBuildLink_link_sound
           (GetRepository (Builds.Repositories example_server)
              (RepoOwner example_pr) (RepoName example_pr))
           (SpinWick.update_links (example_update (empty_reply 202) []))
           example_pr jenkins_link).
  reflexivity.
Defined.

(** X16.  [checkBuildLink] posts its timeout comment exactly when it returns
    the timeout error, and whenever it returns an error the link is
    empty: a failed GitHub call is handed back without a comment. *)
Theorem checkBuildLink_timeout_comment repo polls (pr : PullRequest) link err :
  outcome (Builds.checkBuildLink_loop repo polls pr) = Returned (link, err) ->
  (In (timeout_comment pr) (trace (Builds.checkBuildLink_loop repo polls pr))
   <-> err = Some (New "timed out waiting the build link"))
  /\ (err <> None -> link = "").
Proof.
  unfold timeout_comment.
  induction polls as [|p rest IH]; cbn [Builds.checkBuildLink_loop];
    [discriminate|].
  rewrite bind_emit. cbn [outcome trace fst snd].
  destruct (Builds.link_statuses p) as [statuses [e|]].
  { cbn. intro H. injection H as <- <-.
    split; [|reflexivity]. split; [intros [F|[]]|]; discriminate. }
  destruct (Builds.scanStatuses repo statuses) as [[u|]| |];
    try discriminate.
  { cbn. intro H. injection H as <- <-.
    split; [|congruence]. split; [intros [F|[]]|]; discriminate. }
  change (lift (Returned (@None string))) with (ret (@None string)).
  rewrite bind_ret, bind_emit. cbn [outcome trace fst snd].
  destruct (Builds.link_checks p) as [checks [e|]].
  { cbn. intro H. injection H as <- <-.
    split; [|reflexivity].
    split; [intros [F|[F|[]]]|]; discriminate. }
  destruct (Builds.scanCheckRuns repo checks) as [[u|]| |];
    try discriminate.
  { cbn. intro H. injection H as <- <-.
    split; [|congruence].
    split; [intros [F|[F|[]]]|]; discriminate. }
  change (lift (Returned (@None string))) with (ret (@None string)).
  rewrite bind_ret.
  destruct (Builds.link_deadline p).
  - cbn. intro H. injection H as <- <-.
    split; [|reflexivity]. split; [reflexivity | auto].
  - intro H. destruct (IH H) as [[A B] C].
    split; [|exact C]. split.
    + intros [F|[F|F]]; [discriminate | discriminate | exact (A F)].
    + intro E. right. right. exact (B E).
Qed.

Lemma checkBuildLink_timeout_comment_witness :
  (In (timeout_comment example_pr)
      (trace (Builds.checkBuildLink example_server
                [Builds.mkLinkPoll ([], None) ([], None) false;
                 Builds.mkLinkPoll ([], None) ([], None) true]
                example_pr))
   <-> Some (New "timed out waiting the build link")
       = Some (New "timed out waiting the build link"))
  /\ (Some (New "timed out waiting the build link") <> None -> "" = "").
Proof.
  apply (checkBuildLink_timeout_comment
           (GetRepository (Builds.Repositories example_server)
              (RepoOwner example_pr) (RepoName example_pr))
           [Builds.mkLinkPoll ([], None) ([], None) false;
            Builds.mkLinkPoll ([], None) ([], None) true]
           example_pr "" (Some (New "timed out waiting the build link"))).
  reflexivity.
Defined.

(** ** Setting up after the build *)



Lemma In_map_Did (e : Event) (l : list Event) :
  In (SpinWick.Did e) (map SpinWick.Did l) -> In e l.
Proof.
  intro H. apply in_map_iff in H as (x & E & I). now injection E as <-.
Qed.

Lemma StoreSpinmintInfo_not_Did id o n k (l : list Event) :
  In (SpinWick.StoreSpinmintInfo id o n k) (map SpinWick.Did l) -> False.
Proof.
  intro H. apply in_map_iff in H as (x & E & _). discriminate E.
Qed.

(** X18.  [waitForBuildAndSetupSpinWick] saves a record exactly when the
    build wait returned nil, the store held no record and [createSpinWick]
    returned without error; the record then carries the returned id and
    the pull request.  A request to the provisioning server is sent only
    after a successful build wait with no record in the store. *)
Theorem waitForBuildAndSetupSpinWick_record
    Config lower script (pr : PullRequest) (size : string) :
  (forall id o n k,
     In (SpinWick.StoreSpinmintInfo id o n k)
        (fst (SpinWick.waitForBuildAndSetupSpinWick Config lower script pr
                size))
     <-> outcome (SpinWick.waitForBuildComplete Config
                    (SpinWick.setup_build script) pr) = Returned None
         /\ SpinWick.setup_spinmint script = SpinWick.NoData
         /\ outcome (SpinWick.createSpinWick Config lower
                       (SpinWick.setup_create script) pr size)
            = Returned (id, None)
         /\ o = RepoOwner pr /\ n = RepoName pr /\ k = Number pr)
  /\ (forall e,
        In (SpinWick.Did e)
           (fst (SpinWick.waitForBuildAndSetupSpinWick Config lower script
                   pr size)) ->
        is_request e = true ->
        outcome (SpinWick.waitForBuildComplete Config
                   (SpinWick.setup_build script) pr) = Returned None
        /\ SpinWick.setup_spinmint script = SpinWick.NoData).
Proof.
  pose proof (waitForBuildComplete_no_request Config
                (SpinWick.setup_build script) pr) as NR.
  assert (NB : forall e,
             In (SpinWick.Did e)
                (map SpinWick.Did
                   (trace (SpinWick.waitForBuildComplete Config
                             (SpinWick.setup_build script) pr))) ->
             is_request e = true -> False).
  { intros e I R. apply In_map_Did in I.
    exact (not_request_In _ _ NR I R). }
  unfold SpinWick.waitForBuildAndSetupSpinWick, SpinWick.storeSpinmintInfo.
  destruct (outcome (SpinWick.waitForBuildComplete Config
                       (SpinWick.setup_build script) pr))
    as [[err|]| |] eqn:B; cbv zeta; cbn [fst].
  1,3,4: split;
    [ intros id o n k; split;
      [ intro I; destruct (StoreSpinmintInfo_not_Did _ _ _ _ _ I)
      | intros (F & _); discriminate F ]
    | intros e I R; destruct (NB e I R) ].
  destruct (SpinWick.setup_spinmint script) eqn:N; cbn [fst].
  1,3: split;
    [ intros id o n k; split;
      [ rewrite ?in_app_iff; cbn [In]; intros I;
        repeat (destruct I as [I|I]); try discriminate I; try contradiction;
        destruct (StoreSpinmintInfo_not_Did _ _ _ _ _ I)
      | intros (_ & F & _); discriminate F ]
    | intros e; rewrite ?in_app_iff; cbn [In]; intros I R;
      repeat (destruct I as [I|I]); try contradiction;
      try (destruct (NB e I R));
      injection I as <-; discriminate R ].
  destruct (outcome (SpinWick.createSpinWick Config lower
                       (SpinWick.setup_create script) pr size))
    as [[id' [err'|]]| |] eqn:C; cbn [fst].
  all: split; [|intros; split; reflexivity].
  all: intros id o n k; rewrite ?in_app_iff; cbn [In]; split.
  all: try (intros (_ & _ & F & _); discriminate F).
  all: try (intro I; repeat (destruct I as [I|I]); try discriminate I;
            try contradiction;
            try (destruct (StoreSpinmintInfo_not_Did _ _ _ _ _ I); fail)).
  - injection I as <- <- <- <-. repeat split; reflexivity.
  - destruct I as (_ & _ & F & -> & -> & ->). injection F as ->.
    right. now left.
Qed.

(** ** The identifier of a pull request *)

Lemma itoa_inj (m n : Z) : itoa m = itoa n -> m = n.
Proof.
  assert (P : forall z, NilZero.int_of_string (itoa z) = Some (Z.to_int z)).
  { intro z. unfold itoa. apply NilZero.isi.
    - destruct z as [|p|p]; cbn [Z.to_int]; try discriminate.
      intro E. injection E as E. exact (to_uint_not_Nil p E).
    - destruct z as [|p|p]; cbn [Z.to_int]; try discriminate.
      intro E. injection E as E. exact (to_uint_not_Nil p E). }
  intro E. apply DecimalZ.to_int_inj.
  pose proof (P m) as Pm. rewrite E, P in Pm. now injection Pm.
Qed.

Lemma append_cancel_l (a x y : string) : a ++ x = a ++ y -> x = y.
Proof.
  induction a as [|c a IH]; cbn [append]; intro H; [exact H|].
  injection H as H. exact (IH H).
Qed.

(** X19.  For repository names in ASCII that differ at most in the case of
    their letters, [makePullRequestID] gives the same identifier exactly
    for the same pull request number. *)
Theorem makePullRequestID_same_iff lower (a b : string) (m n : Z) :
  isASCII a = true ->
  isASCII b = true ->
  map_bytes lower_byte a = map_bytes lower_byte b ->
  (SpinWick.makePullRequestID lower a m = SpinWick.makePullRequestID lower b n
   <-> m = n).
Proof.
  intros A B E.
  rewrite !makePullRequestID_ascii by assumption. rewrite E.
  split.
  - intro H. apply append_cancel_l in H.
    apply (append_cancel_l "-pr-") in H. now apply itoa_inj.
  - now intros ->.
Qed.

Lemma makePullRequestID_same_iff_witness :
  SpinWick.makePullRequestID (fun s => s) "Mattermost-Server" 13245
  = SpinWick.makePullRequestID (fun s => s) "mattermost-server" 13245
  <-> 13245%Z = 13245%Z.
Proof.
  apply (makePullRequestID_same_iff (fun s => s)
           "Mattermost-Server" "mattermost-server" 13245 13245).
  - reflexivity.
  - reflexivity.
  - reflexivity.
Defined.

(** ** Deleting and telling *)

(** X20.  In a run of [waitMattermostInstallation] that does not panic, a
    DELETE is sent exactly when one of the two comments that give the
    installation up is posted: the success comments come with no DELETE,
    and a failed fetch with neither. *)
Theorem waitMattermostInstallation_delete_iff_comment
    Config lower polls (pr : PullRequest) (id : string) (upgrade : bool) :
  outcome (SpinWick.waitMattermostInstallation Config lower polls pr id
             upgrade) <> Panicked ->
  existsb is_delete
    (trace (SpinWick.waitMattermostInstallation Config lower polls pr id
              upgrade))
  = existsb gives_up
      (trace (SpinWick.waitMattermostInstallation Config lower polls pr id
                upgrade)).
Proof.
  induction polls as [|p rest IH];
    cbn [SpinWick.waitMattermostInstallation]; [reflexivity|].
  rewrite bind_makeRequest. cbn [trace outcome fst snd].
  destruct (SpinWick.poll_get p) as [e|code body]; [reflexivity|].
  destruct (Decode body zero_Resource) as [err r].
  destruct (decode_failed err); [reflexivity|].
  unfold SpinWick.initializeMattermostTestServer, SpinWick.commentOnIssue,
    SpinWick.destroyMMInstallation, SpinWick.makeRequest.
  destruct (State r =? "stable").
  { destruct upgrade; cbn [negb]; [reflexivity|].
    destruct (SpinWick.poll_init p); [|reflexivity].
    destruct (SpinWick.poll_delete p); [intro N; now destruct N|].
    reflexivity. }
  destruct (State r =? "creation-failed").
  { destruct (SpinWick.poll_delete p); [intro N; now destruct N|].
    reflexivity. }
  destruct (SpinWick.poll_deadline p).
  { destruct (SpinWick.poll_delete p); [intro N; now destruct N|].
    reflexivity. }
  intro N. cbn [existsb is_delete gives_up]. exact (IH N).
Qed.

Lemma waitMattermostInstallation_delete_iff_comment_witness :
  existsb is_delete
    (trace (SpinWick.waitMattermostInstallation example_config (fun s => s)
              [poll_reading "abc123" "creating" false;
               poll_reading "abc123" "creation-failed" false]
              example_pr "abc123" false))
  = existsb gives_up
      (trace (SpinWick.waitMattermostInstallation example_config (fun s => s)
                [poll_reading "abc123" "creating" false;
                 poll_reading "abc123" "creation-failed" false]
                example_pr "abc123" false)).
Proof.
  apply (waitMattermostInstallation_delete_iff_comment
           example_config (fun s => s)
           [poll_reading "abc123" "creating" false;
            poll_reading "abc123" "creation-failed" false]
           example_pr "abc123" false).
  discriminate.
Defined.
